(** * twty: a shallow embedding of twty.go and its specification

    The development follows the layout of [twty.go]:

    - the parts of Go's [strconv] and [strings] packages the program calls
      ([Atoi], [FormatInt], [Split], [TrimLeft], [NewReplacer]);
    - the option builders ([countToOpt], [timeFormatToOpt], [idToOpt] and
      their wrappers) and the date-shape check [isTimeFormat];
    - the output formatter ([toLocalTime], [showTweets]);
    - the profile store ([getConfig]) and the access-token step
      ([getAccessToken], [clientAuth]).

    Go strings are byte sequences: they are [string] (lists of 8-bit
    [ascii]).  A [map[string]string] is a [gmap string string]; every map
    the program hands to a builder is allocated (a literal or the result of
    another builder), so the nil map is not part of the model.  [int] and
    [int64] are integers in [Z] with the 64-bit wrap-around written out. *)

From Stdlib Require Import ZArith Ascii String List Bool Lia Floats.
From stdpp Require Import base option list strings gmap pretty.

Local Open Scope Z_scope.

(** ** Machine integers *)

Module GoInt.

(** [strconv.IntSize] on the 64-bit platforms the program is built for. *)
Definition intSize : Z := 64.

Definition maxUint64 : Z := 2 ^ 64 - 1.

(** Conversion to an unsigned [w]-bit integer. *)
Definition wrapU (w : Z) (n : Z) : Z := n mod 2 ^ w.

(** Conversion to a signed [w]-bit integer (two's complement). *)
Definition wrapS (w : Z) (n : Z) : Z :=
  (n + 2 ^ (w - 1)) mod 2 ^ w - 2 ^ (w - 1).

Definition inInt64 (n : Z) : Prop := - 2 ^ 63 <= n < 2 ^ 63.

End GoInt.

Import GoInt.

(** ** Bytes of a string *)

Definition byte_of (c : ascii) : Z := Z.of_N (N_of_ascii c).

(** [byte(n)]: the low eight bits. *)
Definition to_byte (n : Z) : Z := n mod 256.

Definition len (s : string) : Z := Z.of_nat (String.length s).

(** ** strconv *)

Module strconv.

Inductive NumError := ErrSyntax | ErrRange | ErrBase.

(** [lower(c)] of strconv/atoi.go: [c | ('x' - 'X')]. *)
Definition lower (c : Z) : Z := Z.lor c 32.

Inductive step := Digit (d : Z) | BadSyntax.

(** The digit switch in the loop of [ParseUint]; the [_] case belongs to
    base 0, which no call of this program uses. *)
Definition digit_of (c : Z) : step :=
  if (48 <=? c) && (c <=? 57) then Digit (to_byte (c - 48))
  else if (97 <=? lower c) && (lower c <=? 122) then Digit (to_byte (lower c - 97 + 10))
  else BadSyntax.

(** The loop of [ParseUint] over the bytes of [s], from accumulator [n]. *)
Fixpoint parseUint_loop (base cutoff maxVal : Z) (s : string) (n : Z)
  : Z * option NumError :=
  match s with
  | EmptyString => (n, None)
  | String ch rest =>
      match digit_of (byte_of ch) with
      | BadSyntax => (0, Some ErrSyntax)
      | Digit d =>
          if to_byte base <=? d then (0, Some ErrSyntax)
          else if cutoff <=? n then (maxVal, Some ErrRange)
          else
            let n := wrapU 64 (n * base) in
            let n1 := wrapU 64 (n + d) in
            if (n1 <? n) || (maxVal <? n1) then (maxVal, Some ErrRange)
            else parseUint_loop base cutoff maxVal rest n1
      end
  end.

(** [strconv.ParseUint(s, base, bitSize)] for an explicit base 2..36. *)
Definition ParseUint (s : string) (base bitSize : Z) : Z * option NumError :=
  if String.eqb s "" then (0, Some ErrSyntax)
  else if negb ((2 <=? base) && (base <=? 36)) then (0, Some ErrBase)
  else
    let bitSize := if bitSize =? 0 then intSize else bitSize in
    let cutoff := maxUint64 / base + 1 in
    let maxVal := wrapU 64 (2 ^ bitSize - 1) in
    parseUint_loop base cutoff maxVal s 0.

(** [strconv.ParseInt(s, base, bitSize)]. *)
Definition ParseInt (s : string) (base bitSize : Z) : Z * option NumError :=
  match s with
  | EmptyString => (0, Some ErrSyntax)
  | String c0 s1 =>
      let neg := Ascii.eqb c0 "-" in
      let s' := if Ascii.eqb c0 "+" || neg then s1 else s in
      let '(un, err) := ParseUint s' base bitSize in
      match err with
      | Some ErrSyntax => (0, Some ErrSyntax)
      | Some ErrBase => (0, Some ErrBase)
      | _ =>
          let bitSize := if bitSize =? 0 then intSize else bitSize in
          let cutoff := wrapU 64 (2 ^ (bitSize - 1)) in
          if negb neg && (cutoff <=? un) then (wrapS 64 (cutoff - 1), Some ErrRange)
          else if neg && (cutoff <? un) then (wrapS 64 (- wrapS 64 cutoff), Some ErrRange)
          else
            let n := wrapS 64 un in
            (if neg then wrapS 64 (- n) else n, None)
      end
  end.

(** The constants of [ParseUint] in base 10 with 64 bits: [cutoff] is
    [maxUint64/10 + 1] and [maxVal] is [1<<64 - 1]. *)
Definition cutoff10 : Z := Eval vm_compute in maxUint64 / 10 + 1.
Definition maxVal64 : Z := Eval vm_compute in wrapU 64 (2 ^ 64 - 1).

(** The fast path of [Atoi]: the loop over the bytes once the sign is off. *)
Fixpoint atoi_loop (s : string) (n : Z) : option Z :=
  match s with
  | EmptyString => Some n
  | String ch rest =>
      let ch := to_byte (byte_of ch - 48) in
      if 9 <? ch then None
      else atoi_loop rest (wrapS intSize (n * 10 + ch))
  end.

(** [strconv.Atoi(s)]: the value and the error, [None] for nil. *)
Definition Atoi (s : string) : Z * option NumError :=
  let sLen := len s in
  if (intSize =? 32) && ((0 <? sLen) && (sLen <? 10))
     || (intSize =? 64) && ((0 <? sLen) && (sLen <? 19)) then
    match s with
    | EmptyString => (0, Some ErrSyntax)
    | String c0 s1 =>
        let signed := Ascii.eqb c0 "-" || Ascii.eqb c0 "+" in
        let s' := if signed then s1 else s in
        if signed && (len s' <? 1) then (0, Some ErrSyntax)
        else
          match atoi_loop s' 0 with
          | None => (0, Some ErrSyntax)
          | Some n => (if Ascii.eqb c0 "-" then wrapS intSize (- n) else n, None)
          end
    end
  else
    let '(i64, err) := ParseInt s 10 0 in
    (wrapS intSize i64, err).

(** The digits of [u] in base 10, most significant first, in front of
    [acc]; [fuel] bounds the number of digits written (the buffer of
    [formatBits] holds 65 bytes). *)
Fixpoint formatBits10 (fuel : nat) (u : Z) (acc : string) : string :=
  let acc := String (ascii_of_N (Z.to_N (48 + u mod 10))) acc in
  match fuel with
  | O => acc
  | S fuel => if u <? 10 then acc else formatBits10 fuel (u / 10) acc
  end.

(** [strconv.FormatInt(i, 10)] for an [int64] [i]. *)
Definition FormatInt (i : Z) : string :=
  let neg := i <? 0 in
  let u := wrapU 64 (if neg then - i else i) in
  let a := formatBits10 64 u "" in
  if neg then String "-" a else a.

End strconv.

(** ** strings *)

Module strings.

(** [strings.HasPrefix(s, prefix)]. *)
Fixpoint HasPrefix (s prefix : string) {struct prefix} : bool :=
  match prefix, s with
  | EmptyString, _ => true
  | String p prefix', String c s' => Ascii.eqb c p && HasPrefix s' prefix'
  | String _ _, EmptyString => false
  end.

(** The scan of [genSplit] for a non-empty separator: [cur] is the piece
    being read, [skip] the bytes of a separator still to pass over. *)
Fixpoint split_scan (sep : string) (skip : nat) (cur : string) (s : string)
  : list string :=
  match s with
  | EmptyString => [cur]
  | String c s' =>
      match skip with
      | S k => split_scan sep k cur s'
      | O =>
          if HasPrefix s sep
          then cur :: split_scan sep (String.length sep - 1) "" s'
          else split_scan sep 0 (cur +:+ String c "") s'
      end
  end.

(** [strings.Split(s, sep)] for [sep] non-empty: the pieces of [s] between
    the occurrences of [sep], read left to right without overlap. *)
Definition Split (s sep : string) : list string := split_scan sep 0 "" s.

(** [strings.Count(s, substr)] for a one-byte [substr]. *)
Fixpoint Count (s : string) (c : ascii) : nat :=
  match s with
  | EmptyString => O
  | String d rest => if Ascii.eqb d c then S (Count rest c) else Count rest c
  end.

(** [strings.Join(elems, sep)]. *)
Fixpoint Join (elems : list string) (sep : string) : string :=
  match elems with
  | [] => ""
  | [e] => e
  | e :: rest => e +:+ sep +:+ Join rest sep
  end.

(** Whether byte [c] occurs in [cutset]. *)
Fixpoint in_cutset (c : ascii) (cutset : string) : bool :=
  match cutset with
  | EmptyString => false
  | String d cutset' => Ascii.eqb c d || in_cutset c cutset'
  end.

(** [strings.TrimLeft(s, cutset)] for a cutset of one-byte characters. *)
Fixpoint TrimLeft (s cutset : string) : string :=
  match s with
  | EmptyString => EmptyString
  | String c s' => if in_cutset c cutset then TrimLeft s' cutset else s
  end.

(** A replacer built by [strings.NewReplacer] from pairs whose old
    strings are single bytes: the first pair for a byte wins. *)
Fixpoint replacement (pairs : list (ascii * string)) (c : ascii) : string :=
  match pairs with
  | [] => String c ""
  | (old, new) :: pairs' => if Ascii.eqb c old then new else replacement pairs' c
  end.

Fixpoint Replace (pairs : list (ascii * string)) (s : string) : string :=
  match s with
  | EmptyString => EmptyString
  | String c s' => replacement pairs c +:+ Replace pairs s'
  end.

End strings.

Import strconv strings.

(** ** Option builders (twty.go, [countToOpt] .. [isTimeFormat]) *)

(** The [for _, v := range splitFormat] loop of [isTimeFormat]. *)
Fixpoint isTimeFormat_loop (splitFormat : list string) : bool :=
  match splitFormat with
  | [] => true
  | v :: rest =>
      match (Atoi v).2 with
      | Some _ => false
      | None => isTimeFormat_loop rest
      end
  end.

Definition isTimeFormat (t : string) : bool :=
  let splitFormat := Split t "-" in
  if negb (Z.of_nat (length splitFormat) =? 3) then false
  else isTimeFormat_loop splitFormat.

Definition countToOpt (opt : gmap string string) (c : string) : gmap string string :=
  if negb (String.eqb c "") then
    match (Atoi c).2 with
    | None => <["count" := c]> opt
    | Some _ => opt
    end
  else opt.

Definition timeFormatToOpt (opt : gmap string string) (key timeFormat : string)
  : gmap string string :=
  if negb (String.eqb timeFormat "") || negb (isTimeFormat timeFormat) then opt
  else <[key := timeFormat]> opt.

Definition sinceToOpt (opt : gmap string string) (timeFormat : string) :=
  timeFormatToOpt opt "since" timeFormat.

Definition untilToOpt (opt : gmap string string) (timeFormat : string) :=
  timeFormatToOpt opt "until" timeFormat.

Definition idToOpt (opt : gmap string string) (key : string) (id : Z)
  : gmap string string :=
  if id <? 1 then opt
  else <[key := FormatInt id]> opt.

Definition sinceIDtoOpt (opt : gmap string string) (id : Z) :=
  idToOpt opt "since_id" id.

Definition maxIDtoOpt (opt : gmap string string) (id : Z) :=
  idToOpt opt "max_id" id.

(** [v] parses as an integer: [strconv.Atoi] returns a nil error. *)
Definition parses_as_int (v : string) : Prop := (Atoi v).2 = None.

(** ** Domain response models *)

Module Tweet.

Record user := {
  Name : string;
  ScreenName : string;
  FollowersCount : Z;
  ProfileImageURL : string }.

Record place := { ID : string; FullName : string }.

Record hashTag := { HashTagIndices : Z * Z; HashTagText : string }.
Record userMention := { MentionIndices : Z * Z; MentionScreenName : string }.
Record url := { URLIndices : Z * Z; URL : string }.

Record entities := {
  HashTags : list hashTag;
  UserMentions : list userMention;
  Urls : list url }.

Record t := {
  Text : string;
  Identifier : string;
  Source : string;
  CreatedAt : string;
  User : user;
  Place : option place;
  Entities : entities }.

End Tweet.

(** [oauth.Credentials] and the fields of [oauth.Client] the program sets. *)
Module oauth.

Record Credentials := { Token : string; Secret : string }.

Record Client := {
  ClientCredentials : Credentials;
  TemporaryCredentialRequestURI : string;
  ResourceOwnerAuthorizationURI : string;
  TokenRequestURI : string }.

End oauth.

(** A Go [error]: its message and what [os.IsNotExist] answers on it. *)
Record error := { Error : string; IsNotExist : bool }.

(** [fmt.Errorf(prefix + "%v", err)]. *)
Definition Errorf (prefix : string) (err : string) : error :=
  {| Error := prefix +:+ err; IsNotExist := false |}.

(** ** Effects

    A run is recorded as the sequence of calls it makes on the terminal,
    the file system and the network, together with how it ends. *)

Inductive Attribute := FgHiRed | FgHiYellow | Reset.

Inductive event :=
| color_Set (a : Attribute)
| fmt_Print (a : list string)
| fmt_Println (a : list string)
| json_Encode (v : Tweet.t)
| Stdout_Sync
| os_MkdirAll (path : string) (perm : Z)
| filepath_Glob (pattern : string)
| ioutil_ReadFile (file : string)
| exec_LookPath (file : string)
| cmd_Start (name : string) (args : list string)
| Stdin_Scan
| RequestTemporaryCredentials (c : oauth.Client)
| RequestToken (c : oauth.Client) (temp : oauth.Credentials) (verifier : string).

Inductive outcome (A : Type) :=
| Returned (a : A)
| Exited (code : Z)
| Panicked.

Arguments Returned {A} a.
Arguments Exited {A} code.
Arguments Panicked {A}.

Definition IO (A : Type) : Type := list event * outcome A.

Definition ret {A} (a : A) : IO A := ([], Returned a).

Definition bind {A B} (m : IO A) (k : A -> IO B) : IO B :=
  match m with
  | (tr, Returned a) => let '(tr', o) := k a in (tr ++ tr', o)
  | (tr, Exited code) => (tr, Exited code)
  | (tr, Panicked) => (tr, Panicked)
  end.

Definition emit (e : event) : IO unit := ([e], Returned tt).

(** A call whose answer [a] comes from the environment. *)
Definition call {A} (e : event) (a : A) : IO A := ([e], Returned a).

Definition os_Exit {A} (code : Z) : IO A := ([], Exited code).

Definition panic {A} : IO A := ([], Panicked).

Declare Scope io_scope.
Delimit Scope io_scope with io.
Notation "x <- m ;; k" := (bind m (fun x => k))
  (at level 100, m at next level, right associativity) : io_scope.
Notation "m ;; k" := (bind m (fun _ => k))
  (at level 100, right associativity) : io_scope.

Local Open Scope io_scope.

Definition trace {A} (m : IO A) : list event := m.1.
Definition result {A} (m : IO A) : outcome A := m.2.

(** [for _, x := range l]. *)
Fixpoint for_range {A} (l : list A) (body : A -> IO unit) : IO unit :=
  match l with
  | [] => ret tt
  | x :: rest => body x ;; for_range rest body
  end.

(** [for i := n - 1; i >= 0; i--]. *)
Fixpoint for_down (n : nat) (body : Z -> IO unit) : IO unit :=
  match n with
  | O => ret tt
  | S k => body (Z.of_nat k) ;; for_down k body
  end.

(** [l[i]]: an index out of range panics. *)
Definition index {A} (l : list A) (i : Z) : IO A :=
  if i <? 0 then panic
  else match l !! Z.to_nat i with
       | Some a => ret a
       | None => panic
       end.

(** [s[lo:hi]]: bounds out of range panic. *)
Definition slice (s : string) (lo hi : Z) : IO string :=
  if (lo <? 0) || (hi <? lo) || (len s <? hi) then panic
  else ret (String.substring (Z.to_nat lo) (Z.to_nat (hi - lo)) s).

(** ** The platform

    What the program takes from outside [twty.go]: library functions left
    abstract ([time], [html], [path/filepath], [encoding/json], the OAuth
    client) and the answers of the operating system and of the network. *)

Class Platform := {
  Time : Type;
  time_Parse : string -> string -> Time * option error;
  time_Local : Time -> Time;
  time_Format : Time -> string -> string;
  html_UnescapeString : string -> string;
  GOOS : string;
  os_Getenv : string -> string;
  filepath_Join : list string -> string;
  filepath_Base : string -> string;
  json_Unmarshal : string -> gmap string string -> gmap string string * option error;
  AuthorizationURL : oauth.Client -> oauth.Credentials -> string;
  MkdirAll_answer : string -> Z -> option error;
  Glob_answer : string -> list string * option error;
  ReadFile_answer : string -> string * option error;
  LookPath_answer : string -> string * option error;
  Start_answer : string -> list string -> option error;
  Scan_answer : option string;
  RequestTemporaryCredentials_answer :
    oauth.Client -> oauth.Credentials * option error;
  RequestToken_answer :
    oauth.Client -> oauth.Credentials -> string -> oauth.Credentials * option error }.

Section Program.

Context `{Platform}.

(** *** Output formatter (twty.go, [replacer] .. [showTweets]) *)

Definition replacer : list (ascii * string) :=
  [ ("013"%char, ""); ("010"%char, " "); ("009"%char, " ") ].

Definition _TimeLayout : string := "Mon Jan 02 15:04:05 -0700 2006".

Definition toLocalTime (timeStr : string) : string :=
  let '(timeValue, err) := time_Parse _TimeLayout timeStr in
  match err with
  | Some _ => timeStr
  | None => time_Format (time_Local timeValue) _TimeLayout
  end.

Definition showTweets (tweets : list Tweet.t) (asjson verbose : bool) : IO unit :=
  if asjson then
    for_range tweets (fun tweet =>
      emit (json_Encode tweet) ;;
      emit Stdout_Sync)
  else if verbose then
    for_down (length tweets) (fun i =>
      name <- (ti <- index tweets i ;; ret (Tweet.Name (Tweet.User ti))) ;;
      user <- (ti <- index tweets i ;; ret (Tweet.ScreenName (Tweet.User ti))) ;;
      text <- (ti <- index tweets i ;; ret (Tweet.Text ti)) ;;
      let text := Replace replacer text in
      emit (color_Set FgHiRed) ;;
      emit (fmt_Println [user +:+ ": " +:+ name]) ;;
      emit (color_Set Reset) ;;
      emit (fmt_Println ["  " +:+ html_UnescapeString text]) ;;
      id <- (ti <- index tweets i ;; ret (Tweet.Identifier ti)) ;;
      emit (fmt_Println ["  " +:+ id]) ;;
      created <- (ti <- index tweets i ;; ret (Tweet.CreatedAt ti)) ;;
      emit (fmt_Println ["  " +:+ toLocalTime created]) ;;
      emit (fmt_Println []))
  else
    for_down (length tweets) (fun i =>
      user <- (ti <- index tweets i ;; ret (Tweet.ScreenName (Tweet.User ti))) ;;
      text <- (ti <- index tweets i ;; ret (Tweet.Text ti)) ;;
      emit (color_Set FgHiRed) ;;
      emit (fmt_Print [user]) ;;
      emit (color_Set Reset) ;;
      emit (fmt_Print [": "]) ;;
      emit (fmt_Println [html_UnescapeString text])).

(** *** Profile store (twty.go, [getConfig]) *)

(** What [getConfig] returns: the file, the configuration ([None] is the
    nil map) and the error. *)
Definition ConfigResult : Type := string * option (gmap string string) * option error.

(** The body of the [for _, name := range names] loop of [getConfig]. *)
Definition listing_body (name : string) : IO unit :=
  let name := filepath_Base name in
  name <- (inner <- slice name 8 (len name - 5) ;; ret (TrimLeft inner "-")) ;;
  emit (fmt_Println [name]).

Definition getConfig (profile : string) : IO ConfigResult :=
  let dir := os_Getenv "HOME" in
  let dir :=
    if String.eqb dir "" && String.eqb GOOS "windows" then
      let dir := os_Getenv "APPDATA" in
      let dir :=
        if String.eqb dir ""
        then filepath_Join [os_Getenv "USERPROFILE"; "Application Data"; "twty"]
        else dir in
      filepath_Join [dir; "twty"]
    else filepath_Join [dir; ".config"; "twty"] in
  err <- call (os_MkdirAll dir 448) (MkdirAll_answer dir 448) ;;
  match err with
  | Some e => ret ("", None, Some e)
  | None =>
      (* [inl r]: the branch returned [r]; [inr file]: it went on with [file] *)
      branch <-
        (if String.eqb profile "" then
           ret (inr (filepath_Join [dir; "settings.json"]))
         else if String.eqb profile "?" then
           let pattern := filepath_Join [dir; "settings*.json"] in
           r <- call (filepath_Glob pattern) (Glob_answer pattern) ;;
           let '(names, err) := r in
           match err with
           | Some e => ret (inl ("", None, Some e))
           | None =>
               for_range names listing_body ;;
               os_Exit 0
           end
         else
           ret (inr (filepath_Join [dir; "settings-" +:+ profile +:+ ".json"]))) ;;
      match branch with
      | inl r => ret r
      | inr file =>
          let config : gmap string string := ∅ in
          r <- call (ioutil_ReadFile file) (ReadFile_answer file) ;;
          let '(b, err) := r in
          match err with
          | Some e =>
              if negb (IsNotExist e) then ret ("", None, Some e)
              else
                let config := <["ClientToken" := "MbartJkKCrSegn45xK9XLw"]> config in
                let config :=
                  <["ClientSecret" := "1nI3dHFtK9UY1kL6UEYWk6r2lFEcNHWhk7MtXe7eo"]> config in
                ret (file, Some config, None)
          | None =>
              let '(config, err) := json_Unmarshal b config in
              match err with
              | Some e =>
                  ret ("", None,
                       Some (Errorf ("could not unmarshal " +:+ file +:+ ": ") (Error e)))
              | None => ret (file, Some config, None)
              end
          end
      end
  end.

(** *** Authorization (twty.go, [oauthClient] .. [getAccessToken]) *)

(** The package-level [oauthClient] as initialised. *)
Definition oauthClient_init : oauth.Client :=
  {| oauth.ClientCredentials := {| oauth.Token := ""; oauth.Secret := "" |};
     oauth.TemporaryCredentialRequestURI := "https://api.twitter.com/oauth/request_token";
     oauth.ResourceOwnerAuthorizationURI := "https://api.twitter.com/oauth/authenticate";
     oauth.TokenRequestURI := "https://api.twitter.com/oauth/access_token" |}.

Definition clientAuth (oauthClient : oauth.Client) (requestToken : oauth.Credentials)
  : IO (option oauth.Credentials * option error) :=
  let browser := "xdg-open" in
  let url := AuthorizationURL oauthClient requestToken in
  let args := [url] in
  let '(browser, args) :=
    if String.eqb GOOS "windows" then ("rundll32.exe", ["url.dll,FileProtocolHandler"; url])
    else if String.eqb GOOS "darwin" then ("open", [url])
    else if String.eqb GOOS "plan9" then ("plumb", args)
    else (browser, args) in
  emit (color_Set FgHiRed) ;;
  emit (fmt_Println ["Open this URL and enter PIN."]) ;;
  emit (color_Set Reset) ;;
  emit (fmt_Println [url]) ;;
  r <- call (exec_LookPath browser) (LookPath_answer browser) ;;
  let '(browser, err) := r in
  started <-
    match err with
    | None =>
        err <- call (cmd_Start browser args) (Start_answer browser args) ;;
        ret err
    | Some _ => ret None
    end ;;
  match started with
  | Some e => ret (None, Some (Errorf "cannot start command: " (Error e)))
  | None =>
      emit (fmt_Print ["PIN: "]) ;;
      scanned <- call Stdin_Scan Scan_answer ;;
      match scanned with
      | None => ret (None, Some (Errorf "canceled" ""))
      | Some text =>
          r <- call (RequestToken oauthClient requestToken text)
                    (RequestToken_answer oauthClient requestToken text) ;;
          let '(accessToken, err) := r in
          match err with
          | Some e => ret (None, Some (Errorf "cannot request token: " (Error e)))
          | None => ret (Some accessToken, None)
          end
      end
  end.

(** The state [getAccessToken] works on: the package-level client and the
    configuration map it shares with its caller. *)
Record AuthState := {
  oauthClient : oauth.Client;
  config : gmap string string }.

Definition TokenResult : Type := option oauth.Credentials * bool * option error.

Definition getAccessToken (st : AuthState) : IO (AuthState * TokenResult) :=
  let cfg := config st in
  let client :=
    {| oauth.ClientCredentials :=
         {| oauth.Token := default "" (cfg !! "ClientToken");
            oauth.Secret := default "" (cfg !! "ClientSecret") |};
       oauth.TemporaryCredentialRequestURI :=
         oauth.TemporaryCredentialRequestURI (oauthClient st);
       oauth.ResourceOwnerAuthorizationURI :=
         oauth.ResourceOwnerAuthorizationURI (oauthClient st);
       oauth.TokenRequestURI := oauth.TokenRequestURI (oauthClient st) |} in
  let authorized := false in
  let accessToken := default "" (cfg !! "AccessToken") in
  let foundToken := bool_decide (is_Some (cfg !! "AccessToken")) in
  let accessSecret := default "" (cfg !! "AccessSecret") in
  let foundSecret := bool_decide (is_Some (cfg !! "AccessSecret")) in
  if foundToken && foundSecret then
    let token := {| oauth.Token := accessToken; oauth.Secret := accessSecret |} in
    ret ({| oauthClient := client; config := cfg |}, (Some token, authorized, None))
  else
    r <- call (RequestTemporaryCredentials client)
              (RequestTemporaryCredentials_answer client) ;;
    let '(requestToken, err) := r in
    match err with
    | Some e =>
        ret ({| oauthClient := client; config := cfg |},
             (None, false,
              Some (Errorf "cannot request temporary credentials: " (Error e))))
    | None =>
        r <- clientAuth client requestToken ;;
        let '(token, err) := r in
        match err, token with
        | Some e, _ =>
            ret ({| oauthClient := client; config := cfg |},
                 (None, false,
                  Some (Errorf "cannot request temporary credentials: " (Error e))))
        | None, None => panic
        | None, Some tok =>
            let cfg := <["AccessToken" := oauth.Token tok]> cfg in
            let cfg := <["AccessSecret" := oauth.Secret tok]> cfg in
            let authorized := true in
            ret ({| oauthClient := client; config := cfg |},
                 (Some tok, authorized, None))
        end
    end.

End Program.

(** ** Integer literals

    What "parses as an integer" means for a string: an optional sign
    followed by one or more decimal digits, read in base 10. *)

Definition is_digit (c : ascii) : bool :=
  (48 <=? byte_of c) && (byte_of c <=? 57).

Fixpoint all_digits (s : string) : bool :=
  match s with
  | EmptyString => true
  | String c rest => is_digit c && all_digits rest
  end.

(** The value of the digits of [s] read after the value [acc]. *)
Fixpoint digits_value (s : string) (acc : Z) : Z :=
  match s with
  | EmptyString => acc
  | String c rest => digits_value rest (10 * acc + (byte_of c - 48))
  end.

(** An unsigned numeral: one or more digits. *)
Definition numeral (s : string) : option Z :=
  match s with
  | EmptyString => None
  | String _ _ => if all_digits s then Some (digits_value s 0) else None
  end.

Definition int_literal (s : string) : option Z :=
  match s with
  | EmptyString => None
  | String c rest =>
      if Ascii.eqb c "-" then Z.opp <$> numeral rest
      else if Ascii.eqb c "+" then numeral rest
      else numeral s
  end.

(** ** What the specification says, in its own words

    Definitions written from the specification's sentences; the
    properties below compare them with the code. *)

Section Specification.

Context `{Platform}.

(** "All carriage returns removed and newlines/tabs collapsed to single
    spaces." *)
Fixpoint collapse_whitespace (s : string) : string :=
  match s with
  | EmptyString => EmptyString
  | String c rest =>
      if Ascii.eqb c "013" then collapse_whitespace rest
      else if Ascii.eqb c "010" || Ascii.eqb c "009"
           then String " " (collapse_whitespace rest)
           else String c (collapse_whitespace rest)
  end.

(** "Parsed with the fixed layout, reformatted in the same layout in the
    local timezone; unparsable timestamps are passed through unchanged." *)
Definition local_timestamp (created_at : string) : string :=
  match time_Parse "Mon Jan 02 15:04:05 -0700 2006" created_at with
  | (parsed, None) => time_Format (time_Local parsed) "Mon Jan 02 15:04:05 -0700 2006"
  | (_, Some _) => created_at
  end.

(** Structured mode: one JSON line per tweet, flushed. *)
Definition json_block (t : Tweet.t) : list event :=
  [ json_Encode t; Stdout_Sync ].

(** Verbose mode: header, body, identifier, timestamp, blank line. *)
Definition verbose_block (t : Tweet.t) : list event :=
  [ color_Set FgHiRed;
    fmt_Println [Tweet.ScreenName (Tweet.User t) +:+ ": " +:+ Tweet.Name (Tweet.User t)];
    color_Set Reset;
    fmt_Println ["  " +:+ html_UnescapeString (collapse_whitespace (Tweet.Text t))];
    fmt_Println ["  " +:+ Tweet.Identifier t];
    fmt_Println ["  " +:+ local_timestamp (Tweet.CreatedAt t)];
    fmt_Println [] ].

(** Plain mode: coloured screen name, [": "], unescaped text. *)
Definition plain_block (t : Tweet.t) : list event :=
  [ color_Set FgHiRed;
    fmt_Print [Tweet.ScreenName (Tweet.User t)];
    color_Set Reset;
    fmt_Print [": "];
    fmt_Println [html_UnescapeString (Tweet.Text t)] ].

Definition block (asjson verbose : bool) (t : Tweet.t) : list event :=
  if asjson then json_block t
  else if verbose then verbose_block t
  else plain_block t.

(** The tweets rendered one after the other in the order of [tweets]. *)
Definition rendered (asjson verbose : bool) (tweets : list Tweet.t) : list event :=
  concat (map (block asjson verbose) tweets).


(** The per-user directory of the tool. *)
Definition profileDir : string :=
  if String.eqb (os_Getenv "HOME") "" && String.eqb GOOS "windows" then
    filepath_Join
      [ (if String.eqb (os_Getenv "APPDATA") ""
         then filepath_Join [os_Getenv "USERPROFILE"; "Application Data"; "twty"]
         else os_Getenv "APPDATA");
        "twty" ]
  else filepath_Join [os_Getenv "HOME"; ".config"; "twty"].

(** "[settings.json] for the default profile, [settings-<profile>.json]
    for a named profile." *)
Definition settingsFileName (profile : string) : string :=
  if String.eqb profile "" then "settings.json"
  else "settings-" +:+ profile +:+ ".json".

(** The built-in client credentials and nothing else. *)
Definition seededConfig : gmap string string :=
  {[ "ClientToken" := "MbartJkKCrSegn45xK9XLw";
     "ClientSecret" := "1nI3dHFtK9UY1kL6UEYWk6r2lFEcNHWhk7MtXe7eo" ]}.

(** The file name of a profile file: [settings], a middle part, [.json]. *)
Definition profileFileName (middle : string) : string :=
  "settings" +:+ middle +:+ ".json".

End Specification.

(** ** A sample platform

    A small POSIX machine with an empty profile directory, used to run the
    program on concrete inputs. *)

Module Sample.

Definition notExist : error := {| Error := "no such file or directory"; IsNotExist := true |}.
Definition badTime : error := {| Error := "cannot parse"; IsNotExist := false |}.

(** Path elements joined with [/]. *)
Definition join (elems : list string) : string := Join elems "/".

(** The part of a path after its last [/]. *)
Definition base (path : string) : string := List.last (Split path "/") ".".

#[export] Instance platform : Platform := {|
  Time := Z;
  time_Parse := fun _ value =>
    if String.eqb value "Thu Jan 01 00:00:00 +0000 1970" then (0, None)
    else (0, Some badTime);
  time_Local := fun t => t;
  time_Format := fun t _ =>
    if t =? 0 then "Thu Jan 01 09:00:00 +0900 1970" else "Thu Jan 01 00:00:00 +0000 1970";
  html_UnescapeString := fun s => s;
  GOOS := "linux";
  os_Getenv := fun name => if String.eqb name "HOME" then "/home/alice" else "";
  filepath_Join := join;
  filepath_Base := base;
  json_Unmarshal := fun _ m => (m, None);
  AuthorizationURL := fun _ _ => "https://api.twitter.com/oauth/authenticate";
  MkdirAll_answer := fun _ _ => None;
  Glob_answer := fun _ =>
    ([ "/home/alice/.config/twty/settings.json";
       "/home/alice/.config/twty/settings-work.json" ], None);
  ReadFile_answer := fun _ => ("", Some notExist);
  LookPath_answer := fun file => (file, Some notExist);
  Start_answer := fun _ _ => None;
  Scan_answer := None;
  RequestTemporaryCredentials_answer := fun _ =>
    ({| oauth.Token := ""; oauth.Secret := "" |}, Some notExist);
  RequestToken_answer := fun _ _ _ =>
    ({| oauth.Token := ""; oauth.Secret := "" |}, Some notExist) |}.

Definition alice : Tweet.user :=
  {| Tweet.Name := "Alice A"; Tweet.ScreenName := "alice";
     Tweet.FollowersCount := 3; Tweet.ProfileImageURL := "" |}.

Definition tweet (id text created : string) : Tweet.t :=
  {| Tweet.Text := text; Tweet.Identifier := id; Tweet.Source := "";
     Tweet.CreatedAt := created; Tweet.User := alice; Tweet.Place := None;
     Tweet.Entities :=
       {| Tweet.HashTags := []; Tweet.UserMentions := []; Tweet.Urls := [] |} |}.

Definition first : Tweet.t := tweet "41" "first" "Thu Jan 01 00:00:00 +0000 1970".
Definition second : Tweet.t := tweet "42" "second" "yesterday".

End Sample.

(** ** More of the specification side

    Names for what the properties of the second part talk about. *)


(** Whether [n] fits an [int64]. *)
Definition fitsInt64 (n : Z) : bool := (- 2 ^ 63 <=? n) && (n <? 2 ^ 63).

Section Specification2.

Context `{Platform}.

(** The program [clientAuth] starts to open [url], with its arguments. *)
Definition browserCommand (url : string) : string * list string :=
  if String.eqb GOOS "windows" then ("rundll32.exe", ["url.dll,FileProtocolHandler"; url])
  else if String.eqb GOOS "darwin" then ("open", [url])
  else if String.eqb GOOS "plan9" then ("plumb", [url])
  else ("xdg-open", [url]).

(** The package-level client once [getAccessToken] has loaded the client
    credentials of the configuration into it; a missing key reads as the
    empty string. *)
Definition loadedClient (st : AuthState) : oauth.Client :=
  {| oauth.ClientCredentials :=
       {| oauth.Token := default "" (config st !! "ClientToken");
          oauth.Secret := default "" (config st !! "ClientSecret") |};
     oauth.TemporaryCredentialRequestURI :=
       oauth.TemporaryCredentialRequestURI (oauthClient st);
     oauth.ResourceOwnerAuthorizationURI :=
       oauth.ResourceOwnerAuthorizationURI (oauthClient st);
     oauth.TokenRequestURI := oauth.TokenRequestURI (oauthClient st) |}.

(** What [clientAuth] prints before it touches anything else. *)
Definition authPrompt (url : string) : list event :=
  [ color_Set FgHiRed;
    fmt_Println ["Open this URL and enter PIN."];
    color_Set Reset;
    fmt_Println [url] ].

End Specification2.

(** ** A second sample platform

    A macOS machine that is on line: the settings file of profile [work]
    exists and holds an access token without its secret, profile [broken]
    holds malformed JSON, profile [locked] cannot be read, and the
    authorization service answers.  [startErr] is what starting the
    browser returns. *)

Module Online.

Definition denied : error := {| Error := "permission denied"; IsNotExist := false |}.
Definition malformed : error := {| Error := "unexpected end of JSON input"; IsNotExist := false |}.

Definition workConfig : gmap string string :=
  {[ "ClientToken" := "ct"; "ClientSecret" := "cs"; "AccessToken" := "stale" ]}.

Definition make (startErr : option error) (pin : option string) : Platform := {|
  Time := Z;
  time_Parse := fun _ _ => (0, Some Sample.badTime);
  time_Local := fun t => t;
  time_Format := fun _ _ => "";
  html_UnescapeString := fun s => s;
  GOOS := "darwin";
  os_Getenv := fun name => if String.eqb name "HOME" then "/Users/bob" else "";
  filepath_Join := Sample.join;
  filepath_Base := Sample.base;
  json_Unmarshal := fun b m =>
    if String.eqb b "work" then (workConfig, None) else (m, Some malformed);
  AuthorizationURL := fun _ temp =>
    "https://api.twitter.com/oauth/authenticate?oauth_token=" +:+ oauth.Token temp;
  MkdirAll_answer := fun _ _ => None;
  Glob_answer := fun _ => ([], None);
  ReadFile_answer := fun file =>
    if String.eqb file "/Users/bob/.config/twty/settings-work.json" then ("work", None)
    else if String.eqb file "/Users/bob/.config/twty/settings-broken.json" then ("{", None)
    else if String.eqb file "/Users/bob/.config/twty/settings-locked.json"
         then ("", Some denied)
         else ("", Some Sample.notExist);
  LookPath_answer := fun file => ("/usr/bin/" +:+ file, None);
  Start_answer := fun _ _ => startErr;
  Scan_answer := pin;
  RequestTemporaryCredentials_answer := fun _ =>
    ({| oauth.Token := "temp"; oauth.Secret := "temp-secret" |}, None);
  RequestToken_answer := fun _ _ verifier =>
    ({| oauth.Token := "fresh-" +:+ verifier; oauth.Secret := "fresh-secret" |}, None) |}.

(** The browser starts and the user types the PIN [1234567]. *)
Definition platform : Platform := make None (Some "1234567").

End Online.

(** ** The rest of the program: media list, network calls and [main]

    The second half of the model covers [files], [upload], [rawCall],
    [showUser], [readFile] and [main].  Its runs record, besides the events
    of the first half, the HTTP requests, the files opened and written and
    the fatal log line. *)

(** [strings.SplitN(s, sep, n)] for a non-empty [sep]: the scan of
    [genSplit] with [cuts] separators still allowed. *)
Fixpoint splitN_scan (sep : string) (cuts skip : nat) (cur : string) (s : string)
  : list string :=
  match s with
  | EmptyString => [cur]
  | String c s' =>
      match skip with
      | S k => splitN_scan sep cuts k cur s'
      | O =>
          match cuts with
          | O => [cur +:+ s]
          | S cuts' =>
              if HasPrefix s sep
              then cur :: splitN_scan sep cuts' (String.length sep - 1) "" s'
              else splitN_scan sep cuts 0 (cur +:+ String c "") s'
          end
      end
  end.

Definition SplitN (s sep : string) (n : Z) : list string :=
  if n =? 0 then []
  else if n <? 0 then Split s sep
  else splitN_scan sep (Z.to_nat (n - 1)) 0 "" s.

(** [strings.Replace(s, old, new, -1)] for a one-byte [old]. *)
Definition ReplaceAll (s : string) (old : ascii) (new : string) : string :=
  Replace [(old, new)] s.

(** *** type files []string *)

(** The [String] method of [files]. *)
Definition files_String (f : list string) : string := Join f ",".

(** The [Set] method of [files]: the list after the call, and the error. *)
Definition files_Set (f : list string) (value : string) : list string * option error :=
  (f ++ [value], None).

(** *** Response models of the second half *)

Module User.

Record t := {
  Id : Z;
  Name : string;
  ScreenName : string;
  FollowersCount : Z;
  FriendsCount : Z;
  ProfileImageURL : string }.

Definition zero : t :=
  {| Id := 0; Name := ""; ScreenName := ""; FollowersCount := 0;
     FriendsCount := 0; ProfileImageURL := "" |}.

End User.

(** A value decoded into an [interface{}]. *)
Unset Elimination Schemes.
Inductive JSONValue :=
| JBool (b : bool)
| JNumber (f : float)
| JString (s : string)
| JArray (a : list JSONValue)
| JObject (o : list (string * JSONValue)).
Set Elimination Schemes.

Module Account.

Record timeZone := { TzName : string; UtcOffset : Z; TzinfoName : string }.

Record sleepTime := {
  Enabled : bool;
  EndTime : option JSONValue;
  StartTime : option JSONValue }.

Record placeType := { PlaceTypeName : string; Code : Z }.

Record trendLocation := {
  Name : string;
  CountryCode : string;
  URL : string;
  Woeid : Z;
  PlaceType : placeType;
  Parentid : Z;
  Country : string }.

Record t := {
  TimeZone : timeZone;
  Protected : bool;
  ScreenName : string;
  AlwaysUseHTTPS : bool;
  UseCookiePersonalization : bool;
  SleepTime : sleepTime;
  GeoEnabled : bool;
  Language : string;
  DiscoverableByEmail : bool;
  DiscoverableByMobilePhone : bool;
  DisplaySensitiveMedia : bool;
  AllowContributorRequest : string;
  AllowDmsFrom : string;
  AllowDmGroupsFrom : string;
  SmartMute : bool;
  TrendLocation : list trendLocation }.

Definition zero : t :=
  {| TimeZone := {| TzName := ""; UtcOffset := 0; TzinfoName := "" |};
     Protected := false; ScreenName := ""; AlwaysUseHTTPS := false;
     UseCookiePersonalization := false;
     SleepTime := {| Enabled := false; EndTime := None; StartTime := None |};
     GeoEnabled := false; Language := ""; DiscoverableByEmail := false;
     DiscoverableByMobilePhone := false; DisplaySensitiveMedia := false;
     AllowContributorRequest := ""; AllowDmsFrom := ""; AllowDmGroupsFrom := "";
     SmartMute := false; TrendLocation := [] |}.

End Account.

Module SearchMetadata.

Record t := {
  CompletedIn : float;
  MaxID : Z;
  MaxIDStr : string;
  NextResults : string;
  Query : string;
  RefreshURL : string;
  Count : Z;
  SinceID : Z;
  SinceIDStr : string }.

Definition zero : t :=
  {| CompletedIn := 0%float; MaxID := 0; MaxIDStr := ""; NextResults := "";
     Query := ""; RefreshURL := ""; Count := 0; SinceID := 0; SinceIDStr := "" |}.

End SearchMetadata.

(** The anonymous result struct of the search branch of [main]. *)
Module SearchResult.

Record t := { Statuses : list Tweet.t; Metadata : SearchMetadata.t }.

Definition zero : t := {| Statuses := []; Metadata := SearchMetadata.zero |}.

End SearchResult.

(** The anonymous result struct of the upload loop of [main]. *)
Module MediaResult.

Record image := { ImageType : string; W : Z; H : Z }.

Record t := {
  MediaID : Z;
  MediaIDString : string;
  Size : Z;
  ExpiresAfterSecs : Z;
  Image : image }.

Definition zero : t :=
  {| MediaID := 0; MediaIDString := ""; Size := 0; ExpiresAfterSecs := 0;
     Image := {| ImageType := ""; W := 0; H := 0 |} |}.

End MediaResult.

Definition Tweet_zero : Tweet.t :=
  {| Tweet.Text := ""; Tweet.Identifier := ""; Tweet.Source := "";
     Tweet.CreatedAt := "";
     Tweet.User := {| Tweet.Name := ""; Tweet.ScreenName := "";
                      Tweet.FollowersCount := 0; Tweet.ProfileImageURL := "" |};
     Tweet.Place := None;
     Tweet.Entities :=
       {| Tweet.HashTags := []; Tweet.UserMentions := []; Tweet.Urls := [] |} |}.

(** *** HTTP *)

(** [url.Values]. *)
Definition Values : Type := gmap string (list string).

(** The [url.Values] built by [param.Set(k, v)] for every pair of [opt];
    a nil [opt] is the empty map. *)
Definition valuesOf (opt : gmap string string) : Values := (fun v => [v]) <$> opt.

Record Response := { StatusCode : Z; Body : string }.

(** The request [upload] builds. *)
Record Request := {
  Method : string;
  URL : string;
  ContentType : string;
  Authorization : string;
  RequestBody : string }.

(** [json.NewDecoder(body).Decode(&res)] into the value [res] holds: the
    value afterwards and the error. *)
Definition Decoder (A : Type) : Type := string -> A -> A * option error.

(** *** Runs of the second half *)

Inductive fmtArg := ArgInt (n : Z) | ArgString (s : string).

Inductive action :=
| local (e : event)
| os_Setenv (key value : string)
| log_Fatal (v : list string)
| ioutil_WriteFile (file data : string) (perm : Z)
| ioutil_ReadAll_Stdin
| os_Open (file : string)
| io_Copy (file : string)
| File_Close (file : string)
| http_Get (url : string)
| http_PostForm (url : string) (data : Values)
| http_Do (req : Request)
| Body_Close
| Stdout_Tee (body : string)
| fmt_Printf (format : string) (a : list fmtArg)
| json_EncodeUser (v : User.t).

Definition Run (A : Type) : Type := list action * outcome A.

Definition rret {A} (a : A) : Run A := ([], Returned a).

Definition rbind {A B} (m : Run A) (k : A -> Run B) : Run B :=
  match m with
  | (tr, Returned a) => let '(tr', o) := k a in (tr ++ tr', o)
  | (tr, Exited code) => (tr, Exited code)
  | (tr, Panicked) => (tr, Panicked)
  end.

Definition act (a : action) : Run unit := ([a], Returned tt).

(** A call whose answer comes from the environment. *)
Definition ask {A} (a : action) (answer : A) : Run A := ([a], Returned answer).

(** A run of the first half inside a run of the second. *)
Definition lift {A} (m : IO A) : Run A := (local <$> m.1, m.2).

(** [log.Fatal(v...)]: the line on the error stream, then exit status 1. *)
Definition Fatal {A} (v : list string) : Run A := ([log_Fatal v], Exited 1).

Definition rpanic {A} : Run A := ([], Panicked).

Declare Scope run_scope.
Delimit Scope run_scope with run.
Notation "x <- m ;; k" := (rbind m (fun x => k))
  (at level 100, m at next level, right associativity) : run_scope.
Notation "m ;; k" := (rbind m (fun _ => k))
  (at level 100, right associativity) : run_scope.

(** [l[i]] in a run of the second half. *)
Definition rindex {A} (l : list A) (i : Z) : Run A :=
  if i <? 0 then rpanic
  else match l !! Z.to_nat i with
       | Some a => rret a
       | None => rpanic
       end.

(** What the second half takes from outside [twty.go]. *)
Class Remote := {
  SignParam :
    oauth.Client -> option oauth.Credentials -> string -> string -> Values -> Values;
  Values_Encode : Values -> string;
  FormDataContentType : string;
  multipart_body : string -> string -> string -> string;
  json_MarshalIndent : gmap string string -> string * option error;
  decode_tweets : Decoder (list Tweet.t);
  decode_tweet : Decoder Tweet.t;
  decode_search : Decoder SearchResult.t;
  decode_account : Decoder Account.t;
  decode_user : Decoder User.t;
  decode_media : Decoder MediaResult.t;
  Get_answer : string -> Response * option error;
  PostForm_answer : string -> Values -> Response * option error;
  Do_answer : Request -> Response * option error;
  Open_answer : string -> option error;
  Copy_answer : string -> string * option error;
  ReadAll_answer : string * option error;
  WriteFile_answer : string -> string -> Z -> option error }.

(** The parsed command line: the flag variables of [main] after
    [flag.Parse()], and [flag.Args()]. *)
Module Flags.

Record t := {
  profile : string;
  reply : bool;
  list_ : string;
  asjson : bool;
  user : string;
  favorite : string;
  search : string;
  inreply : string;
  media : list string;
  verbose : bool;
  debug : bool;
  show_user : string;
  fromfile : string;
  count : string;
  since : string;
  until : string;
  sinceID : Z;
  maxID : Z;
  Args : list string }.

End Flags.

Section Program2.

Context `{Platform} `{Remote}.

Local Open Scope run_scope.

Definition _EmojiRedHeart : string := String "226" (String "157" (String "164" "")).
Definition _EmojiHighVoltage : string := String "226" (String "154" (String "161" "")).

(** A line feed, written [\n] in the format strings of the source. *)
Definition LF : string := String "010" "".

(** *** twty.go, [upload] and [rawCall] *)

Definition upload {A} (decode : Decoder A)
    (oauthClient : oauth.Client) (token : option oauth.Credentials)
    (file : string) (opt : gmap string string) (res : option A)
  : Run (option A * option error) :=
  let uri := "https://upload.twitter.com/1.1/media/upload.json" in
  let param := valuesOf opt in
  let param := SignParam oauthClient token "POST" uri param in
  err <- ask (os_Open file) (Open_answer file) ;;
  match err with
  | Some e => rret (res, Some e)
  | None =>
      (* [w.CreateFormFile] writes the part header into a [bytes.Buffer]:
         it returns no error. *)
      r <- ask (io_Copy file) (Copy_answer file) ;;
      let '(content, err) := r in
      match err with
      | Some e => act (File_Close file) ;; rret (res, Some e)
      | None =>
          (* [http.NewRequest] on the constant method and URL returns no error. *)
          let req :=
            {| Method := "POST"; URL := uri;
               ContentType := FormDataContentType;
               Authorization := "OAuth " +:+ ReplaceAll (Values_Encode param) "&" ",";
               RequestBody := multipart_body "media" file content |} in
          r <- ask (http_Do req) (Do_answer req) ;;
          let '(resp, err) := r in
          match err with
          | Some e => act (File_Close file) ;; rret (res, Some e)
          | None =>
              match res with
              | None => act Body_Close ;; act (File_Close file) ;; rret (None, None)
              | Some target =>
                  let '(v, err) := decode (Body resp) target in
                  act Body_Close ;; act (File_Close file) ;; rret (Some v, err)
              end
          end
      end
  end.

Definition rawCall {A} (decode : Decoder A) (debug : bool)
    (oauthClient : oauth.Client) (token : option oauth.Credentials)
    (method uri : string) (opt : gmap string string) (res : option A)
  : Run (option A * option error) :=
  let param := valuesOf opt in
  let param := SignParam oauthClient token method uri param in
  r <- (if String.eqb method "GET" then
          let uri := uri +:+ "?" +:+ Values_Encode param in
          ask (http_Get uri) (Get_answer uri)
        else
          ask (http_PostForm uri param) (PostForm_answer uri param)) ;;
  let '(resp, err) := r in
  match err with
  | Some e => rret (res, Some e)
  | None =>
      match res with
      | None => act Body_Close ;; rret (None, None)
      | Some target =>
          (if debug then act (Stdout_Tee (Body resp)) else rret tt) ;;
          let '(v, err) := decode (Body resp) target in
          act Body_Close ;; rret (Some v, err)
      end
  end.

(** *** twty.go, [showUser] and [readFile] *)

Definition showUser (user : User.t) (asjson verbose : bool) : Run unit :=
  if asjson then
    act (json_EncodeUser user) ;;
    act (local Stdout_Sync)
  else if verbose then
    act (fmt_Printf ("id: %d" +:+ LF) [ArgInt (User.Id user)])
  else
    act (fmt_Printf ("id: %d" +:+ LF) [ArgInt (User.Id user)]) ;;
    act (fmt_Printf ("name: %s" +:+ LF) [ArgString (User.Name user)]) ;;
    act (fmt_Printf ("screen_name: %s" +:+ LF) [ArgString (User.ScreenName user)]) ;;
    act (fmt_Printf ("followers_count: %d" +:+ LF) [ArgInt (User.FollowersCount user)]) ;;
    act (fmt_Printf ("friends_count: %d" +:+ LF) [ArgInt (User.FriendsCount user)]) ;;
    act (fmt_Printf ("profile_image_url: %s" +:+ LF)
           [ArgString (User.ProfileImageURL user)]).

Definition readFile (filename : string) : Run (string * option error) :=
  if String.eqb filename "-" then ask ioutil_ReadAll_Stdin ReadAll_answer
  else lift (call (ioutil_ReadFile filename) (ReadFile_answer filename)).

(** *** twty.go, [main] *)

(** The [for i := range media] loop of [main], from index [i] with [todo]
    entries to go: [res] is the one result struct every upload decodes
    into. *)
Fixpoint upload_loop (oauthClient : oauth.Client) (token : option oauth.Credentials)
    (todo : nat) (i : Z) (media : list string) (res : MediaResult.t)
  : Run (list string) :=
  match todo with
  | O => rret media
  | S todo' =>
      file <- rindex media i ;;
      r <- upload decode_media oauthClient token file ∅ (Some res) ;;
      let '(res', err) := r in
      match err with
      | Some e => Fatal ["cannot upload media:"; Error e]
      | None =>
          let res := default res res' in
          if (i <? 0) || (Z.of_nat (length media) <=? i) then rpanic
          else
            let media := <[Z.to_nat i := MediaResult.MediaIDString res]> media in
            upload_loop oauthClient token todo' (i + 1) media res
      end
  end.

(** The [POST statuses/update.json] call shared by the two posting
    branches, and the line printed after it. *)
Definition post (fl : Flags.t) (oauthClient : oauth.Client)
    (token : option oauth.Credentials) (media : list string) (status : string)
  : Run unit :=
  r <- rawCall decode_tweet (Flags.debug fl) oauthClient token "POST"
         "https://api.twitter.com/1.1/statuses/update.json"
         (<["status" := status]>
            (<["in_reply_to_status_id" := Flags.inreply fl]>
               (<["media_ids" := files_String media]> ∅)))
         (Some Tweet_zero) ;;
  let '(tweet, err) := r in
  match err with
  | Some e => Fatal ["cannot post tweet:"; Error e]
  | None =>
      act (local (fmt_Println ["tweeted:"; Tweet.Identifier (default Tweet_zero tweet)]))
  end.

(** The branches of [main] after the upload loop. *)
Definition main_action (fl : Flags.t) (oauthClient : oauth.Client)
    (token : option oauth.Credentials) (media : list string) : Run unit :=
  let debug := Flags.debug fl in
  let asjson := Flags.asjson fl in
  let verbose := Flags.verbose fl in
  let count := Flags.count fl in
  if 0 <? len (Flags.search fl) then
    let opt := countToOpt (<["q" := Flags.search fl]> ∅) count in
    let opt := sinceToOpt opt (Flags.since fl) in
    let opt := untilToOpt opt (Flags.until fl) in
    r <- rawCall decode_search debug oauthClient token "GET"
           "https://api.twitter.com/1.1/search/tweets.json" opt
           (Some SearchResult.zero) ;;
    let '(res, err) := r in
    match err with
    | Some e => Fatal ["cannot get statuses:"; Error e]
    | None =>
        lift (showTweets (SearchResult.Statuses (default SearchResult.zero res))
                asjson verbose)
    end
  else if Flags.reply fl then
    r <- rawCall decode_tweets debug oauthClient token "GET"
           "https://api.twitter.com/1.1/statuses/mentions_timeline.json"
           (countToOpt ∅ count) (Some []) ;;
    let '(tweets, err) := r in
    match err with
    | Some e => Fatal ["cannot get tweets:"; Error e]
    | None => lift (showTweets (default [] tweets) asjson verbose)
    end
  else if negb (String.eqb (Flags.list_ fl) "") then
    let part := SplitN (Flags.list_ fl) "/" 2 in
    part <-
      (if Z.of_nat (length part) =? 1 then
         r <- rawCall decode_account debug oauthClient token "GET"
                "https://api.twitter.com/1.1/account/settings.json" ∅
                (Some Account.zero) ;;
         let '(account, err) := r in
         match err with
         | Some e => Fatal ["cannot get account:"; Error e]
         | None =>
             p0 <- rindex part 0 ;;
             rret [Account.ScreenName (default Account.zero account); p0]
         end
       else rret part) ;;
    p0 <- rindex part 0 ;;
    p1 <- rindex part 1 ;;
    let opt := <["owner_screen_name" := p0]> (<["slug" := p1]> ∅) in
    let opt := countToOpt opt count in
    let opt := sinceIDtoOpt opt (Flags.sinceID fl) in
    let opt := maxIDtoOpt opt (Flags.maxID fl) in
    r <- rawCall decode_tweets debug oauthClient token "GET"
           "https://api.twitter.com/1.1/lists/statuses.json" opt (Some []) ;;
    let '(tweets, err) := r in
    match err with
    | Some e => Fatal ["cannot get tweets:"; Error e]
    | None => lift (showTweets (default [] tweets) asjson verbose)
    end
  else if negb (String.eqb (Flags.user fl) "") then
    let opt := <["screen_name" := Flags.user fl]> ∅ in
    let opt := countToOpt opt count in
    let opt := sinceIDtoOpt opt (Flags.sinceID fl) in
    let opt := maxIDtoOpt opt (Flags.maxID fl) in
    r <- rawCall decode_tweets debug oauthClient token "GET"
           "https://api.twitter.com/1.1/statuses/user_timeline.json" opt (Some []) ;;
    let '(tweets, err) := r in
    match err with
    | Some e => Fatal ["cannot get tweets:"; Error e]
    | None => lift (showTweets (default [] tweets) asjson verbose)
    end
  else if negb (String.eqb (Flags.favorite fl) "") then
    r <- rawCall decode_tweet debug oauthClient token "POST"
           "https://api.twitter.com/1.1/favorites/create.json"
           (<["id" := Flags.favorite fl]> ∅) None ;;
    let '(_, err) := r in
    match err with
    | Some e => Fatal ["cannot create favorite:"; Error e]
    | None =>
        act (local (color_Set FgHiRed)) ;;
        act (local (fmt_Print [_EmojiRedHeart])) ;;
        act (local (color_Set Reset)) ;;
        act (local (fmt_Println ["favorited"]))
    end
  else if negb (String.eqb (Flags.fromfile fl) "") then
    r <- readFile (Flags.fromfile fl) ;;
    let '(text, err) := r in
    match err with
    | Some e => Fatal ["cannot read a new tweet:"; Error e]
    | None => post fl oauthClient token media text
    end
  else if negb (String.eqb (Flags.show_user fl) "") then
    let opt := <["screen_name" := Flags.show_user fl]> ∅ in
    r <- rawCall decode_user debug oauthClient token "GET"
           "https://api.twitter.com/1.1/users/show.json" opt (Some User.zero) ;;
    let '(user, err) := r in
    match err with
    | Some e => Fatal ["cannot get user:"; Error e]
    | None => showUser (default User.zero user) asjson verbose
    end
  else if (Z.of_nat (length (Flags.Args fl)) =? 0) && (Z.of_nat (length media) =? 0) then
    if negb (String.eqb (Flags.inreply fl) "") then
      r <- rawCall decode_tweet debug oauthClient token "POST"
             ("https://api.twitter.com/1.1/statuses/retweet/"
              +:+ Flags.inreply fl +:+ ".json")
             (countToOpt ∅ count) (Some Tweet_zero) ;;
      let '(tweet, err) := r in
      match err with
      | Some e => Fatal ["cannot retweet:"; Error e]
      | None =>
          act (local (color_Set FgHiYellow)) ;;
          act (local (fmt_Print [_EmojiHighVoltage])) ;;
          act (local (color_Set Reset)) ;;
          act (local (fmt_Println
                        ["retweeted:"; Tweet.Identifier (default Tweet_zero tweet)]))
      end
    else
      r <- rawCall decode_tweets debug oauthClient token "GET"
             "https://api.twitter.com/1.1/statuses/home_timeline.json"
             (countToOpt ∅ count) (Some []) ;;
      let '(tweets, err) := r in
      match err with
      | Some e => Fatal ["cannot get tweets:"; Error e]
      | None => lift (showTweets (default [] tweets) asjson verbose)
      end
  else
    post fl oauthClient token media (Join (Flags.Args fl) " ").


End Program2.

(** ** Specification side of the second half *)

(** The HTTP requests among the actions of a run. *)
Definition is_request (a : action) : bool :=
  match a with
  | http_Get _ | http_PostForm _ _ | http_Do _ => true
  | _ => false
  end.

Definition requests (tr : list action) : list action := List.filter is_request tr.

Definition is_Body_Close (a : action) : bool :=
  match a with
  | Body_Close => true
  | _ => false
  end.

(** The actions of the first half: everything written to the terminal
    except the echo of the debug flag. *)
Definition is_local (a : action) : bool :=
  match a with
  | local _ => true
  | _ => false
  end.

Definition is_WriteFile (a : action) : bool :=
  match a with
  | ioutil_WriteFile _ _ _ => true
  | _ => false
  end.

Definition is_log_Fatal (a : action) : bool :=
  match a with
  | log_Fatal _ => true
  | _ => false
  end.

(** What [showTweets], [showUser] and the confirmation lines of [main]
    print.  The echo of the debug flag is not among them. *)
Definition is_rendering (a : action) : bool :=
  match a with
  | local (color_Set _) | local (fmt_Print _) | local (fmt_Println _)
  | local (json_Encode _) | local Stdout_Sync
  | fmt_Printf _ _ | json_EncodeUser _ => true
  | _ => false
  end.

(** A run of the branches of [main] that ends in order: nothing is written
    to a file; a run that returns logged no fatal error; a run that exits
    does so with status 1, straight after the fatal log line, having
    rendered nothing; and no run panics. *)
Definition ends_cleanly (run : Run unit) : Prop :=
  List.filter is_WriteFile run.1 = []
  /\ match run.2 with
     | Returned _ => List.filter is_log_Fatal run.1 = []
     | Exited code =>
         code = 1
         /\ (exists v, last run.1 = Some (log_Fatal v))
         /\ List.filter is_rendering run.1 = []
     | Panicked => False
     end.

(** Actions that neither write a file, nor log a fatal error, nor render. *)
Definition is_plumbing (a : action) : bool :=
  negb (is_WriteFile a) && negb (is_log_Fatal a) && negb (is_rendering a).

Section Specification3.

Context `{Platform} `{Remote}.

(** The request [rawCall] sends: the signed parameters go into the query
    string of a GET and into the form of anything else. *)
Definition rawRequest (oauthClient : oauth.Client) (token : option oauth.Credentials)
    (method uri : string) (opt : gmap string string) : action :=
  if String.eqb method "GET"
  then http_Get (uri +:+ "?"
                 +:+ Values_Encode (SignParam oauthClient token method uri (valuesOf opt)))
  else http_PostForm uri (SignParam oauthClient token method uri (valuesOf opt)).

(** What the network answers to it. *)
Definition rawAnswer (oauthClient : oauth.Client) (token : option oauth.Credentials)
    (method uri : string) (opt : gmap string string) : Response * option error :=
  if String.eqb method "GET"
  then Get_answer (uri +:+ "?"
                   +:+ Values_Encode (SignParam oauthClient token method uri (valuesOf opt)))
  else PostForm_answer uri (SignParam oauthClient token method uri (valuesOf opt)).

(** The request [upload] sends for [file] once [content] has been read. *)
Definition uploadRequest (oauthClient : oauth.Client) (token : option oauth.Credentials)
    (file : string) (opt : gmap string string) (content : string) : Request :=
  {| Method := "POST";
     URL := "https://upload.twitter.com/1.1/media/upload.json";
     ContentType := FormDataContentType;
     Authorization :=
       "OAuth "
       +:+ ReplaceAll
             (Values_Encode
                (SignParam oauthClient token "POST"
                   "https://upload.twitter.com/1.1/media/upload.json" (valuesOf opt)))
             "&" ",";
     RequestBody := multipart_body "media" file content |}.

(** The result struct after the uploads of [files], each decoded into the
    struct the one before left. *)
Fixpoint uploadedRes (oauthClient : oauth.Client) (token : option oauth.Credentials)
    (files : list string) (res : MediaResult.t) : MediaResult.t :=
  match files with
  | [] => res
  | file :: rest =>
      let req := uploadRequest oauthClient token file ∅ (Copy_answer file).1 in
      uploadedRes oauthClient token rest (decode_media (Body (Do_answer req).1) res).1
  end.

(** The media identifiers the upload loop puts in place of [files]. *)
Fixpoint uploadedIDs (oauthClient : oauth.Client) (token : option oauth.Credentials)
    (files : list string) (res : MediaResult.t) : list string :=
  match files with
  | [] => []
  | file :: rest =>
      MediaResult.MediaIDString (uploadedRes oauthClient token [file] res)
        :: uploadedIDs oauthClient token rest (uploadedRes oauthClient token [file] res)
  end.

(** The actions of uploads that go through, file by file. *)
Definition uploadActions (oauthClient : oauth.Client) (token : option oauth.Credentials)
    (files : list string) : list action :=
  concat
    ((fun file =>
        [ os_Open file; io_Copy file;
          http_Do (uploadRequest oauthClient token file ∅ (Copy_answer file).1);
          Body_Close; File_Close file ]) <$> files).

(** [s] cut at the first byte [c]: the text before it and the text after. *)
Fixpoint cut (s : string) (c : ascii) : option (string * string) :=
  match s with
  | EmptyString => None
  | String d rest =>
      if Ascii.eqb d c then Some (EmptyString, rest)
      else match cut rest c with
           | Some (before, after) => Some (String d before, after)
           | None => None
           end
  end.

(** An upload that goes through: the file opens and is read, the request
    is answered and the answer decodes. *)
Definition uploadSucceeds (oauthClient : oauth.Client) (token : option oauth.Credentials)
    (file : string) : Prop :=
  Open_answer file = None
  /\ (Copy_answer file).2 = None
  /\ (Do_answer (uploadRequest oauthClient token file ∅ (Copy_answer file).1)).2 = None
  /\ forall res,
       (decode_media
          (Body (Do_answer (uploadRequest oauthClient token file ∅ (Copy_answer file).1)).1)
          res).2 = None.

End Specification3.

(** ** A sample network

    The service answers every request unless [online] is false; an upload
    is answered with the name of the file as media identifier. *)

Module Wire.

Definition unreachable : error := {| Error := "no route to host"; IsNotExist := false |}.
Definition notJSON : error := {| Error := "invalid character"; IsNotExist := false |}.

Definition bob : Account.t :=
  {| Account.TimeZone :=
       {| Account.TzName := ""; Account.UtcOffset := 0; Account.TzinfoName := "" |};
     Account.Protected := false; Account.ScreenName := "bob";
     Account.AlwaysUseHTTPS := true; Account.UseCookiePersonalization := false;
     Account.SleepTime :=
       {| Account.Enabled := false; Account.EndTime := None; Account.StartTime := None |};
     Account.GeoEnabled := false; Account.Language := "en";
     Account.DiscoverableByEmail := false; Account.DiscoverableByMobilePhone := false;
     Account.DisplaySensitiveMedia := false; Account.AllowContributorRequest := "";
     Account.AllowDmsFrom := ""; Account.AllowDmGroupsFrom := "";
     Account.SmartMute := false; Account.TrendLocation := [] |}.

Definition transport (online : bool) (body : string) : Response * option error :=
  if online then ({| StatusCode := 200; Body := body |}, None)
  else ({| StatusCode := 0; Body := "" |}, Some unreachable).

Definition make (online : bool) : Remote := {|
  SignParam := fun _ token _ _ values =>
    <["oauth_token" := [default "" (oauth.Token <$> token)]]> values;
  Values_Encode := fun values =>
    Join ((fun kv => kv.1 +:+ "=" +:+ Join kv.2 ",") <$> map_to_list values) "&";
  FormDataContentType := "multipart/form-data; boundary=b";
  multipart_body := fun field filename content => filename;
  json_MarshalIndent := fun cfg =>
    (Join ((fun kv => kv.1 +:+ "=" +:+ kv.2) <$> map_to_list cfg) ";", None);
  decode_tweets := fun body target =>
    if String.eqb body "timeline" then ([Sample.first; Sample.second], None)
    else (target, Some notJSON);
  decode_tweet := fun body target =>
    if String.eqb body "timeline" then (Sample.second, None) else (target, Some notJSON);
  decode_search := fun body target =>
    ({| SearchResult.Statuses := [Sample.first];
        SearchResult.Metadata := SearchResult.Metadata target |}, None);
  decode_account := fun body target => (bob, None);
  decode_user := fun body target => (target, None);
  decode_media := fun body target =>
    ({| MediaResult.MediaID := MediaResult.MediaID target;
        MediaResult.MediaIDString := "id-" +:+ body;
        MediaResult.Size := MediaResult.Size target;
        MediaResult.ExpiresAfterSecs := MediaResult.ExpiresAfterSecs target;
        MediaResult.Image := MediaResult.Image target |}, None);
  Get_answer := fun _ => transport online "timeline";
  PostForm_answer := fun _ _ => transport online "timeline";
  Do_answer := fun req => transport online (RequestBody req);
  Open_answer := fun file =>
    if String.eqb file "missing.png" then Some Sample.notExist else None;
  Copy_answer := fun file => ("bytes", None);
  ReadAll_answer := ("from stdin", None);
  WriteFile_answer := fun _ _ _ => None |}.

Definition remote : Remote := make true.
Definition offline : Remote := make false.


Definition bobToken : option oauth.Credentials :=
  Some {| oauth.Token := "at"; oauth.Secret := "as" |}.

(** Command lines that set the flags of one branch, with a since date in
    the accepted shape and a count. *)
Definition flags (search list_ favorite fromfile inreply : string) (args : list string)
  : Flags.t :=
  {| Flags.profile := ""; Flags.reply := false; Flags.list_ := list_;
     Flags.asjson := false; Flags.user := ""; Flags.favorite := favorite;
     Flags.search := search; Flags.inreply := inreply; Flags.media := [];
     Flags.verbose := false; Flags.debug := true; Flags.show_user := "";
     Flags.fromfile := fromfile; Flags.count := "5"; Flags.since := "2017-05-01";
     Flags.until := ""; Flags.sinceID := 0; Flags.maxID := 0; Flags.Args := args |}.

End Wire.

(** * Properties *)

(** ** Machine integers and bytes *)

Lemma wrapS_id w n : 0 < w -> - 2 ^ (w - 1) <= n < 2 ^ (w - 1) -> wrapS w n = n.
Proof.
  intros Hw Hn. unfold wrapS.
  assert (H2 : 2 ^ w = 2 * 2 ^ (w - 1)).
  { replace w with (Z.succ (w - 1)) at 1 by lia. apply Z.pow_succ_r. lia. }
  rewrite Z.mod_small; lia.
Qed.

Lemma wrapU_id w n : 0 <= n < 2 ^ w -> wrapU w n = n.
Proof. intros Hn. unfold wrapU. apply Z.mod_small. exact Hn. Qed.

Lemma byte_of_range c : 0 <= byte_of c < 256.
Proof.
  unfold byte_of. pose proof (N_ascii_bounded c) as Hc. lia.
Qed.

(** ** Strings *)

Lemma append_cons (c : ascii) (a b : string) :
  String c a +:+ b = String c (a +:+ b).
Proof. reflexivity. Qed.

Lemma append_nil (b : string) : "" +:+ b = b.
Proof. reflexivity. Qed.

Lemma substring_prefix (m rest : string) :
  String.substring 0 (String.length m) (m +:+ rest) = m.
Proof.
  induction m as [| c m IH].
  - rewrite append_nil. destruct rest; reflexivity.
  - rewrite append_cons. cbn [String.length String.substring].
    rewrite IH. reflexivity.
Qed.

Lemma length_append (a b : string) :
  String.length (a +:+ b) = (String.length a + String.length b)%nat.
Proof.
  induction a as [| c a IH].
  - reflexivity.
  - rewrite append_cons. cbn [String.length]. rewrite IH. reflexivity.
Qed.

Lemma append_nil_r (s : string) : s +:+ "" = s.
Proof.
  induction s as [| c s IH]; [reflexivity |].
  rewrite append_cons, IH. reflexivity.
Qed.

Lemma append_assoc (a b c : string) : (a +:+ b) +:+ c = a +:+ (b +:+ c).
Proof.
  induction a as [| x a IH]; [reflexivity |].
  rewrite !append_cons, IH. reflexivity.
Qed.

(** ** strconv.FormatInt writes the decimal numeral

    The numeral is compared with stdpp's decimal printer [pretty]. *)

Lemma digit_char (d : Z) :
  0 <= d < 10 ->
  ascii_of_N (Z.to_N (48 + d)) = pretty_N_char (Z.to_N d).
Proof.
  intros Hd.
  assert (Hcases : d = 0 \/ d = 1 \/ d = 2 \/ d = 3 \/ d = 4 \/ d = 5
                   \/ d = 6 \/ d = 7 \/ d = 8 \/ d = 9) by lia.
  repeat (destruct Hcases as [-> | Hcases]; [reflexivity |]).
  subst d. reflexivity.
Qed.

Lemma formatBits10_pretty (fuel : nat) :
  forall (u : Z) (acc : string),
    0 < u < 10 ^ Z.of_nat (S fuel) ->
    formatBits10 fuel u acc = pretty_N_go (Z.to_N u) acc.
Proof.
  induction fuel as [| fuel IH]; intros u acc Hu.
  - change (10 ^ Z.of_nat 1) with 10 in Hu.
    cbn [formatBits10].
    rewrite pretty_N_go_step by lia.
    replace (Z.to_N u `div` 10)%N with 0%N.
    2:{ symmetry. apply N.div_small. lia. }
    rewrite pretty_N_go_0.
    rewrite digit_char by (apply Z.mod_pos_bound; lia).
    rewrite Z2N.inj_mod by lia. reflexivity.
  - cbn [formatBits10].
    rewrite pretty_N_go_step by lia.
    rewrite digit_char by (apply Z.mod_pos_bound; lia).
    rewrite Z2N.inj_mod by lia. change (Z.to_N 10) with 10%N.
    destruct (Z.ltb_spec u 10) as [Hlt | Hge].
    + replace (Z.to_N u `div` 10)%N with 0%N.
      2:{ symmetry. apply N.div_small. lia. }
      rewrite pretty_N_go_0. reflexivity.
    + rewrite IH.
      * rewrite Z2N.inj_div by lia. reflexivity.
      * split.
        -- apply Z.div_str_pos. lia.
        -- apply Z.div_lt_upper_bound; [lia |].
           rewrite <- Z.pow_succ_r by lia.
           rewrite <- Nat2Z.inj_succ. lia.
Qed.

Lemma FormatInt_pretty (i : Z) : inInt64 i -> FormatInt i = pretty i.
Proof.
  unfold inInt64, FormatInt. intros Hi.
  destruct (Z.ltb_spec i 0) as [Hneg | Hpos].
  - rewrite wrapU_id by lia.
    rewrite formatBits10_pretty.
    2:{ split; [lia |]. change (10 ^ Z.of_nat 65) with
          100000000000000000000000000000000000000000000000000000000000000000.
        lia. }
    destruct i as [| p | p]; try lia.
    unfold pretty at 1, pretty_Z, pretty at 1, pretty_positive, pretty, pretty_N.
    rewrite decide_False by lia.
    reflexivity.
  - rewrite wrapU_id by lia.
    destruct i as [| p | p]; try lia.
    + reflexivity.
    + rewrite formatBits10_pretty.
      2:{ split; [lia |]. change (10 ^ Z.of_nat 65) with
            100000000000000000000000000000000000000000000000000000000000000000.
          lia. }
      unfold pretty at 1, pretty_Z, pretty at 1, pretty_positive, pretty, pretty_N.
      rewrite decide_False by lia.
      reflexivity.
Qed.

(** ** strconv.Atoi accepts the integer literals that fit an int64 *)

Lemma to_byte_small n : 0 <= n < 256 -> to_byte n = n.
Proof. intros Hn. unfold to_byte. apply Z.mod_small. exact Hn. Qed.

(** The byte test of the fast path of [Atoi] singles out the digits. *)
Lemma atoi_digit_test (c : ascii) :
  (9 <? to_byte (byte_of c - 48)) = negb (is_digit c)
  /\ (is_digit c = true -> to_byte (byte_of c - 48) = byte_of c - 48).
Proof.
  pose proof (byte_of_range c) as Hc. unfold is_digit, to_byte.
  destruct (Z.leb_spec 48 (byte_of c)) as [Hlo | Hlo].
  - rewrite Z.mod_small by lia. cbn [andb]. split.
    + destruct (Z.leb_spec (byte_of c) 57), (Z.ltb_spec 9 (byte_of c - 48));
        cbn [negb]; lia || reflexivity.
    + reflexivity.
  - cbn [andb negb]. split; [| discriminate].
    replace (byte_of c - 48) with (byte_of c + 208 + (-1) * 256) by lia.
    rewrite Z.mod_add by lia. rewrite Z.mod_small by lia.
    destruct (Z.ltb_spec 9 (byte_of c + 208)); [reflexivity | lia].
Qed.

Lemma digits_value_bounds (s : string) :
  forall acc : Z,
    0 <= acc -> all_digits s = true ->
    acc * 10 ^ len s <= digits_value s acc < (acc + 1) * 10 ^ len s.
Proof.
  induction s as [| c rest IH]; intros acc Hacc Hall.
  - change (len "") with 0. change (10 ^ 0) with 1. cbn [digits_value]. lia.
  - cbn [all_digits] in Hall. apply andb_true_iff in Hall as [Hc Hrest].
    unfold is_digit in Hc. apply andb_true_iff in Hc as [Hlo Hhi].
    apply Z.leb_le in Hlo, Hhi.
    cbn [digits_value].
    specialize (IH (10 * acc + (byte_of c - 48)) ltac:(lia) Hrest).
    replace (len (String c rest)) with (Z.succ (len rest))
      by (unfold len; cbn [String.length]; lia).
    rewrite Z.pow_succ_r by (unfold len; lia).
    assert (Hpow : 0 < 10 ^ len rest) by (apply Z.pow_pos_nonneg; unfold len; lia).
    nia.
Qed.

Lemma atoi_loop_spec (s : string) :
  forall n : Z,
    0 <= n -> (n + 1) * 10 ^ len s <= 2 ^ 63 ->
    atoi_loop s n = if all_digits s then Some (digits_value s n) else None.
Proof.
  induction s as [| c rest IH]; intros n Hn Hbound.
  - reflexivity.
  - cbn [atoi_loop all_digits digits_value].
    destruct (atoi_digit_test c) as [Htest Hval]. rewrite Htest.
    destruct (is_digit c) eqn:Hc; cbn [negb andb]; [| reflexivity].
    rewrite (Hval eq_refl).
    unfold is_digit in Hc. apply andb_true_iff in Hc as [Hlo Hhi].
    apply Z.leb_le in Hlo, Hhi.
    replace (len (String c rest)) with (Z.succ (len rest)) in Hbound
      by (unfold len; cbn [String.length]; lia).
    rewrite Z.pow_succ_r in Hbound by (unfold len; lia).
    assert (Hpow : 0 < 10 ^ len rest) by (apply Z.pow_pos_nonneg; unfold len; lia).
    rewrite wrapS_id.
    + replace (n * 10 + (byte_of c - 48)) with (10 * n + (byte_of c - 48)) by lia.
      apply IH; nia.
    + unfold intSize. lia.
    + unfold intSize. change (2 ^ (64 - 1)) with (2 ^ 63). nia.
Qed.

Lemma len_cons (c : ascii) (s : string) : len (String c s) = Z.succ (len s).
Proof. unfold len. cbn [String.length]. lia. Qed.

Lemma len_nonneg (s : string) : 0 <= len s.
Proof. unfold len. lia. Qed.

Lemma digits_value_ge (s : string) (acc : Z) :
  0 <= acc -> all_digits s = true -> acc <= digits_value s acc.
Proof.
  intros Hacc Hall.
  pose proof (digits_value_bounds s acc Hacc Hall) as [Hlo _].
  assert (Hpow : 0 < 10 ^ len s) by (apply Z.pow_pos_nonneg; [lia | apply len_nonneg]).
  nia.
Qed.

Lemma is_digit_range (c : ascii) :
  is_digit c = true -> 0 <= byte_of c - 48 <= 9.
Proof.
  unfold is_digit. intros Hc. apply andb_true_iff in Hc as [Hlo Hhi].
  apply Z.leb_le in Hlo, Hhi. lia.
Qed.

(** The digit switch of [ParseUint] on a byte: a decimal digit gives its
    value, anything else is rejected in base 10. *)
Lemma digit_of_spec (c : ascii) :
  if is_digit c then digit_of (byte_of c) = Digit (byte_of c - 48)
  else match digit_of (byte_of c) with
       | Digit d => 10 <= d
       | BadSyntax => True
       end.
Proof.
  unfold is_digit, digit_of.
  destruct ((48 <=? byte_of c) && (byte_of c <=? 57)) eqn:Hdigit.
  - apply andb_true_iff in Hdigit as [Hlo Hhi]. apply Z.leb_le in Hlo, Hhi.
    rewrite to_byte_small by lia. reflexivity.
  - destruct ((97 <=? lower (byte_of c)) && (lower (byte_of c) <=? 122)) eqn:Hletter;
      [| exact I].
    apply andb_true_iff in Hletter as [Hlo Hhi]. apply Z.leb_le in Hlo, Hhi.
    rewrite to_byte_small by lia. lia.
Qed.

Lemma parseUint_loop_complete (s : string) :
  forall n : Z,
    all_digits s = true -> 0 <= n -> digits_value s n < 2 ^ 64 ->
    parseUint_loop 10 cutoff10 maxVal64 s n = (digits_value s n, None).
Proof.
  induction s as [| c rest IH]; intros n Hall Hn Hv.
  - reflexivity.
  - cbn [all_digits] in Hall. apply andb_true_iff in Hall as [Hc Hrest].
    pose proof (digit_of_spec c) as Hdigit. rewrite Hc in Hdigit.
    pose proof (is_digit_range c Hc) as Hd.
    cbn [parseUint_loop digits_value] in *. rewrite Hdigit.
    pose proof (digits_value_ge rest (10 * n + (byte_of c - 48)) ltac:(lia) Hrest) as Hge.
    change (to_byte 10) with 10.
    destruct (Z.leb_spec 10 (byte_of c - 48)) as [Hbad | _]; [lia |].
    unfold cutoff10 at 1.
    destruct (Z.leb_spec 1844674407370955162 n) as [Hbig | Hsmall]; [lia |].
    rewrite (wrapU_id 64 (n * 10)) by lia.
    rewrite (wrapU_id 64 (n * 10 + _)) by lia.
    destruct (Z.ltb_spec (n * 10 + (byte_of c - 48)) (n * 10)) as [Hlt | _]; [lia |].
    unfold maxVal64 at 1.
    destruct (Z.ltb_spec 18446744073709551615 (n * 10 + (byte_of c - 48))) as [Hlt | _];
      [lia |].
    cbn [orb].
    replace (n * 10 + (byte_of c - 48)) with (10 * n + (byte_of c - 48)) by lia.
    apply IH; [exact Hrest | lia | exact Hv].
Qed.

Lemma parseUint_loop_sound (s : string) :
  forall n v : Z,
    0 <= n < 2 ^ 64 ->
    parseUint_loop 10 cutoff10 maxVal64 s n = (v, None) ->
    all_digits s = true /\ v = digits_value s n /\ 0 <= v < 2 ^ 64.
Proof.
  induction s as [| c rest IH]; intros n v Hn Hrun.
  - cbn in Hrun. injection Hrun as <-. repeat split; lia.
  - cbn [parseUint_loop all_digits digits_value] in *.
    pose proof (digit_of_spec c) as Hdigit.
    destruct (is_digit c) eqn:Hc.
    + pose proof (is_digit_range c Hc) as Hd.
      rewrite Hdigit in Hrun. change (to_byte 10) with 10 in Hrun.
      destruct (Z.leb_spec 10 (byte_of c - 48)) as [Hbad | _]; [lia |].
      unfold cutoff10 at 1 in Hrun.
      destruct (Z.leb_spec 1844674407370955162 n) as [Hbig | Hsmall];
        [discriminate Hrun |].
      rewrite (wrapU_id 64 (n * 10)) in Hrun by lia.
      destruct (Z.lt_ge_cases (n * 10 + (byte_of c - 48)) (2 ^ 64)) as [Hfit | Hover].
      * rewrite (wrapU_id 64 (n * 10 + _)) in Hrun by lia.
        destruct (Z.ltb_spec (n * 10 + (byte_of c - 48)) (n * 10)) as [Hlt | _]; [lia |].
        unfold maxVal64 at 1 in Hrun.
        destruct (Z.ltb_spec 18446744073709551615 (n * 10 + (byte_of c - 48)))
          as [Hlt | _]; [lia |].
        cbn [orb] in Hrun.
        replace (n * 10 + (byte_of c - 48)) with (10 * n + (byte_of c - 48)) in Hrun
          by lia.
        apply IH in Hrun; [| lia]. cbn [andb]. exact Hrun.
      * assert (Hwrap : wrapU 64 (n * 10 + (byte_of c - 48))
                        = n * 10 + (byte_of c - 48) - 2 ^ 64).
        { unfold wrapU.
          replace (n * 10 + (byte_of c - 48))
            with (n * 10 + (byte_of c - 48) - 2 ^ 64 + 1 * 2 ^ 64) at 1 by lia.
          rewrite Z.mod_add by lia. apply Z.mod_small. lia. }
        rewrite Hwrap in Hrun.
        destruct (Z.ltb_spec (n * 10 + (byte_of c - 48) - 2 ^ 64) (n * 10)) as [_ | Hge];
          [discriminate Hrun | lia].
    + destruct (digit_of (byte_of c)) as [d |]; [| discriminate Hrun].
      change (to_byte 10) with 10 in Hrun.
      destruct (Z.leb_spec 10 d) as [_ | Hlt]; [discriminate Hrun | lia].
Qed.

Lemma parseUint_loop_range (s : string) :
  forall n v : Z,
    parseUint_loop 10 cutoff10 maxVal64 s n = (v, Some ErrRange) -> v = maxVal64.
Proof.
  induction s as [| c rest IH]; intros n v Hrun.
  - discriminate Hrun.
  - cbn [parseUint_loop] in Hrun.
    destruct (digit_of (byte_of c)) as [d |]; [| discriminate Hrun].
    destruct (to_byte 10 <=? d); [discriminate Hrun |].
    destruct (cutoff10 <=? n); [congruence |].
    destruct (_ || _); [congruence |].
    exact (IH _ _ Hrun).
Qed.

Lemma parseUint_loop_no_base (s : string) :
  forall n v : Z, parseUint_loop 10 cutoff10 maxVal64 s n <> (v, Some ErrBase).
Proof.
  induction s as [| c rest IH]; intros n v Hrun.
  - discriminate Hrun.
  - cbn [parseUint_loop] in Hrun.
    destruct (digit_of (byte_of c)) as [d |]; [| discriminate Hrun].
    destruct (to_byte 10 <=? d); [discriminate Hrun |].
    destruct (cutoff10 <=? n); [discriminate Hrun |].
    destruct (_ || _); [discriminate Hrun |].
    exact (IH _ _ Hrun).
Qed.

Lemma ParseUint_unfold (s : string) :
  ParseUint s 10 0
  = if String.eqb s "" then (0, Some ErrSyntax)
    else parseUint_loop 10 cutoff10 maxVal64 s 0.
Proof. reflexivity. Qed.

Lemma ParseUint_complete (s : string) (v : Z) :
  numeral s = Some v -> v < 2 ^ 64 -> ParseUint s 10 0 = (v, None).
Proof.
  rewrite ParseUint_unfold. destruct s as [| c rest]; [discriminate |].
  unfold numeral. destruct (all_digits (String c rest)) eqn:Hall; [| discriminate].
  intros [= <-] Hv. cbn [String.eqb].
  exact (parseUint_loop_complete (String c rest) 0 Hall ltac:(lia) Hv).
Qed.

Lemma ParseUint_sound (s : string) (v : Z) :
  ParseUint s 10 0 = (v, None) -> numeral s = Some v /\ 0 <= v < 2 ^ 64.
Proof.
  rewrite ParseUint_unfold. destruct s as [| c rest]; [discriminate |].
  cbn [String.eqb]. intros Hrun.
  apply parseUint_loop_sound in Hrun as (Hall & -> & Hv); [| lia].
  unfold numeral. rewrite Hall. split; [reflexivity | exact Hv].
Qed.

Lemma ParseUint_range (s : string) (v : Z) :
  ParseUint s 10 0 = (v, Some ErrRange) -> v = maxVal64.
Proof.
  rewrite ParseUint_unfold. destruct s as [| c rest]; [discriminate |].
  cbn [String.eqb]. apply parseUint_loop_range.
Qed.

Lemma wrapS_64_id (n : Z) : inInt64 n -> wrapS 64 n = n.
Proof. unfold inInt64. intros Hn. apply wrapS_id; [lia |]. exact Hn. Qed.

Lemma numeral_nonneg (s : string) (v : Z) : numeral s = Some v -> 0 <= v.
Proof.
  destruct s as [| c rest]; [discriminate |]. unfold numeral.
  destruct (all_digits (String c rest)) eqn:Hall; [| discriminate].
  intros [= <-]. apply (digits_value_ge (String c rest) 0); [lia | exact Hall].
Qed.

(** What [ParseInt] makes of the unsigned part [s'] once the sign [neg] is
    known: the shape every branch of [ParseInt] reduces to. *)
Lemma ParseInt_after_sign (neg : bool) (s' : string) (n : Z) :
  (let '(un, err) := ParseUint s' 10 0 in
   match err with
   | Some ErrSyntax => (0, Some ErrSyntax)
   | Some ErrBase => (0, Some ErrBase)
   | _ =>
       if negb neg && (9223372036854775808 <=? un)
       then (wrapS 64 (9223372036854775808 - 1), Some ErrRange)
       else if neg && (9223372036854775808 <? un)
            then (wrapS 64 (- wrapS 64 9223372036854775808), Some ErrRange)
            else (if neg then wrapS 64 (- wrapS 64 un) else wrapS 64 un, None)
   end) = (n, None)
  <-> exists v, numeral s' = Some v /\ n = (if neg then - v else v) /\ inInt64 n.
Proof.
  split.
  - destruct (ParseUint s' 10 0) as [un [[| |] |]] eqn:Hparse; try discriminate.
    + apply ParseUint_range in Hparse as ->. unfold maxVal64.
      destruct neg; cbn; discriminate.
    + apply ParseUint_sound in Hparse as [Hnum Hun]. intros Hrun.
      exists un. split; [exact Hnum |].
      destruct neg; cbn [negb andb] in Hrun.
      * destruct (Z.ltb_spec 9223372036854775808 un) as [Hbig | Hfit];
          [discriminate Hrun |].
        injection Hrun as <-.
        destruct (Z.eq_dec un 9223372036854775808) as [-> | Hne].
        -- change (wrapS 64 (- wrapS 64 9223372036854775808))
             with (- 9223372036854775808).
           split; [reflexivity | unfold inInt64; lia].
        -- rewrite (wrapS_64_id un) by (unfold inInt64; lia).
           rewrite wrapS_64_id by (unfold inInt64; lia).
           split; [reflexivity | unfold inInt64; lia].
      * destruct (Z.leb_spec 9223372036854775808 un) as [Hbig | Hfit];
          [discriminate Hrun |].
        injection Hrun as <-.
        rewrite wrapS_64_id by (unfold inInt64; lia).
        split; [reflexivity | unfold inInt64; lia].
  - intros (v & Hnum & -> & Hrange).
    pose proof (numeral_nonneg s' v Hnum) as Hv.
    unfold inInt64 in Hrange.
    rewrite (ParseUint_complete s' v Hnum) by (destruct neg; lia).
    destruct neg; cbn [negb andb].
    + destruct (Z.ltb_spec 9223372036854775808 v) as [Hbig | Hfit]; [lia |].
      f_equal.
      destruct (Z.eq_dec v 9223372036854775808) as [-> | Hne]; [reflexivity |].
      rewrite (wrapS_64_id v) by (unfold inInt64; lia).
      apply wrapS_64_id. unfold inInt64. lia.
    + destruct (Z.leb_spec 9223372036854775808 v) as [Hbig | Hfit]; [lia |].
      f_equal. apply wrapS_64_id. unfold inInt64. lia.
Qed.

(** [ParseInt(s, 10, 0)] succeeds exactly on the integer literals that fit
    an [int64], and returns their value. *)
Lemma ParseInt_ok_iff (s : string) (n : Z) :
  ParseInt s 10 0 = (n, None) <-> int_literal s = Some n /\ inInt64 n.
Proof.
  destruct s as [| c0 s1].
  - split; [discriminate | intros [Hlit _]; discriminate Hlit].
  - cbn [int_literal].
    destruct (Ascii.eqb_spec c0 "-") as [-> | Hminus].
    + change (ParseInt (String "-" s1) 10 0 = (n, None))
        with ((let '(un, err) := ParseUint s1 10 0 in
               match err with
               | Some ErrSyntax => (0, Some ErrSyntax)
               | Some ErrBase => (0, Some ErrBase)
               | _ =>
                   if negb true && (9223372036854775808 <=? un)
                   then (wrapS 64 (9223372036854775808 - 1), Some ErrRange)
                   else if true && (9223372036854775808 <? un)
                        then (wrapS 64 (- wrapS 64 9223372036854775808), Some ErrRange)
                        else (if true then wrapS 64 (- wrapS 64 un) else wrapS 64 un, None)
               end) = (n, None)).
      rewrite ParseInt_after_sign. split.
      * intros (v & -> & -> & Hrange). split; [reflexivity | exact Hrange].
      * intros [Hlit Hrange]. destruct (numeral s1) as [v |]; [| discriminate Hlit].
        injection Hlit as <-. exists v. split; [reflexivity |].
        split; [reflexivity | exact Hrange].
    + destruct (Ascii.eqb_spec c0 "+") as [-> | Hplus].
      * change (ParseInt (String "+" s1) 10 0 = (n, None))
          with ((let '(un, err) := ParseUint s1 10 0 in
                 match err with
                 | Some ErrSyntax => (0, Some ErrSyntax)
                 | Some ErrBase => (0, Some ErrBase)
                 | _ =>
                     if negb false && (9223372036854775808 <=? un)
                     then (wrapS 64 (9223372036854775808 - 1), Some ErrRange)
                     else if false && (9223372036854775808 <? un)
                          then (wrapS 64 (- wrapS 64 9223372036854775808), Some ErrRange)
                          else (if false then wrapS 64 (- wrapS 64 un) else wrapS 64 un, None)
                 end) = (n, None)).
        rewrite ParseInt_after_sign. split.
        -- intros (v & -> & -> & Hrange). split; [reflexivity | exact Hrange].
        -- intros [Hlit Hrange]. exists n. split; [exact Hlit |].
           split; [reflexivity | exact Hrange].
      * assert (Hrun : ParseInt (String c0 s1) 10 0
                = (let '(un, err) := ParseUint (String c0 s1) 10 0 in
                   match err with
                   | Some ErrSyntax => (0, Some ErrSyntax)
                   | Some ErrBase => (0, Some ErrBase)
                   | _ =>
                       if negb false && (9223372036854775808 <=? un)
                       then (wrapS 64 (9223372036854775808 - 1), Some ErrRange)
                       else if false && (9223372036854775808 <? un)
                            then (wrapS 64 (- wrapS 64 9223372036854775808), Some ErrRange)
                            else (if false then wrapS 64 (- wrapS 64 un) else wrapS 64 un, None)
                   end)).
        { unfold ParseInt.
          rewrite (proj2 (Ascii.eqb_neq c0 "-") Hminus).
          rewrite (proj2 (Ascii.eqb_neq c0 "+") Hplus).
          reflexivity. }
        rewrite Hrun, ParseInt_after_sign. split.
        -- intros (v & -> & -> & Hrange). split; [reflexivity | exact Hrange].
        -- intros [Hlit Hrange]. exists n. split; [exact Hlit |].
           split; [reflexivity | exact Hrange].
Qed.

Lemma pow10_le (k : Z) : 0 <= k <= 18 -> 10 ^ k <= 2 ^ 63.
Proof.
  intros Hk. transitivity (10 ^ 18).
  - apply Z.pow_le_mono_r; lia.
  - change (10 ^ 18) with 1000000000000000000.
    change (2 ^ 63) with 9223372036854775808. lia.
Qed.

(** The fast path of [Atoi] on at most 18 digits. *)
Lemma atoi_loop_short (s : string) :
  len s <= 18 ->
  atoi_loop s 0 = if all_digits s then Some (digits_value s 0) else None.
Proof.
  intros Hlen. apply atoi_loop_spec; [lia |].
  rewrite Z.mul_1_l. apply pow10_le. pose proof (len_nonneg s). lia.
Qed.

Lemma digits_value_short (s : string) :
  len s <= 18 -> all_digits s = true -> 0 <= digits_value s 0 < 2 ^ 63.
Proof.
  intros Hlen Hall.
  pose proof (digits_value_bounds s 0 ltac:(lia) Hall) as [Hlo Hhi].
  pose proof (pow10_le (len s) ltac:(pose proof (len_nonneg s); lia)).
  lia.
Qed.

(** [Atoi] succeeds exactly on the integer literals that fit an [int64],
    and returns their value. *)
Lemma Atoi_ok_iff (s : string) (n : Z) :
  Atoi s = (n, None) <-> int_literal s = Some n /\ inInt64 n.
Proof.
  unfold Atoi. change (intSize =? 32) with false. change (intSize =? 64) with true.
  cbn [andb orb].
  destruct ((0 <? len s) && (len s <? 19)) eqn:Hfast.
  - apply andb_true_iff in Hfast as [Hpos Hshort].
    apply Z.ltb_lt in Hpos, Hshort.
    destruct s as [| c0 s1]; [vm_compute in Hpos; discriminate Hpos |].
    rewrite len_cons in Hshort. cbn [int_literal].
    destruct (Ascii.eqb_spec c0 "-") as [-> | Hminus].
    + cbn [orb andb].
      destruct s1 as [| c1 s2].
      { cbn. split; [discriminate | intros [Hlit _]; discriminate Hlit]. }
      destruct (Z.ltb_spec (len (String c1 s2)) 1) as [Hempty | _].
      { rewrite len_cons in Hempty. pose proof (len_nonneg s2). lia. }
      rewrite atoi_loop_short by lia. unfold numeral.
      destruct (all_digits (String c1 s2)) eqn:Hall.
      * pose proof (digits_value_short (String c1 s2) ltac:(lia) Hall) as Hv.
        rewrite wrapS_id by (unfold intSize; lia).
        cbn [fmap option_fmap option_map].
        generalize dependent (digits_value (String c1 s2) 0). intros v Hv. split.
        -- intros [= <-]. split; [reflexivity | unfold inInt64; lia].
        -- intros [[= <-] _]. reflexivity.
      * split; [discriminate | intros [Hlit _]; discriminate Hlit].
    + destruct (Ascii.eqb_spec c0 "+") as [-> | Hplus].
      * cbn [orb andb].
        destruct s1 as [| c1 s2].
        { cbn. split; [discriminate | intros [Hlit _]; discriminate Hlit]. }
        destruct (Z.ltb_spec (len (String c1 s2)) 1) as [Hempty | _].
        { rewrite len_cons in Hempty. pose proof (len_nonneg s2). lia. }
        rewrite atoi_loop_short by lia. unfold numeral.
        destruct (all_digits (String c1 s2)) eqn:Hall.
        -- pose proof (digits_value_short (String c1 s2) ltac:(lia) Hall) as Hv.
           generalize dependent (digits_value (String c1 s2) 0). intros v Hv. split.
           ++ intros [= <-]. split; [reflexivity | unfold inInt64; lia].
           ++ intros [[= <-] _]. reflexivity.
        -- split; [discriminate | intros [Hlit _]; discriminate Hlit].
      * cbn [orb andb].
        rewrite atoi_loop_short by (rewrite len_cons; lia). unfold numeral.
        destruct (all_digits (String c0 s1)) eqn:Hall.
        -- pose proof (digits_value_short (String c0 s1)
                         ltac:(rewrite len_cons; lia) Hall) as Hv.
           generalize dependent (digits_value (String c0 s1) 0). intros v Hv. split.
           ++ intros [= <-]. split; [reflexivity | unfold inInt64; lia].
           ++ intros [[= <-] _]. reflexivity.
        -- split; [discriminate | intros [Hlit _]; discriminate Hlit].
  - destruct (ParseInt s 10 0) as [i64 err] eqn:Hparse. split.
    + intros [= <- ->]. apply ParseInt_ok_iff in Hparse as [Hlit Hrange].
      rewrite wrapS_id by (unfold intSize, inInt64 in *; lia).
      split; assumption.
    + intros Hlit. apply ParseInt_ok_iff in Hlit. rewrite Hparse in Hlit.
      injection Hlit as -> ->.
      apply ParseInt_ok_iff in Hparse as [_ Hrange].
      rewrite wrapS_id by (unfold intSize, inInt64 in *; lia). reflexivity.
Qed.

Lemma parses_as_int_iff (s : string) :
  parses_as_int s <-> exists n, int_literal s = Some n /\ inInt64 n.
Proof.
  unfold parses_as_int. split.
  - intros Herr. exists (Atoi s).1. apply Atoi_ok_iff.
    destruct (Atoi s) as [n err]. cbn in *. subst err. reflexivity.
  - intros (n & Hlit). apply Atoi_ok_iff in Hlit. rewrite Hlit. reflexivity.
Qed.

(** ** strings.Split on a one-byte separator *)

Section SplitByte.

Variable d : ascii.

Lemma split_scan_byte (cur : string) (c : ascii) (s : string) :
  split_scan (String d "") 0 cur (String c s)
  = if Ascii.eqb c d then cur :: split_scan (String d "") 0 "" s
    else split_scan (String d "") 0 (cur +:+ String c "") s.
Proof.
  cbn [split_scan HasPrefix String.length Nat.sub]. rewrite andb_true_r. reflexivity.
Qed.

Lemma split_scan_nonempty (s cur : string) : split_scan (String d "") 0 cur s <> [].
Proof.
  revert cur. induction s as [| c s IH]; intros cur.
  - discriminate.
  - rewrite split_scan_byte. destruct (Ascii.eqb c d); [discriminate | apply IH].
Qed.

Lemma Join_cons (e : string) (rest : list string) (sep : string) :
  rest <> [] -> Join (e :: rest) sep = e +:+ sep +:+ Join rest sep.
Proof. destruct rest; [contradiction | reflexivity]. Qed.

(** Joining the pieces with the separator gives the string back. *)
Lemma Join_split_scan (s cur : string) :
  Join (split_scan (String d "") 0 cur s) (String d "") = cur +:+ s.
Proof.
  revert cur. induction s as [| c s IH]; intros cur.
  - cbn [split_scan Join]. rewrite append_nil_r. reflexivity.
  - rewrite split_scan_byte. destruct (Ascii.eqb_spec c d) as [-> | Hne].
    + rewrite Join_cons by apply split_scan_nonempty.
      rewrite IH. reflexivity.
    + rewrite IH, append_assoc. reflexivity.
Qed.

Lemma in_cutset_append (a b : string) :
  in_cutset d (a +:+ b) = in_cutset d a || in_cutset d b.
Proof.
  induction a as [| x a IH]; [reflexivity |].
  rewrite append_cons. cbn [in_cutset]. rewrite IH, orb_assoc. reflexivity.
Qed.

(** No piece contains the separator. *)
Lemma split_scan_pieces (s cur : string) :
  in_cutset d cur = false ->
  Forall (fun piece => in_cutset d piece = false) (split_scan (String d "") 0 cur s).
Proof.
  revert cur. induction s as [| c s IH]; intros cur Hcur.
  - constructor; [exact Hcur | constructor].
  - rewrite split_scan_byte. destruct (Ascii.eqb_spec c d) as [-> | Hne].
    + constructor; [exact Hcur | apply IH; reflexivity].
    + apply IH. rewrite in_cutset_append, Hcur. cbn [in_cutset orb].
      rewrite orb_false_r. apply Ascii.eqb_neq. congruence.
Qed.

(** There is one more piece than separators. *)
Lemma length_split_scan (s cur : string) :
  length (split_scan (String d "") 0 cur s) = S (Count s d).
Proof.
  revert cur. induction s as [| c s IH]; intros cur.
  - reflexivity.
  - rewrite split_scan_byte. cbn [Count].
    destruct (Ascii.eqb c d); cbn [length]; rewrite IH; reflexivity.
Qed.

(** A string without the separator is read into the current piece. *)
Lemma split_scan_append (a s cur : string) :
  in_cutset d a = false ->
  split_scan (String d "") 0 cur (a +:+ s) = split_scan (String d "") 0 (cur +:+ a) s.
Proof.
  revert cur. induction a as [| x a IH]; intros cur Ha.
  - rewrite append_nil, append_nil_r. reflexivity.
  - cbn [in_cutset] in Ha. apply orb_false_iff in Ha as [Hx Ha].
    rewrite append_cons, split_scan_byte.
    rewrite Ascii.eqb_sym in Hx. rewrite Hx.
    rewrite (IH _ Ha), append_assoc. reflexivity.
Qed.

End SplitByte.

Lemma Split_three (a b c : string) :
  in_cutset "-" a = false -> in_cutset "-" b = false -> in_cutset "-" c = false ->
  Split (a +:+ "-" +:+ b +:+ "-" +:+ c) "-" = [a; b; c].
Proof.
  intros Ha Hb Hc. unfold Split.
  rewrite (split_scan_append "-" a _ "" Ha), append_nil.
  rewrite append_cons, append_nil, split_scan_byte.
  change (Ascii.eqb "-" "-") with true. cbv iota.
  rewrite (split_scan_append "-" b _ "" Hb), append_nil.
  rewrite append_cons, append_nil, split_scan_byte.
  change (Ascii.eqb "-" "-") with true. cbv iota.
  rewrite <- (append_nil_r c) at 1.
  rewrite (split_scan_append "-" c "" "" Hc), append_nil.
  reflexivity.
Qed.

(** ** Option builders *)

Lemma isTimeFormat_loop_Forall (vs : list string) :
  isTimeFormat_loop vs = true <-> Forall parses_as_int vs.
Proof.
  unfold parses_as_int.
  induction vs as [| v vs IH]; cbn [isTimeFormat_loop].
  - split; [constructor | reflexivity].
  - destruct (Atoi v).2 as [e |] eqn:Hv.
    + split; [discriminate |].
      intros Hall. inversion Hall as [| ? ? Hhd Htl]; subst.
      rewrite Hv in Hhd. discriminate.
    + rewrite IH. split.
      * intros Hall. constructor; [exact Hv | exact Hall].
      * intros Hall. inversion Hall; subst. assumption.
Qed.

Lemma isTimeFormat_empty : isTimeFormat "" = false.
Proof. reflexivity. Qed.

(** C1: for every parameter mapping and every input string, the since and
    until builders return the mapping they were given, so no input ever
    causes the [since] (resp. [until]) key to be written: a non-empty
    string takes the early return, and the empty string fails the shape
    check. *)
Theorem since_until_never_written (opt : gmap string string) (timeFormat : string) :
  isTimeFormat "" = false
  /\ (forall key : string, timeFormatToOpt opt key timeFormat = opt)
  /\ sinceToOpt opt timeFormat = opt
  /\ untilToOpt opt timeFormat = opt
  /\ sinceToOpt opt timeFormat !! "since" = opt !! "since"
  /\ untilToOpt opt timeFormat !! "until" = opt !! "until".
Proof.
  assert (Hcore : forall key : string, timeFormatToOpt opt key timeFormat = opt).
  { intros key. unfold timeFormatToOpt.
    destruct timeFormat as [| c rest].
    - rewrite isTimeFormat_empty. reflexivity.
    - reflexivity. }
  unfold sinceToOpt, untilToOpt.
  repeat split; try apply Hcore; try reflexivity; rewrite Hcore; reflexivity.
Qed.

(** C3: [isTimeFormat s] is true exactly when splitting [s] on ['-'] yields
    three pieces and each piece parses as an integer; other piece counts and
    non-integer pieces give false, and no calendar validity is checked
    (["99-99-99"] passes). *)
Theorem isTimeFormat_iff (s : string) :
  (isTimeFormat s = true
   <-> length (Split s "-") = 3%nat /\ Forall parses_as_int (Split s "-"))
  /\ isTimeFormat "99-99-99" = true
  /\ isTimeFormat "2017-05-01" = true
  /\ isTimeFormat "99-1-3" = true
  /\ isTimeFormat "2017-05" = false
  /\ isTimeFormat "2017-05-01-00" = false
  /\ isTimeFormat "2017-ab-01" = false.
Proof.
  split; [| repeat split; reflexivity].
  unfold isTimeFormat.
  destruct (Z.eqb_spec (Z.of_nat (length (Split s "-"))) 3) as [Hlen | Hlen];
    cbn [negb].
  - rewrite isTimeFormat_loop_Forall. split.
    + intros Hall. split; [lia | exact Hall].
    + intros [_ Hall]. exact Hall.
  - split; [discriminate |]. intros [Hlen' _]. lia.
Qed.

(** X16: the strings that pass the date-shape check, written out: they are
    three pieces joined by two hyphens, no piece contains a hyphen (so
    none is negative) and each parses as an integer. *)
Lemma isTimeFormat_shape (s : string) :
  isTimeFormat s = true
  <-> exists a b c : string,
        s = a +:+ "-" +:+ b +:+ "-" +:+ c
        /\ Forall (fun piece => in_cutset "-" piece = false /\ parses_as_int piece) [a; b; c].
Proof.
  split.
  - unfold isTimeFormat.
    destruct (Z.eqb_spec (Z.of_nat (length (Split s "-"))) 3) as [Hlen | Hlen];
      cbn [negb]; [| discriminate].
    rewrite isTimeFormat_loop_Forall. intros Hall.
    apply (f_equal Z.to_nat) in Hlen. rewrite Nat2Z.id in Hlen.
    change (Z.to_nat 3) with 3%nat in Hlen.
    pose proof (Join_split_scan "-" s "") as Hjoin.
    pose proof (split_scan_pieces "-" s "" eq_refl) as Hpieces.
    fold (Split s "-") in Hjoin, Hpieces.
    destruct (Split s "-") as [| a [| b [| c [| ? ?]]]]; try discriminate Hlen.
    exists a, b, c. split.
    + rewrite append_nil in Hjoin. rewrite <- Hjoin. reflexivity.
    + inversion Hall as [| ? ? Ha Hall1]; subst.
      inversion Hall1 as [| ? ? Hb Hall2]; subst.
      inversion Hall2 as [| ? ? Hc _]; subst.
      inversion Hpieces as [| ? ? Pa Hp1]; subst.
      inversion Hp1 as [| ? ? Pb Hp2]; subst.
      inversion Hp2 as [| ? ? Pc _]; subst.
      repeat constructor; assumption.
  - intros (a & b & c & -> & Hall).
    inversion Hall as [| ? ? [Pa Ha] Hall1]; subst.
    inversion Hall1 as [| ? ? [Pb Hb] Hall2]; subst.
    inversion Hall2 as [| ? ? [Pc Hc] _]; subst.
    unfold isTimeFormat. rewrite (Split_three a b c Pa Pb Pc).
    cbn [length Z.of_nat Pos.of_succ_nat Pos.succ Z.eqb Pos.eqb negb].
    apply isTimeFormat_loop_Forall. repeat constructor; assumption.
Qed.

(** C4: [sinceIDtoOpt] and [maxIDtoOpt] leave the mapping unchanged when
    [id < 1]; for a 64-bit [id >= 1] they set [since_id] (resp. [max_id])
    to [strconv.FormatInt(id, 10)], which is the decimal numeral of [id]
    ([pretty id]). *)
Theorem idToOpt_gating (opt : gmap string string) (id : Z) :
  inInt64 id ->
  (id < 1 -> sinceIDtoOpt opt id = opt /\ maxIDtoOpt opt id = opt)
  /\ (1 <= id ->
      sinceIDtoOpt opt id = <["since_id" := FormatInt id]> opt
      /\ maxIDtoOpt opt id = <["max_id" := FormatInt id]> opt
      /\ FormatInt id = pretty id
      /\ sinceIDtoOpt opt id !! "since_id" = Some (pretty id)
      /\ maxIDtoOpt opt id !! "max_id" = Some (pretty id)).
Proof.
  intros Hid. unfold sinceIDtoOpt, maxIDtoOpt, idToOpt.
  destruct (Z.ltb_spec id 1) as [Hlt | Hge].
  - split; [intros _; split; reflexivity | lia].
  - split; [lia |]. intros _.
    rewrite !lookup_insert_eq, (FormatInt_pretty id Hid).
    repeat split; reflexivity.
Qed.

Lemma idToOpt_gating_witness :
  (sinceIDtoOpt ∅ 0 = ∅ /\ maxIDtoOpt ∅ (-5) = ∅)
  /\ sinceIDtoOpt ∅ 1 !! "since_id" = Some "1"
  /\ maxIDtoOpt ∅ 1234567890123 !! "max_id" = Some "1234567890123".
Proof.
  assert (H0 : inInt64 0) by (unfold inInt64; lia).
  assert (H5 : inInt64 (-5)) by (unfold inInt64; lia).
  assert (H1 : inInt64 1) by (unfold inInt64; lia).
  assert (Hbig : inInt64 1234567890123) by (unfold inInt64; lia).
  split; [split |].
  - apply (proj1 (idToOpt_gating ∅ 0 H0)). lia.
  - apply (proj1 (idToOpt_gating ∅ (-5) H5)). lia.
  - split.
    + apply (proj2 (idToOpt_gating ∅ 1 H1)). lia.
    + apply (proj2 (idToOpt_gating ∅ 1234567890123 Hbig)). lia.
Defined.

(** C5: [countToOpt] sets [count] to [c] verbatim when [c] parses as an
    integer and returns the mapping unchanged otherwise; the empty string
    and non-numeric input are ignored. *)
Theorem countToOpt_gating (opt : gmap string string) (c : string) :
  (parses_as_int c -> countToOpt opt c = <["count" := c]> opt)
  /\ (~ parses_as_int c -> countToOpt opt c = opt)
  /\ ~ parses_as_int ""
  /\ countToOpt opt "abc" = opt
  /\ countToOpt opt "20" = <["count" := "20"]> opt.
Proof.
  unfold parses_as_int, countToOpt.
  split; [| split; [| split; [| split]]]; try reflexivity.
  - intros Hok. destruct c as [| a rest].
    + discriminate Hok.
    + cbn [String.eqb negb]. rewrite Hok. reflexivity.
  - intros Hbad. destruct c as [| a rest]; [reflexivity |].
    cbn [String.eqb negb].
    destruct (Atoi (String a rest)).2 as [e |]; [reflexivity |].
    exfalso. apply Hbad. reflexivity.
  - discriminate.
Qed.

Lemma countToOpt_gating_witness :
  countToOpt ∅ "7" = <["count" := "7"]> ∅
  /\ countToOpt ∅ "7x" = ∅.
Proof.
  split.
  - apply (proj1 (countToOpt_gating ∅ "7")). reflexivity.
  - apply (proj1 (proj2 (countToOpt_gating ∅ "7x"))). discriminate.
Defined.

(** C10: each option builder returns a mapping that agrees with its input
    on every key other than its own ([count], [since], [until], [since_id],
    [max_id]); no builder removes a key or changes another key's value. *)
Theorem builders_frame (opt : gmap string string) (k : string) :
  (forall c, k <> "count" -> countToOpt opt c !! k = opt !! k)
  /\ (forall t, k <> "since" -> sinceToOpt opt t !! k = opt !! k)
  /\ (forall t, k <> "until" -> untilToOpt opt t !! k = opt !! k)
  /\ (forall id, k <> "since_id" -> sinceIDtoOpt opt id !! k = opt !! k)
  /\ (forall id, k <> "max_id" -> maxIDtoOpt opt id !! k = opt !! k).
Proof.
  repeat split.
  - intros c Hk. unfold countToOpt.
    destruct (negb (String.eqb c "")); [| reflexivity].
    destruct (Atoi c).2; [reflexivity |].
    apply lookup_insert_ne. congruence.
  - intros t Hk. unfold sinceToOpt, timeFormatToOpt.
    destruct (negb (String.eqb t "") || negb (isTimeFormat t)); [reflexivity |].
    apply lookup_insert_ne. congruence.
  - intros t Hk. unfold untilToOpt, timeFormatToOpt.
    destruct (negb (String.eqb t "") || negb (isTimeFormat t)); [reflexivity |].
    apply lookup_insert_ne. congruence.
  - intros id Hk. unfold sinceIDtoOpt, idToOpt.
    destruct (id <? 1); [reflexivity |].
    apply lookup_insert_ne. congruence.
  - intros id Hk. unfold maxIDtoOpt, idToOpt.
    destruct (id <? 1); [reflexivity |].
    apply lookup_insert_ne. congruence.
Qed.

Lemma builders_frame_witness :
  countToOpt {[ "q" := "go" ]} "20" !! "q" = Some "go"
  /\ sinceToOpt {[ "q" := "go" ]} "2017-05-01" !! "q" = Some "go"
  /\ untilToOpt {[ "q" := "go" ]} "" !! "q" = Some "go"
  /\ sinceIDtoOpt {[ "q" := "go" ]} 7 !! "q" = Some "go"
  /\ maxIDtoOpt {[ "q" := "go" ]} 7 !! "q" = Some "go".
Proof.
  pose proof (builders_frame {[ "q" := "go" ]} "q") as (Hc & Hs & Hu & Hsi & Hmi).
  split; [| split; [| split; [| split]]].
  - rewrite Hc by discriminate. reflexivity.
  - rewrite Hs by discriminate. reflexivity.
  - rewrite Hu by discriminate. reflexivity.
  - rewrite Hsi by discriminate. reflexivity.
  - rewrite Hmi by discriminate. reflexivity.
Defined.

(** ** Runs: traces of loops and indexing *)

Section Runs.

Lemma bind_returned {A B} (tr : list event) (a : A) (k : A -> IO B) :
  bind (tr, Returned a) k = (tr ++ (k a).1, (k a).2).
Proof. unfold bind. destruct (k a) as [tr' o]. reflexivity. Qed.

Lemma index_lookup {A} (l : list A) (i : nat) (x : A) :
  l !! i = Some x -> index l (Z.of_nat i) = ret x.
Proof.
  intros Hx. unfold index.
  destruct (Z.ltb_spec (Z.of_nat i) 0) as [Hneg | _]; [lia |].
  rewrite Nat2Z.id, Hx. reflexivity.
Qed.

Lemma for_range_blocks {A} (l : list A) (body : A -> IO unit) (blk : A -> list event) :
  (forall x, body x = (blk x, Returned tt)) ->
  for_range l body = (concat (map blk l), Returned tt).
Proof.
  intros Hbody. induction l as [| x l IH]; cbn [for_range map concat].
  - reflexivity.
  - rewrite Hbody, bind_returned, IH. reflexivity.
Qed.

(** A countdown loop over the indices of [l] visits its elements last to
    first. *)
Lemma for_down_blocks {A} (l : list A) (body : Z -> IO unit) (blk : A -> list event) :
  (forall i x, l !! i = Some x -> body (Z.of_nat i) = (blk x, Returned tt)) ->
  for_down (length l) body = (concat (map blk (rev l)), Returned tt).
Proof.
  induction l as [| x l IH] using rev_ind; intros Hbody.
  - reflexivity.
  - rewrite length_app, Nat.add_1_r, rev_unit.
    cbn [for_down map concat length].
    rewrite (Hbody (length l) x) by (apply list_lookup_middle; reflexivity).
    rewrite bind_returned, IH; [reflexivity |].
    intros i y Hy. apply Hbody.
    apply lookup_app_l_Some. exact Hy.
Qed.

End Runs.

(** ** Output formatter *)

Section Formatter.

Context `{Platform}.

Lemma Replace_replacer (s : string) :
  Replace replacer s = collapse_whitespace s.
Proof.
  induction s as [| c rest IH]; [reflexivity |].
  cbn [Replace collapse_whitespace replacer replacement].
  rewrite IH.
  destruct (Ascii.eqb c "013"); [reflexivity |].
  destruct (Ascii.eqb c "010"); [reflexivity |].
  destruct (Ascii.eqb c "009"); reflexivity.
Qed.


Lemma toLocalTime_spec (timeStr : string) :
  toLocalTime timeStr = local_timestamp timeStr.
Proof.
  unfold toLocalTime, local_timestamp, _TimeLayout.
  destruct (time_Parse _ timeStr) as [timeValue [e |]]; reflexivity.
Qed.

Lemma showTweets_json (tweets : list Tweet.t) (verbose : bool) :
  showTweets tweets true verbose = (rendered true verbose tweets, Returned tt).
Proof.
  unfold showTweets, rendered, block.
  apply for_range_blocks. intros tweet. reflexivity.
Qed.

Lemma showTweets_verbose (tweets : list Tweet.t) :
  showTweets tweets false true = (rendered false true (rev tweets), Returned tt).
Proof.
  unfold showTweets, rendered, block.
  apply for_down_blocks. intros i t Ht.
  rewrite (index_lookup tweets i t Ht).
  cbn. rewrite Replace_replacer, toLocalTime_spec. reflexivity.
Qed.

Lemma showTweets_plain (tweets : list Tweet.t) :
  showTweets tweets false false = (rendered false false (rev tweets), Returned tt).
Proof.
  unfold showTweets, rendered, block.
  apply for_down_blocks. intros i t Ht.
  rewrite (index_lookup tweets i t Ht).
  reflexivity.
Qed.

(** C2 (as amended): in verbose and in plain mode [showTweets] emits the
    tweets in reverse of their arrival order, last received first; in
    structured (JSON) mode it emits them in arrival order. *)
Theorem showTweets_order (tweets : list Tweet.t) (verbose : bool) :
  showTweets tweets false verbose = (rendered false verbose (rev tweets), Returned tt)
  /\ showTweets tweets true verbose = (rendered true verbose tweets, Returned tt).
Proof.
  split.
  - destruct verbose; [apply showTweets_verbose | apply showTweets_plain].
  - apply showTweets_json.
Qed.


End Formatter.

(** In JSON mode two tweets come out in arrival order, not reversed. *)
Lemma showTweets_json_not_reversed :
  @showTweets Sample.platform [Sample.first; Sample.second] true false
  = ([ json_Encode Sample.first; Stdout_Sync;
       json_Encode Sample.second; Stdout_Sync ], Returned tt)
  /\ @rendered Sample.platform true false (rev [Sample.first; Sample.second])
     = [ json_Encode Sample.second; Stdout_Sync;
         json_Encode Sample.first; Stdout_Sync ]
  /\ @showTweets Sample.platform [Sample.first; Sample.second] true false
     <> (@rendered Sample.platform true false (rev [Sample.first; Sample.second]),
         Returned tt).
Proof.
  split; [reflexivity |]. split; [reflexivity |].
  intros Heq.
  apply (f_equal (fun run => hd_error run.1)) in Heq.
  vm_compute in Heq. discriminate Heq.
Qed.


(** ** Profile store *)

Section Profiles.

Context `{Platform}.

(** Cutting [settings] and [.json] off a profile file name leaves its
    middle part. *)
Lemma slice_profileFileName (middle : string) :
  slice (profileFileName middle) 8 (len (profileFileName middle) - 5) = ret middle.
Proof.
  unfold slice, len, profileFileName.
  rewrite !length_append. cbn [String.length].
  destruct (Z.ltb_spec 8 0) as [Hlo | _]; [lia |].
  match goal with |- context [?a <? 8] => destruct (Z.ltb_spec a 8) as [Hhi | _] end;
    [lia |].
  match goal with |- context [?a <? ?b] => destruct (Z.ltb_spec a b) as [Hlen | _] end;
    [lia |].
  cbn [orb]. f_equal.
  change (Z.to_nat 8) with 8%nat.
  match goal with
  | |- context [Z.to_nat ?n] => replace (Z.to_nat n) with (String.length middle) by lia
  end.
  rewrite !append_cons, append_nil. cbn [String.substring].
  apply substring_prefix.
Qed.

Lemma in_trace_bind {A B} (m : IO A) (k : A -> IO B) (e : event) :
  In e (trace (bind m k)) -> In e (trace m) \/ exists a, In e (trace (k a)).
Proof.
  destruct m as [tr [a | code |]].
  - rewrite bind_returned. unfold trace. cbn [fst]. intros Hin.
    apply in_app_or in Hin as [Hin | Hin]; [left; exact Hin | right; eauto].
  - cbn. tauto.
  - cbn. tauto.
Qed.

Lemma listing_loop (names middles : list string) :
  map filepath_Base names = map profileFileName middles ->
  for_range names listing_body
  = (map (fun middle => fmt_Println [TrimLeft middle "-"]) middles, Returned tt).
Proof.
  revert middles. induction names as [| name names IH]; intros [| middle middles] Hmap;
    try discriminate Hmap.
  - reflexivity.
  - cbn [map] in Hmap. injection Hmap as Hname Hrest.
    cbn [for_range]. unfold listing_body at 1. cbv zeta.
    rewrite Hname, slice_profileFileName. cbn.
    rewrite (IH middles Hrest). reflexivity.
Qed.

Lemma listing_loop_no_read (names : list string) (f : string) :
  ~ In (ioutil_ReadFile f) (trace (for_range names listing_body)).
Proof.
  induction names as [| name names IH]; cbn [for_range]; [intros [] |].
  intros Hin. apply in_trace_bind in Hin as [Hin | [_ Hin]]; [| exact (IH Hin)].
  unfold listing_body in Hin. cbv zeta in Hin.
  apply in_trace_bind in Hin as [Hin | [a Hin]].
  - apply in_trace_bind in Hin as [Hin | [a Hin]].
    + unfold slice in Hin. destruct (_ || _) in Hin; destruct Hin.
    + destruct Hin.
  - destruct Hin as [Hin | []]. discriminate Hin.
Qed.

Ltac getConfig_unfold :=
  unfold getConfig; cbv zeta; fold profileDir.

Lemma settingsFileName_default : settingsFileName "" = "settings.json".
Proof. reflexivity. Qed.

Lemma settingsFileName_named (profile : string) :
  profile <> "" -> settingsFileName profile = "settings-" +:+ profile +:+ ".json".
Proof.
  intros Hne. unfold settingsFileName.
  destruct (String.eqb_spec profile ""); [contradiction | reflexivity].
Qed.

(** Once the directory exists, a profile other than [?] is looked up in
    its settings file and nowhere else. *)
Lemma getConfig_trace (profile : string) :
  MkdirAll_answer profileDir 448 = None ->
  profile <> "?" ->
  trace (getConfig profile)
  = [ os_MkdirAll profileDir 448;
      ioutil_ReadFile (filepath_Join [profileDir; settingsFileName profile]) ].
Proof.
  intros Hmk Hq. getConfig_unfold. unfold settingsFileName.
  rewrite Hmk.
  destruct (String.eqb_spec profile "") as [-> | Hne].
  - cbn. destruct (ReadFile_answer _) as [b [e |]].
    + destruct (IsNotExist e); reflexivity.
    + destruct (json_Unmarshal b ∅) as [cfg [e |]]; reflexivity.
  - destruct (String.eqb_spec profile "?") as [-> | _]; [contradiction |].
    cbn. destruct (ReadFile_answer _) as [b [e |]].
    + destruct (IsNotExist e); reflexivity.
    + destruct (json_Unmarshal b ∅) as [cfg [e |]]; reflexivity.
Qed.

Lemma getConfig_file (profile f : string) (cfg : option (gmap string string)) :
  MkdirAll_answer profileDir 448 = None ->
  profile <> "?" ->
  result (getConfig profile) = Returned (f, cfg, None) ->
  f = filepath_Join [profileDir; settingsFileName profile].
Proof.
  intros Hmk Hq. getConfig_unfold. unfold settingsFileName.
  rewrite Hmk.
  destruct (String.eqb_spec profile "") as [-> | Hne].
  - cbn. destruct (ReadFile_answer _) as [b [e |]].
    + destruct (IsNotExist e); cbn; congruence.
    + destruct (json_Unmarshal b ∅) as [cfg' [e |]]; cbn; congruence.
  - destruct (String.eqb_spec profile "?") as [-> | _]; [contradiction |].
    cbn. destruct (ReadFile_answer _) as [b [e |]].
    + destruct (IsNotExist e); cbn; congruence.
    + destruct (json_Unmarshal b ∅) as [cfg' [e |]]; cbn; congruence.
Qed.

Lemma getConfig_missing_file (profile b : string) (e : error) :
  MkdirAll_answer profileDir 448 = None ->
  profile <> "?" ->
  ReadFile_answer (filepath_Join [profileDir; settingsFileName profile]) = (b, Some e) ->
  IsNotExist e = true ->
  result (getConfig profile)
  = Returned (filepath_Join [profileDir; settingsFileName profile],
              Some seededConfig, None).
Proof.
  intros Hmk Hq. getConfig_unfold. unfold settingsFileName.
  rewrite Hmk.
  destruct (String.eqb_spec profile "") as [-> | Hne].
  - intros Hread Hne. cbn. rewrite Hread, Hne. reflexivity.
  - destruct (String.eqb_spec profile "?") as [-> | _]; [contradiction |].
    intros Hread Hnot. cbn. rewrite Hread, Hnot. reflexivity.
Qed.

Lemma getConfig_listing (names middles : list string) :
  MkdirAll_answer profileDir 448 = None ->
  Glob_answer (filepath_Join [profileDir; "settings*.json"]) = (names, None) ->
  map filepath_Base names = map profileFileName middles ->
  getConfig "?"
  = ([ os_MkdirAll profileDir 448;
       filepath_Glob (filepath_Join [profileDir; "settings*.json"]) ]
     ++ map (fun middle => fmt_Println [TrimLeft middle "-"]) middles,
     Exited 0).
Proof.
  intros Hmk Hglob Hbase. getConfig_unfold.
  rewrite Hmk. cbn. rewrite Hglob.
  rewrite (listing_loop names middles Hbase). cbn.
  rewrite !app_nil_r. reflexivity.
Qed.

(** The listing profile never reads a settings file, whatever the
    directory holds. *)
Lemma getConfig_listing_no_read (f : string) :
  ~ In (ioutil_ReadFile f) (trace (getConfig "?")).
Proof.
  getConfig_unfold.
  destruct (MkdirAll_answer profileDir 448) as [e |].
  - cbn. intros [Hin | []]. discriminate Hin.
  - cbn. destruct (Glob_answer _) as [names [e |]].
    + cbn. intros [Hin | [Hin | []]]; discriminate Hin.
    + pose proof (listing_loop_no_read names f) as Hloop.
      destruct (for_range names listing_body) as [tr [[] | code |]];
        cbn in *; intros [Hin | [Hin | Hin]]; try discriminate Hin;
        rewrite ?app_nil_r in Hin; exact (Hloop Hin).
Qed.

Lemma seededConfig_keys :
  dom seededConfig = ({[ "ClientToken"; "ClientSecret" ]} : gset string).
Proof.
  unfold seededConfig. rewrite dom_insert_L, dom_singleton_L. set_solver.
Qed.

(** C6: whenever [getConfig] looks up the settings file of a profile and
    that file does not exist, it returns a configuration holding exactly
    the keys [ClientToken] and [ClientSecret], bound to the two built-in
    literals, and neither [AccessToken] nor [AccessSecret]. *)
Theorem getConfig_seeded_defaults (profile file b : string) (e : error) :
  In (ioutil_ReadFile file) (trace (getConfig profile)) ->
  ReadFile_answer file = (b, Some e) ->
  IsNotExist e = true ->
  result (getConfig profile) = Returned (file, Some seededConfig, None)
  /\ dom seededConfig = ({[ "ClientToken"; "ClientSecret" ]} : gset string)
  /\ seededConfig !! "ClientToken" = Some "MbartJkKCrSegn45xK9XLw"
  /\ seededConfig !! "ClientSecret" = Some "1nI3dHFtK9UY1kL6UEYWk6r2lFEcNHWhk7MtXe7eo"
  /\ seededConfig !! "AccessToken" = None
  /\ seededConfig !! "AccessSecret" = None.
Proof.
  intros Hread Hanswer Hmissing.
  split; [| split; [apply seededConfig_keys | repeat split; reflexivity]].
  destruct (MkdirAll_answer profileDir 448) as [err |] eqn:Hmk.
  - exfalso. revert Hread. getConfig_unfold. rewrite Hmk. cbn.
    intros [Hin | []]. discriminate Hin.
  - destruct (String.eqb_spec profile "?") as [-> | Hq].
    + exfalso. exact (getConfig_listing_no_read file Hread).
    + rewrite (getConfig_trace profile Hmk Hq) in Hread.
      destruct Hread as [Hin | [Hin | []]]; [discriminate Hin |].
      injection Hin as <-.
      exact (getConfig_missing_file profile b e Hmk Hq Hanswer Hmissing).
Qed.

(** C7: once the profile directory exists, the empty profile name is
    resolved to [settings.json] and any name other than the empty one and
    [?] to [settings-<profile>.json]; the name [?] reads no settings
    file: it prints, for each file found by the glob [settings*.json], the
    file name without its [settings] prefix, its [.json] suffix and any
    leading hyphens, and exits with status 0. *)
Theorem profile_file_naming (profile : string) :
  MkdirAll_answer profileDir 448 = None ->
  (trace (getConfig "")
   = [ os_MkdirAll profileDir 448;
       ioutil_ReadFile (filepath_Join [profileDir; "settings.json"]) ]
   /\ forall f cfg,
        result (getConfig "") = Returned (f, cfg, None) ->
        f = filepath_Join [profileDir; "settings.json"])
  /\ (profile <> "" -> profile <> "?" ->
      trace (getConfig profile)
      = [ os_MkdirAll profileDir 448;
          ioutil_ReadFile
            (filepath_Join [profileDir; "settings-" +:+ profile +:+ ".json"]) ]
      /\ forall f cfg,
           result (getConfig profile) = Returned (f, cfg, None) ->
           f = filepath_Join [profileDir; "settings-" +:+ profile +:+ ".json"])
  /\ (forall names middles : list string,
        Glob_answer (filepath_Join [profileDir; "settings*.json"]) = (names, None) ->
        map filepath_Base names = map profileFileName middles ->
        getConfig "?"
        = ([ os_MkdirAll profileDir 448;
             filepath_Glob (filepath_Join [profileDir; "settings*.json"]) ]
           ++ map (fun middle => fmt_Println [TrimLeft middle "-"]) middles,
           Exited 0))
  /\ (forall f : string, ~ In (ioutil_ReadFile f) (trace (getConfig "?"))).
Proof.
  intros Hmk.
  assert (Hdefault : "" <> "?") by discriminate.
  split; [| split; [| split]].
  - split.
    + exact (getConfig_trace "" Hmk Hdefault).
    + intros f cfg. exact (getConfig_file "" f cfg Hmk Hdefault).
  - intros Hne Hq. rewrite <- (settingsFileName_named profile Hne). split.
    + exact (getConfig_trace profile Hmk Hq).
    + intros f cfg. exact (getConfig_file profile f cfg Hmk Hq).
  - intros names middles. exact (getConfig_listing names middles Hmk).
  - exact getConfig_listing_no_read.
Qed.

End Profiles.

Lemma getConfig_seeded_defaults_witness :
  result (@getConfig Sample.platform "work")
  = Returned ("/home/alice/.config/twty/settings-work.json",
              Some (@seededConfig), None).
Proof.
  refine (proj1 (@getConfig_seeded_defaults Sample.platform "work"
                   "/home/alice/.config/twty/settings-work.json" ""
                   Sample.notExist _ eq_refl eq_refl)).
  right. left. reflexivity.
Defined.

Lemma profile_file_naming_witness :
  trace (@getConfig Sample.platform "work")
  = [ os_MkdirAll "/home/alice/.config/twty" 448;
      ioutil_ReadFile "/home/alice/.config/twty/settings-work.json" ]
  /\ @getConfig Sample.platform "?"
     = ([ os_MkdirAll "/home/alice/.config/twty" 448;
          filepath_Glob "/home/alice/.config/twty/settings*.json";
          fmt_Println [""]; fmt_Println ["work"] ],
        Exited 0).
Proof.
  pose proof (@profile_file_naming Sample.platform "work" eq_refl)
    as (_ & Hnamed & Hlist & _).
  split.
  - refine (proj1 (Hnamed _ _)); discriminate.
  - exact (Hlist [ "/home/alice/.config/twty/settings.json";
                   "/home/alice/.config/twty/settings-work.json" ]
                 [ ""; "-work" ] eq_refl eq_refl).
Defined.

(** ** Authorization *)

Section Authorization.

Context `{Platform}.

(** C9: when the configuration holds both [AccessToken] and
    [AccessSecret] (present, empty or not), [getAccessToken] returns the
    credential made of the two stored values, the fresh-authorization flag
    false and no error; it makes no call at all, so no temporary-credential
    request and no PIN exchange, and the configuration is as before. *)
Theorem getAccessToken_cached (st : AuthState) (accessToken accessSecret : string) :
  config st !! "AccessToken" = Some accessToken ->
  config st !! "AccessSecret" = Some accessSecret ->
  trace (getAccessToken st) = []
  /\ exists st' : AuthState,
       result (getAccessToken st)
       = Returned (st', (Some {| oauth.Token := accessToken;
                                 oauth.Secret := accessSecret |}, false, None))
       /\ config st' = config st.
Proof.
  intros Htoken Hsecret. unfold getAccessToken. cbv zeta.
  rewrite Htoken, Hsecret.
  rewrite !bool_decide_eq_true_2 by (eexists; reflexivity).
  cbn. split; [reflexivity |].
  eexists. split; reflexivity.
Qed.

End Authorization.

Lemma getAccessToken_cached_witness :
  trace (@getAccessToken Sample.platform
           {| oauthClient := oauthClient_init;
              config := {[ "AccessToken" := ""; "AccessSecret" := "" ]} |}) = [].
Proof.
  exact (proj1 (@getAccessToken_cached Sample.platform
                  {| oauthClient := oauthClient_init;
                     config := {[ "AccessToken" := ""; "AccessSecret" := "" ]} |}
                  "" "" eq_refl eq_refl)).
Defined.

(** * Further properties of the first half *)

(** ** Authorization: every way [clientAuth] and [getAccessToken] end *)

Section AuthorizationRuns.

Context `{Platform}.

Ltac clientAuth_cases :=
  unfold clientAuth; cbv zeta;
  destruct (String.eqb GOOS "windows");
  [| destruct (String.eqb GOOS "darwin"); [| destruct (String.eqb GOOS "plan9")]];
  cbn;
  (destruct (LookPath_answer _) as [path [lookErr |]]; cbn;
   [| destruct (Start_answer _ _) as [startErr |]; cbn]);
  try (destruct Scan_answer as [text |] eqn:Hscan; cbn;
       [destruct (RequestToken_answer _ _ _) as [accessToken [tokErr |]] eqn:Htok; cbn |]).

Ltac in_trace Hin :=
  cbn in Hin;
  repeat (destruct Hin as [Hin | Hin]; [try discriminate Hin |]);
  try contradiction.

(** [clientAuth] returns a credential or an error, never neither. *)
Lemma clientAuth_result (client : oauth.Client) (rt : oauth.Credentials) :
  exists tr,
    (exists tok, clientAuth client rt = (tr, Returned (Some tok, None)))
    \/ (exists e, clientAuth client rt = (tr, Returned (None, Some e))).
Proof.
  clientAuth_cases; eexists; (left; eexists; reflexivity) || (right; eexists; reflexivity).
Qed.

(** The ways [getAccessToken] can end: the stored credential, an error
    with the configuration as it was, or a fresh credential written into
    the configuration. *)
Lemma getAccessToken_outcomes (st : AuthState) :
  (exists tok sec,
      config st !! "AccessToken" = Some tok /\ config st !! "AccessSecret" = Some sec
      /\ getAccessToken st
         = ([], Returned ({| oauthClient := loadedClient st; config := config st |},
                          (Some {| oauth.Token := tok; oauth.Secret := sec |}, false, None))))
  \/ (exists tr msg,
        getAccessToken st
        = (RequestTemporaryCredentials (loadedClient st) :: tr,
           Returned ({| oauthClient := loadedClient st; config := config st |},
                     (None, false,
                      Some (Errorf "cannot request temporary credentials: " msg)))))
  \/ (exists tr tok,
        (config st !! "AccessToken" = None \/ config st !! "AccessSecret" = None)
        /\ getAccessToken st
           = (RequestTemporaryCredentials (loadedClient st) :: tr,
              Returned ({| oauthClient := loadedClient st;
                           config := <["AccessSecret" := oauth.Secret tok]>
                                       (<["AccessToken" := oauth.Token tok]> (config st)) |},
                        (Some tok, true, None)))).
Proof.
  unfold getAccessToken. cbv zeta. fold (loadedClient st).
  assert (Hnetwork :
    (config st !! "AccessToken" = None \/ config st !! "AccessSecret" = None) ->
    bool_decide (is_Some (config st !! "AccessToken"))
    && bool_decide (is_Some (config st !! "AccessSecret")) = false).
  { intros [Hnone | Hnone]; rewrite Hnone;
      rewrite (bool_decide_eq_false_2 (is_Some None)) by (apply is_Some_None);
      [reflexivity | apply andb_false_r]. }
  destruct (config st !! "AccessToken") as [tok |] eqn:Htok;
    [destruct (config st !! "AccessSecret") as [sec |] eqn:Hsec |].
  - left. exists tok, sec.
    rewrite !bool_decide_eq_true_2 by (eexists; reflexivity).
    repeat split; reflexivity.
  - right. rewrite (Hnetwork (or_intror eq_refl)).
    destruct (RequestTemporaryCredentials_answer (loadedClient st)) as [rt [e |]]; cbn.
    + left. eexists [], _. reflexivity.
    + destruct (clientAuth_result (loadedClient st) rt) as [tr [[t Hrun] | [e Hrun]]];
        rewrite Hrun; cbn.
      * right. exists tr, t. split; [right; reflexivity |].
        rewrite app_nil_r. reflexivity.
      * left. eexists tr, _. rewrite app_nil_r. reflexivity.
  - right. rewrite (Hnetwork (or_introl eq_refl)).
    destruct (RequestTemporaryCredentials_answer (loadedClient st)) as [rt [e |]]; cbn.
    + left. eexists [], _. reflexivity.
    + destruct (clientAuth_result (loadedClient st) rt) as [tr [[t Hrun] | [e Hrun]]];
        rewrite Hrun; cbn.
      * right. exists tr, t. split; [left; reflexivity |].
        rewrite app_nil_r. reflexivity.
      * left. eexists tr, _. rewrite app_nil_r. reflexivity.
Qed.

Lemma loadedClient_after (st : AuthState) (t : oauth.Credentials) :
  loadedClient {| oauthClient := loadedClient st;
                  config := <["AccessSecret" := oauth.Secret t]>
                              (<["AccessToken" := oauth.Token t]> (config st)) |}
  = loadedClient st.
Proof.
  unfold loadedClient. cbn.
  rewrite !lookup_insert_ne by discriminate. reflexivity.
Qed.

(** X1: whenever [getAccessToken] returns without an error, it returns a
    credential and the configuration afterwards holds that credential
    under [AccessToken] and [AccessSecret]; every other key is as before,
    the map is untouched when the fresh-authorization flag is false, and
    the flag is true only if one of the two keys was missing. *)
Theorem getAccessToken_stores_credential
    (st st' : AuthState) (tok : option oauth.Credentials) (authorized : bool) :
  result (getAccessToken st) = Returned (st', (tok, authorized, None)) ->
  exists t,
    tok = Some t
    /\ config st' !! "AccessToken" = Some (oauth.Token t)
    /\ config st' !! "AccessSecret" = Some (oauth.Secret t)
    /\ (forall k, k <> "AccessToken" -> k <> "AccessSecret" ->
         config st' !! k = config st !! k)
    /\ (authorized = false -> config st' = config st)
    /\ (authorized = true ->
         config st !! "AccessToken" = None \/ config st !! "AccessSecret" = None).
Proof.
  destruct (getAccessToken_outcomes st)
    as [(t & s & Ht & Hs & Hrun) | [(tr & msg & Hrun) | (tr & t & Hmissing & Hrun)]];
    rewrite Hrun; cbn; intros [= <- <- <-].
  - eexists. cbn. repeat split; try assumption; try reflexivity. discriminate.
  - exists t. cbn. split; [reflexivity |].
    split; [rewrite lookup_insert_ne by discriminate; apply lookup_insert_eq |].
    split; [apply lookup_insert_eq |].
    split.
    + intros k Hk1 Hk2. rewrite !lookup_insert_ne by congruence. reflexivity.
    + split; [discriminate | intros _; exact Hmissing].
Qed.

(** X2: whenever [getAccessToken] returns an error, it returns no
    credential and a false flag, the configuration is exactly as it was,
    and the message starts with [cannot request temporary credentials: ]
    (also when the failure was in the PIN exchange). *)
Theorem getAccessToken_error_keeps_config
    (st st' : AuthState) (tok : option oauth.Credentials) (authorized : bool) (e : error) :
  result (getAccessToken st) = Returned (st', (tok, authorized, Some e)) ->
  tok = None /\ authorized = false /\ config st' = config st
  /\ exists msg, e = Errorf "cannot request temporary credentials: " msg.
Proof.
  destruct (getAccessToken_outcomes st)
    as [(t & s & _ & _ & Hrun) | [(tr & msg & Hrun) | (tr & t & _ & Hrun)]];
    rewrite Hrun; cbn; intros [= <- <- <- <-].
  repeat split. exists msg. reflexivity.
Qed.

(** X3: after a successful [getAccessToken], calling it again on the state
    it left returns the same credential with a false flag, makes no call
    and changes nothing: a fresh authorization is only ever done once. *)
Theorem getAccessToken_second_call_cached
    (st st' : AuthState) (t : oauth.Credentials) (authorized : bool) :
  result (getAccessToken st) = Returned (st', (Some t, authorized, None)) ->
  getAccessToken st' = ([], Returned (st', (Some t, false, None))).
Proof.
  destruct (getAccessToken_outcomes st)
    as [(tok & sec & Ht & Hs & Hrun) | [(tr & msg & Hrun) | (tr & t' & _ & Hrun)]];
    rewrite Hrun; cbn; intros [= <- <- <-].
  - destruct (getAccessToken_outcomes
                {| oauthClient := loadedClient st; config := config st |})
      as [(tok' & sec' & Ht' & Hs' & Hrun') | [(tr & msg & Hrun') | (tr & t' & Hmiss & _)]].
    + cbn in Ht', Hs'. rewrite Ht in Ht'. rewrite Hs in Hs'.
      injection Ht' as <-. injection Hs' as <-. exact Hrun'.
    + exfalso. revert Hrun'. unfold getAccessToken. cbn. rewrite Ht, Hs.
      rewrite !bool_decide_eq_true_2 by (eexists; reflexivity). cbn. discriminate.
    + cbn in Hmiss. rewrite Ht, Hs in Hmiss. destruct Hmiss; discriminate.
  - unfold getAccessToken. cbv zeta.
    fold (loadedClient {| oauthClient := loadedClient st;
                          config := <["AccessSecret" := oauth.Secret t']>
                                      (<["AccessToken" := oauth.Token t']> (config st)) |}).
    rewrite loadedClient_after. cbn [config].
    rewrite (lookup_insert_ne _ "AccessSecret" "AccessToken") by discriminate.
    rewrite !lookup_insert_eq.
    rewrite !bool_decide_eq_true_2 by (eexists; reflexivity).
    destruct t' as [token secret]. reflexivity.
Qed.


(** X5: when [AccessToken] or [AccessSecret] is missing (one of them alone
    is not enough), the first thing [getAccessToken] does is request
    temporary credentials, with the client credentials read from the
    configuration, the empty string standing for a missing key. *)
Theorem getAccessToken_missing_key_asks_network (st : AuthState) :
  config st !! "AccessToken" = None \/ config st !! "AccessSecret" = None ->
  exists tr,
    trace (getAccessToken st) = RequestTemporaryCredentials (loadedClient st) :: tr.
Proof.
  intros Hmissing.
  destruct (getAccessToken_outcomes st)
    as [(t & s & Ht & Hs & _) | [(tr & msg & Hrun) | (tr & t & _ & Hrun)]].
  - rewrite Ht, Hs in Hmissing. destruct Hmissing; discriminate.
  - rewrite Hrun. exists tr. reflexivity.
  - rewrite Hrun. exists tr. reflexivity.
Qed.

(** X6: [clientAuth] prints the prompt and the authorization URL before
    anything else, and then looks up the launcher of the platform:
    [rundll32.exe] on Windows, [open] on macOS, [plumb] on Plan 9 and
    [xdg-open] everywhere else. *)
Theorem clientAuth_prompt_first (client : oauth.Client) (rt : oauth.Credentials) :
  exists rest,
    trace (clientAuth client rt)
    = authPrompt (AuthorizationURL client rt)
      ++ exec_LookPath (browserCommand (AuthorizationURL client rt)).1 :: rest.
Proof.
  unfold browserCommand. clientAuth_cases; eexists; reflexivity.
Qed.

(** X7: the only token request [clientAuth] ever makes is for the
    temporary credential it was given, with the line read from standard
    input as verifier; when no line can be read it returns an error and
    no credential. *)
Theorem clientAuth_verifier_is_stdin_line
    (client : oauth.Client) (rt : oauth.Credentials) :
  (forall c t v,
      In (RequestToken c t v) (trace (clientAuth client rt)) ->
      c = client /\ t = rt /\ Scan_answer = Some v)
  /\ (Scan_answer = None ->
      exists e, result (clientAuth client rt) = Returned (None, Some e)).
Proof.
  split.
  - intros c t v. clientAuth_cases; intros Hin; in_trace Hin;
      injection Hin as <- <- <-; repeat split; reflexivity.
  - clientAuth_cases; intros Hnone; try discriminate Hnone; eexists; reflexivity.
Qed.

(** X8: a launcher that cannot be found is not an error: no process is
    started and the PIN is still asked for and read.  A launcher that is
    found but fails to start is one: [clientAuth] returns
    [cannot start command: ...] and never reads standard input. *)
Theorem clientAuth_launcher_failures
    (client : oauth.Client) (rt : oauth.Credentials) (path : string) :
  (forall e,
      LookPath_answer (browserCommand (AuthorizationURL client rt)).1 = (path, Some e) ->
      (forall name args, ~ In (cmd_Start name args) (trace (clientAuth client rt)))
      /\ In (fmt_Print ["PIN: "]) (trace (clientAuth client rt))
      /\ In Stdin_Scan (trace (clientAuth client rt)))
  /\ (forall e,
        LookPath_answer (browserCommand (AuthorizationURL client rt)).1 = (path, None) ->
        Start_answer path (browserCommand (AuthorizationURL client rt)).2 = Some e ->
        result (clientAuth client rt)
        = Returned (None, Some (Errorf "cannot start command: " (Error e)))
        /\ ~ In Stdin_Scan (trace (clientAuth client rt))).
Proof.
  unfold browserCommand, clientAuth. cbv zeta.
  destruct (String.eqb GOOS "windows");
    [| destruct (String.eqb GOOS "darwin"); [| destruct (String.eqb GOOS "plan9")]];
    cbn [fst snd].
  all: split.
  all: try (intros e Hlook; rewrite Hlook; cbn;
            destruct Scan_answer as [text |]; cbn;
            [destruct (RequestToken_answer _ _ _) as [accessToken [tokErr |]]; cbn |];
            (split; [intros name args Hin; in_trace Hin
                    | split; cbn; tauto])).
  all: intros e Hlook Hstart; rewrite Hlook; cbn; rewrite Hstart; cbn;
       (split; [reflexivity | intros Hin; in_trace Hin]).
Qed.

End AuthorizationRuns.

Lemma getAccessToken_stores_credential_witness :
  match result (@getAccessToken Online.platform
                  {| oauthClient := oauthClient_init; config := Online.workConfig |}) with
  | Returned (st', (tok, _, _)) =>
      tok = Some {| oauth.Token := "fresh-1234567"; oauth.Secret := "fresh-secret" |}
      /\ config st' !! "AccessToken" = Some "fresh-1234567"
      /\ config st' !! "ClientToken" = Some "ct"
  | _ => False
  end.
Proof.
  destruct (@getAccessToken_stores_credential Online.platform
              {| oauthClient := oauthClient_init; config := Online.workConfig |}
              _ _ _ eq_refl) as (t & Htok & Haccess & _ & Hframe & _).
  injection Htok as <-.
  split; [reflexivity |]. split; [exact Haccess |].
  rewrite Hframe by discriminate. reflexivity.
Defined.

Lemma getAccessToken_error_keeps_config_witness :
  match result (@getAccessToken Sample.platform
                  {| oauthClient := oauthClient_init; config := seededConfig |}) with
  | Returned (st', (tok, authorized, _)) =>
      tok = None /\ authorized = false /\ config st' = seededConfig
  | _ => False
  end.
Proof.
  destruct (@getAccessToken_error_keeps_config Sample.platform
              {| oauthClient := oauthClient_init; config := seededConfig |}
              _ _ _ _ eq_refl) as (Htok & Hauth & Hconfig & _).
  split; [exact Htok |]. split; [exact Hauth | exact Hconfig].
Defined.

Lemma getAccessToken_second_call_cached_witness :
  match result (@getAccessToken Online.platform
                  {| oauthClient := oauthClient_init; config := Online.workConfig |}) with
  | Returned (st', _) => trace (@getAccessToken Online.platform st') = []
  | _ => False
  end.
Proof.
  exact (f_equal fst
           (@getAccessToken_second_call_cached Online.platform
              {| oauthClient := oauthClient_init; config := Online.workConfig |}
              _ _ _ eq_refl)).
Defined.

Lemma getAccessToken_missing_key_asks_network_witness :
  exists tr,
    trace (@getAccessToken Online.platform
             {| oauthClient := oauthClient_init; config := Online.workConfig |})
    = RequestTemporaryCredentials
        {| oauth.ClientCredentials := {| oauth.Token := "ct"; oauth.Secret := "cs" |};
           oauth.TemporaryCredentialRequestURI :=
             "https://api.twitter.com/oauth/request_token";
           oauth.ResourceOwnerAuthorizationURI :=
             "https://api.twitter.com/oauth/authenticate";
           oauth.TokenRequestURI := "https://api.twitter.com/oauth/access_token" |}
      :: tr.
Proof.
  exact (@getAccessToken_missing_key_asks_network Online.platform
           {| oauthClient := oauthClient_init; config := Online.workConfig |}
           (or_intror eq_refl)).
Defined.

Lemma clientAuth_verifier_is_stdin_line_witness :
  @Scan_answer Online.platform = Some "1234567"
  /\ exists e,
       result (@clientAuth (Online.make None None) oauthClient_init
                 {| oauth.Token := "temp"; oauth.Secret := "temp-secret" |})
       = Returned (None, Some e).
Proof.
  split.
  - refine (proj2 (proj2 (proj1
      (@clientAuth_verifier_is_stdin_line Online.platform oauthClient_init
         {| oauth.Token := "temp"; oauth.Secret := "temp-secret" |})
      oauthClient_init {| oauth.Token := "temp"; oauth.Secret := "temp-secret" |}
      "1234567" _))).
    vm_compute. tauto.
  - exact (proj2
      (@clientAuth_verifier_is_stdin_line (Online.make None None) oauthClient_init
         {| oauth.Token := "temp"; oauth.Secret := "temp-secret" |}) eq_refl).
Defined.

Lemma clientAuth_launcher_failures_witness :
  In Stdin_Scan
    (trace (@clientAuth Sample.platform oauthClient_init
              {| oauth.Token := "temp"; oauth.Secret := "" |}))
  /\ ~ In Stdin_Scan
        (trace (@clientAuth (Online.make (Some Online.denied) (Some "1234567"))
                  oauthClient_init {| oauth.Token := "temp"; oauth.Secret := "" |})).
Proof.
  split.
  - exact (proj2 (proj2 (proj1
      (@clientAuth_launcher_failures Sample.platform oauthClient_init
         {| oauth.Token := "temp"; oauth.Secret := "" |} "xdg-open")
      Sample.notExist eq_refl))).
  - exact (proj2 (proj2
      (@clientAuth_launcher_failures (Online.make (Some Online.denied) (Some "1234567"))
         oauthClient_init {| oauth.Token := "temp"; oauth.Secret := "" |}
         "/usr/bin/open")
      Online.denied eq_refl eq_refl)).
Defined.

(** ** Profile store: every way [getConfig] ends *)

Section ProfileRuns.

Context `{Platform}.

Ltac getConfig_unfold :=
  unfold getConfig; cbv zeta; fold profileDir.

Lemma getConfig_mkdir_run (profile : string) (e : error) :
  MkdirAll_answer profileDir 448 = Some e ->
  getConfig profile = ([os_MkdirAll profileDir 448], Returned ("", None, Some e)).
Proof.
  intros Hmk. getConfig_unfold. rewrite Hmk. reflexivity.
Qed.

(** The run of [getConfig] for a profile other than [?], once the
    directory exists. *)
Lemma getConfig_load_run (profile : string) :
  profile <> "?" ->
  MkdirAll_answer profileDir 448 = None ->
  getConfig profile
  = ([ os_MkdirAll profileDir 448;
       ioutil_ReadFile (filepath_Join [profileDir; settingsFileName profile]) ],
     Returned
       match ReadFile_answer (filepath_Join [profileDir; settingsFileName profile]) with
       | (_, Some e) =>
           if IsNotExist e
           then (filepath_Join [profileDir; settingsFileName profile],
                 Some seededConfig, None)
           else ("", None, Some e)
       | (b, None) =>
           match json_Unmarshal b ∅ with
           | (_, Some e) =>
               ("", None,
                Some (Errorf ("could not unmarshal "
                              +:+ filepath_Join [profileDir; settingsFileName profile]
                              +:+ ": ") (Error e)))
           | (c, None) =>
               (filepath_Join [profileDir; settingsFileName profile], Some c, None)
           end
       end).
Proof.
  intros Hq Hmk. getConfig_unfold. unfold settingsFileName. rewrite Hmk.
  destruct (String.eqb_spec profile "") as [-> | Hne].
  - cbn. destruct (ReadFile_answer _) as [b [e |]].
    + destruct (IsNotExist e); reflexivity.
    + destruct (json_Unmarshal b ∅) as [cfg [e |]]; reflexivity.
  - destruct (String.eqb_spec profile "?") as [-> | _]; [contradiction |].
    cbn. destruct (ReadFile_answer _) as [b [e |]].
    + destruct (IsNotExist e); reflexivity.
    + destruct (json_Unmarshal b ∅) as [cfg [e |]]; reflexivity.
Qed.


(** X10: when the settings file exists, the configuration returned is
    exactly what [json.Unmarshal] makes of its content: the built-in client
    credentials are not added, so a file without [ClientToken] gives a
    configuration without it.  Content that does not parse gives the error
    [could not unmarshal <file>: ...] and no configuration. *)
Theorem getConfig_existing_file (profile b : string) :
  profile <> "?" ->
  MkdirAll_answer profileDir 448 = None ->
  ReadFile_answer (filepath_Join [profileDir; settingsFileName profile]) = (b, None) ->
  (forall c,
      json_Unmarshal b ∅ = (c, None) ->
      result (getConfig profile)
      = Returned (filepath_Join [profileDir; settingsFileName profile], Some c, None))
  /\ (forall c e,
        json_Unmarshal b ∅ = (c, Some e) ->
        result (getConfig profile)
        = Returned ("", None,
                    Some (Errorf ("could not unmarshal "
                                  +:+ filepath_Join [profileDir; settingsFileName profile]
                                  +:+ ": ") (Error e)))).
Proof.
  intros Hq Hmk Hread.
  rewrite (getConfig_load_run profile Hq Hmk), Hread. split.
  - intros c Hparse. cbn. rewrite Hparse. reflexivity.
  - intros c e Hparse. cbn. rewrite Hparse. reflexivity.
Qed.

(** X11: for a profile other than [?], [getConfig] always returns to its
    caller.  An error of [os.MkdirAll] is returned as it is, for every
    profile and before anything else is tried; an error of
    [ioutil.ReadFile] other than not-exist is returned as it is. *)
Theorem getConfig_failures (profile : string) :
  (profile <> "?" -> exists tr r, getConfig profile = (tr, Returned r))
  /\ (forall e,
        MkdirAll_answer profileDir 448 = Some e ->
        getConfig profile = ([os_MkdirAll profileDir 448], Returned ("", None, Some e)))
  /\ (forall b e,
        profile <> "?" ->
        MkdirAll_answer profileDir 448 = None ->
        ReadFile_answer (filepath_Join [profileDir; settingsFileName profile])
        = (b, Some e) ->
        IsNotExist e = false ->
        result (getConfig profile) = Returned ("", None, Some e)).
Proof.
  split; [| split].
  - intros Hq. destruct (MkdirAll_answer profileDir 448) as [e |] eqn:Hmk.
    + rewrite (getConfig_mkdir_run profile e Hmk). eexists _, _. reflexivity.
    + rewrite (getConfig_load_run profile Hq Hmk). eexists _, _. reflexivity.
  - intros e. apply getConfig_mkdir_run.
  - intros b e Hq Hmk Hread Hother.
    rewrite (getConfig_load_run profile Hq Hmk), Hread. cbn.
    rewrite Hother. reflexivity.
Qed.

(** X12: listing undoes file naming: a file whose base name is the settings
    file name of [profile] is listed as [profile], provided the name does
    not begin with a hyphen (leading hyphens are trimmed); the default
    profile is listed as an empty line. *)
Theorem listing_roundtrip (name profile : string) :
  filepath_Base name = settingsFileName profile ->
  HasPrefix profile "-" = false ->
  listing_body name = ([fmt_Println [profile]], Returned tt).
Proof.
  intros Hbase Hhyphen. unfold listing_body. cbv zeta. rewrite Hbase.
  unfold settingsFileName.
  destruct (String.eqb_spec profile "") as [-> | Hne].
  - change "settings.json" with (profileFileName "").
    rewrite slice_profileFileName. reflexivity.
  - change ("settings-" +:+ profile +:+ ".json") with (profileFileName (String "-" profile)).
    rewrite slice_profileFileName. cbn [bind ret TrimLeft in_cutset Ascii.eqb Bool.eqb orb].
    destruct profile as [| c rest]; [contradiction |].
    cbn [HasPrefix] in Hhyphen. rewrite andb_true_r in Hhyphen.
    cbn [TrimLeft in_cutset]. rewrite Hhyphen. reflexivity.
Qed.

End ProfileRuns.


Lemma getConfig_existing_file_witness :
  result (@getConfig Online.platform "work")
  = Returned ("/Users/bob/.config/twty/settings-work.json", Some Online.workConfig, None)
  /\ result (@getConfig Online.platform "broken")
     = Returned ("", None,
                 Some (Errorf "could not unmarshal /Users/bob/.config/twty/settings-broken.json: "
                         "unexpected end of JSON input")).
Proof.
  assert (Hwork : "work" <> "?") by discriminate.
  assert (Hbroken : "broken" <> "?") by discriminate.
  split.
  - exact (proj1 (@getConfig_existing_file Online.platform "work" "work"
                    Hwork eq_refl eq_refl) Online.workConfig eq_refl).
  - exact (proj2 (@getConfig_existing_file Online.platform "broken" "{"
                    Hbroken eq_refl eq_refl) ∅ Online.malformed eq_refl).
Defined.

Lemma getConfig_failures_witness :
  (exists tr r, @getConfig Online.platform "locked" = (tr, Returned r))
  /\ result (@getConfig Online.platform "locked") = Returned ("", None, Some Online.denied).
Proof.
  assert (Hlocked : "locked" <> "?") by discriminate.
  split.
  - exact (proj1 (@getConfig_failures Online.platform "locked") Hlocked).
  - exact (proj2 (proj2 (@getConfig_failures Online.platform "locked"))
             "" Online.denied Hlocked eq_refl eq_refl eq_refl).
Defined.

Lemma listing_roundtrip_witness :
  @listing_body Sample.platform "/home/alice/.config/twty/settings-work.json"
  = ([fmt_Println ["work"]], Returned tt).
Proof.
  exact (@listing_roundtrip Sample.platform
           "/home/alice/.config/twty/settings-work.json" "work" eq_refl eq_refl).
Defined.

(** ** Output formatter: composition and what each mode writes *)

Section FormatterRuns.

Context `{Platform}.

Lemma rendered_app (asjson verbose : bool) (a b : list Tweet.t) :
  rendered asjson verbose (a ++ b)
  = rendered asjson verbose a ++ rendered asjson verbose b.
Proof. unfold rendered. rewrite map_app, concat_app. reflexivity. Qed.

(** X13: showing two batches at once: in verbose and plain mode the output
    for [a ++ b] is the output for [b] followed by the output for [a]; in
    JSON mode it is the output for [a] followed by the output for [b]. *)
Theorem showTweets_append (a b : list Tweet.t) (verbose : bool) :
  trace (showTweets (a ++ b) false verbose)
  = trace (showTweets b false verbose) ++ trace (showTweets a false verbose)
  /\ trace (showTweets (a ++ b) true verbose)
     = trace (showTweets a true verbose) ++ trace (showTweets b true verbose).
Proof.
  split.
  - destruct verbose.
    + rewrite !showTweets_verbose. unfold trace. cbn [fst].
      rewrite rev_app_distr. apply rendered_app.
    + rewrite !showTweets_plain. unfold trace. cbn [fst].
      rewrite rev_app_distr. apply rendered_app.
  - rewrite !showTweets_json. unfold trace. cbn [fst]. apply rendered_app.
Qed.






End FormatterRuns.

(** ** Option builders: what is accepted, round trips and composition *)

Lemma inInt64_fits (n : Z) : inInt64 n <-> fitsInt64 n = true.
Proof.
  unfold inInt64, fitsInt64. rewrite andb_true_iff, Z.leb_le, Z.ltb_lt. reflexivity.
Qed.

(** X15: [countToOpt] in terms of the text of [c]: [count] is set exactly
    when [c] is an optional sign followed by one or more decimal digits
    whose value fits an [int64]; so ["-5"] and ["+3"] are accepted, while
    the empty string, blanks, separators and numbers past the [int64]
    range leave the mapping unchanged. *)
Theorem countToOpt_literal (opt : gmap string string) (c : string) :
  countToOpt opt c
  = match int_literal c with
    | Some n => if fitsInt64 n then <["count" := c]> opt else opt
    | None => opt
    end.
Proof.
  unfold countToOpt.
  destruct (Atoi c) as [n err] eqn:Hatoi. cbn [snd].
  destruct err as [e |].
  - assert (Hno : forall m, int_literal c = Some m -> fitsInt64 m = false).
    { intros m Hlit. destruct (fitsInt64 m) eqn:Hfit; [| reflexivity].
      apply inInt64_fits in Hfit.
      pose proof (proj2 (Atoi_ok_iff c m) (conj Hlit Hfit)) as Hok.
      rewrite Hatoi in Hok. discriminate Hok. }
    destruct (int_literal c) as [m |].
    + rewrite (Hno m eq_refl). destruct (negb _); reflexivity.
    + destruct (negb _); reflexivity.
  - apply Atoi_ok_iff in Hatoi as [Hlit Hfit].
    rewrite Hlit. apply inInt64_fits in Hfit. rewrite Hfit.
    destruct c as [| a rest]; [discriminate Hlit | reflexivity].
Qed.

(** X17: a string passes the date-shape check only if it contains exactly
    two hyphens; a date with a negative component, which has a third
    hyphen, never passes. *)
Theorem isTimeFormat_two_hyphens (s : string) :
  isTimeFormat s = true -> Count s "-" = 2%nat.
Proof.
  unfold isTimeFormat, Split. rewrite length_split_scan.
  destruct (Z.eqb_spec (Z.of_nat (S (Count s "-"))) 3) as [Hlen | Hlen];
    cbn [negb]; [intros _; lia | discriminate].
Qed.

Lemma isTimeFormat_two_hyphens_witness : Count "2017-05-01" "-" = 2%nat.
Proof. exact (isTimeFormat_two_hyphens "2017-05-01" eq_refl). Defined.

(** X19: builders for different keys can be applied in any order: the
    chains [count], [since_id], [max_id] of [main] give the same mapping
    whichever builder runs first. *)
Theorem builders_commute (opt : gmap string string) (c : string) (a b : Z) :
  sinceIDtoOpt (countToOpt opt c) a = countToOpt (sinceIDtoOpt opt a) c
  /\ maxIDtoOpt (countToOpt opt c) b = countToOpt (maxIDtoOpt opt b) c
  /\ maxIDtoOpt (sinceIDtoOpt opt a) b = sinceIDtoOpt (maxIDtoOpt opt b) a.
Proof.
  unfold sinceIDtoOpt, maxIDtoOpt, idToOpt, countToOpt.
  destruct (negb (String.eqb c "")), ((Atoi c).2), (a <? 1), (b <? 1);
    repeat split; try reflexivity; apply insert_insert_ne; discriminate.
Qed.

Lemma all_digits_app (a b : string) :
  all_digits (a +:+ b) = all_digits a && all_digits b.
Proof.
  induction a as [| c a IH]; [reflexivity |].
  rewrite append_cons. cbn [all_digits]. rewrite IH, andb_assoc. reflexivity.
Qed.

Lemma digits_value_app (a b : string) (acc : Z) :
  digits_value (a +:+ b) acc = digits_value b (digits_value a acc).
Proof.
  revert acc. induction a as [| c a IH]; intros acc; [reflexivity |].
  rewrite append_cons. cbn [digits_value]. apply IH.
Qed.

Lemma len_app (a b : string) : len (a +:+ b) = len a + len b.
Proof. unfold len. rewrite length_append. lia. Qed.

Lemma digit_byte (d : Z) :
  0 <= d < 10 -> byte_of (ascii_of_N (Z.to_N (48 + d))) = 48 + d.
Proof.
  intros Hd. unfold byte_of. rewrite N_ascii_embedding by lia. lia.
Qed.

(** [formatBits10] writes the digits of [u] in front of [acc]. *)
Lemma formatBits10_digits (fuel : nat) :
  forall (u : Z) (acc : string),
    0 <= u < 10 ^ Z.of_nat (S fuel) ->
    exists ds c rest,
      formatBits10 fuel u acc = ds +:+ acc
      /\ ds = String c rest
      /\ all_digits ds = true
      /\ forall a, digits_value ds a = a * 10 ^ len ds + u.
Proof.
  assert (Hlast : forall u acc, 0 <= u < 10 ->
            exists ds c rest,
              String (ascii_of_N (Z.to_N (48 + u mod 10))) acc = ds +:+ acc
              /\ ds = String c rest
              /\ all_digits ds = true
              /\ forall a, digits_value ds a = a * 10 ^ len ds + u).
  { intros u acc Hu. rewrite Z.mod_small by lia.
    exists (String (ascii_of_N (Z.to_N (48 + u))) ""), (ascii_of_N (Z.to_N (48 + u))), "".
    split; [reflexivity |]. split; [reflexivity |].
    cbn [all_digits digits_value]. unfold is_digit. rewrite digit_byte by lia.
    split.
    - rewrite andb_true_r. apply andb_true_iff. rewrite !Z.leb_le. lia.
    - intros a. change (len (String _ "")) with 1. lia. }
  induction fuel as [| fuel IH]; intros u acc Hu.
  - change (10 ^ Z.of_nat 1) with 10 in Hu. cbn [formatBits10]. apply Hlast. exact Hu.
  - cbn [formatBits10].
    destruct (Z.ltb_spec u 10) as [Hlt | Hge]; [apply Hlast; lia |].
    assert (Hdiv : 0 <= u / 10 < 10 ^ Z.of_nat (S fuel)).
    { split; [apply Z.div_pos; lia |].
      apply Z.div_lt_upper_bound; [lia |].
      rewrite <- Z.pow_succ_r by lia. rewrite <- Nat2Z.inj_succ. lia. }
    destruct (IH (u / 10) (String (ascii_of_N (Z.to_N (48 + u mod 10))) acc) Hdiv)
      as (ds & c & rest & Hrun & Hds & Hall & Hval).
    pose proof (Z.mod_pos_bound u 10 ltac:(lia)) as Hmod.
    exists (ds +:+ String (ascii_of_N (Z.to_N (48 + u mod 10))) ""), c,
           (rest +:+ String (ascii_of_N (Z.to_N (48 + u mod 10))) "").
    split; [rewrite Hrun, append_assoc; reflexivity |].
    split; [rewrite Hds; reflexivity |].
    split.
    + rewrite all_digits_app, Hall. cbn [all_digits andb]. unfold is_digit.
      rewrite digit_byte by lia. rewrite andb_true_r.
      apply andb_true_iff. rewrite !Z.leb_le. lia.
    + intros a. rewrite digits_value_app, Hval. cbn [digits_value].
      rewrite digit_byte by lia. rewrite len_app.
      change (len (String _ "")) with 1.
      rewrite Z.pow_add_r by (pose proof (len_nonneg ds); lia).
      change (10 ^ 1) with 10.
      pose proof (Z.div_mod u 10 ltac:(lia)) as Hdm. lia.
Qed.

Lemma digit_not_sign (c : ascii) :
  is_digit c = true -> Ascii.eqb c "-" = false /\ Ascii.eqb c "+" = false.
Proof.
  unfold is_digit. intros Hc. apply andb_true_iff in Hc as [Hlo _].
  apply Z.leb_le in Hlo.
  split; apply Ascii.eqb_neq; intros ->; vm_compute in Hlo; apply Hlo; reflexivity.
Qed.

(** Reading back what [FormatInt] wrote gives the number. *)
Lemma FormatInt_Atoi (i : Z) : inInt64 i -> Atoi (FormatInt i) = (i, None).
Proof.
  intros Hi. apply Atoi_ok_iff. split; [| exact Hi].
  unfold inInt64 in Hi. unfold FormatInt.
  assert (Hfuel : 2 ^ 64 < 10 ^ Z.of_nat 65).
  { change (10 ^ Z.of_nat 65)
      with 100000000000000000000000000000000000000000000000000000000000000000.
    change (2 ^ 64) with 18446744073709551616. lia. }
  assert (Hnum : forall u, 0 <= u < 2 ^ 64 ->
            numeral (formatBits10 64 u "") = Some u
            /\ int_literal (formatBits10 64 u "") = Some u).
  { intros u Hu.
    destruct (formatBits10_digits 64 u "" ltac:(lia))
      as (ds & c & rest & Hrun & Hds & Hall & Hval).
    rewrite Hrun, append_nil_r.
    assert (Hnumeral : numeral ds = Some u).
    { rewrite Hds in *. unfold numeral. rewrite Hall. f_equal.
      rewrite Hval. lia. }
    split; [exact Hnumeral |].
    rewrite Hds in *. cbn [int_literal].
    cbn [all_digits] in Hall. apply andb_true_iff in Hall as [Hc _].
    destruct (digit_not_sign c Hc) as [-> ->]. exact Hnumeral. }
  destruct (Z.ltb_spec i 0) as [Hneg | Hpos].
  - rewrite wrapU_id by lia. cbn [int_literal Ascii.eqb Bool.eqb].
    rewrite (proj1 (Hnum (- i) ltac:(lia))). cbn. f_equal. lia.
  - rewrite wrapU_id by lia. apply Hnum. lia.
Qed.

(** X18: for a 64-bit [id >= 1], the string [sinceIDtoOpt] and
    [maxIDtoOpt] store reads back through [strconv.Atoi] as [id]: the
    decimal text sent to the service denotes the number given on the
    command line. *)
Theorem idToOpt_roundtrip (opt : gmap string string) (id : Z) :
  inInt64 id -> 1 <= id ->
  exists v,
    sinceIDtoOpt opt id !! "since_id" = Some v
    /\ maxIDtoOpt opt id !! "max_id" = Some v
    /\ Atoi v = (id, None).
Proof.
  intros Hid Hpos. exists (FormatInt id).
  unfold sinceIDtoOpt, maxIDtoOpt, idToOpt.
  destruct (Z.ltb_spec id 1) as [Hlt | _]; [lia |].
  rewrite !lookup_insert_eq. repeat split. apply FormatInt_Atoi. exact Hid.
Qed.

Lemma idToOpt_roundtrip_witness :
  exists v,
    sinceIDtoOpt ∅ 1234567890123 !! "since_id" = Some v
    /\ maxIDtoOpt ∅ 1234567890123 !! "max_id" = Some v
    /\ Atoi v = (1234567890123, None).
Proof.
  apply (idToOpt_roundtrip ∅ 1234567890123); unfold inInt64; lia.
Defined.

(** ** The second half: media list, network calls and [main] *)

(** ** The media list *)

Lemma split_scan_Join (e : string) (rest : list string) (cur : string) :
  Forall (fun s => in_cutset "," s = false) (e :: rest) ->
  split_scan "," 0 cur (Join (e :: rest) ",") = (cur +:+ e) :: rest.
Proof.
  revert e cur. induction rest as [| e' rest IH]; intros e cur Hall.
  - cbn [Join]. inversion Hall as [| ? ? He _]; subst.
    rewrite <- (append_nil_r e) at 1.
    rewrite (split_scan_append "," e "" cur He). reflexivity.
  - inversion Hall as [| ? ? He Hrest]; subst.
    change (Join (e :: e' :: rest) ",") with (e +:+ "," +:+ Join (e' :: rest) ",").
    rewrite (split_scan_append "," e _ cur He).
    rewrite append_cons, append_nil, split_scan_byte. cbn [Ascii.eqb Bool.eqb].
    rewrite (IH e' "" Hrest), append_nil. reflexivity.
Qed.

Lemma files_Set_all (values f : list string) :
  foldl (fun f value => (files_Set f value).1) f values = f ++ values.
Proof.
  revert f. induction values as [| v values IH]; intros f.
  - cbn. rewrite app_nil_r. reflexivity.
  - cbn [foldl]. rewrite IH. unfold files_Set. cbn [fst].
    rewrite <- app_assoc. reflexivity.
Qed.

(** X20: repeated [-m] flags collect their values in the order given, no
    [Set] call reports an error, and for a non-empty list of values without
    a comma, splitting the [String] form at the commas gives the list
    back. *)
Theorem files_String_roundtrip (values : list string) :
  values <> [] ->
  Forall (fun value => in_cutset "," value = false) values ->
  foldl (fun f value => (files_Set f value).1) [] values = values
  /\ Forall (fun value => forall f, (files_Set f value).2 = None) values
  /\ Split (files_String values) "," = values.
Proof.
  intros Hne Hall. split; [| split].
  - apply files_Set_all.
  - apply Forall_forall. intros value _ f. reflexivity.
  - destruct values as [| e rest]; [contradiction |].
    unfold Split, files_String. rewrite (split_scan_Join e rest "" Hall).
    rewrite append_nil. reflexivity.
Qed.

Lemma files_String_roundtrip_witness :
  Split (files_String ["a.png"; "b.png"]) "," = ["a.png"; "b.png"]
  /\ Split (files_String []) "," = [""].
Proof.
  split; [| reflexivity].
  apply (files_String_roundtrip ["a.png"; "b.png"]).
  - discriminate.
  - repeat constructor.
Defined.

(** ** Runs of the network calls *)

Lemma requests_app (a b : list action) : requests (a ++ b) = requests a ++ requests b.
Proof. apply List.filter_app. Qed.

Lemma filter_local (p : action -> bool) (tr : list event) :
  (forall e, p (local e) = false) -> List.filter p (local <$> tr) = [].
Proof.
  intros Hp. induction tr as [| e tr IH]; [reflexivity |].
  cbn. rewrite Hp. exact IH.
Qed.

Lemma requests_local (tr : list event) : requests (local <$> tr) = [].
Proof. apply filter_local. reflexivity. Qed.

Section NetworkRuns.

Context `{Platform} `{Remote}.

Local Open Scope run_scope.

(** The run of [rawCall], case by case. *)
Lemma rawCall_run {A} (decode : Decoder A) (debug : bool)
    (client : oauth.Client) (token : option oauth.Credentials)
    (method uri : string) (opt : gmap string string) (res : option A) :
  rawCall decode debug client token method uri opt res
  = match rawAnswer client token method uri opt with
    | (_, Some e) => ([rawRequest client token method uri opt], Returned (res, Some e))
    | (resp, None) =>
        match res with
        | None =>
            ([rawRequest client token method uri opt; Body_Close], Returned (None, None))
        | Some target =>
            (rawRequest client token method uri opt
               :: (if debug then [Stdout_Tee (Body resp)] else []) ++ [Body_Close],
             Returned (Some (decode (Body resp) target).1, (decode (Body resp) target).2))
        end
    end.
Proof.
  unfold rawCall, rawRequest, rawAnswer. cbv zeta.
  destruct (String.eqb method "GET"); unfold ask, rbind.
  - destruct (Get_answer _) as [resp [e |]]; [reflexivity |].
    destruct res as [target |]; [| reflexivity].
    destruct debug; destruct (decode (Body resp) target); reflexivity.
  - destruct (PostForm_answer _ _) as [resp [e |]]; [reflexivity |].
    destruct res as [target |]; [| reflexivity].
    destruct debug; destruct (decode (Body resp) target); reflexivity.
Qed.

(** The run of [upload], case by case. *)
Lemma upload_run {A} (decode : Decoder A)
    (client : oauth.Client) (token : option oauth.Credentials)
    (file : string) (opt : gmap string string) (res : option A) :
  upload decode client token file opt res
  = match Open_answer file with
    | Some e => ([os_Open file], Returned (res, Some e))
    | None =>
        match Copy_answer file with
        | (_, Some e) => ([os_Open file; io_Copy file; File_Close file], Returned (res, Some e))
        | (content, None) =>
            match Do_answer (uploadRequest client token file opt content) with
            | (_, Some e) =>
                ([os_Open file; io_Copy file;
                  http_Do (uploadRequest client token file opt content);
                  File_Close file],
                 Returned (res, Some e))
            | (resp, None) =>
                ([os_Open file; io_Copy file;
                  http_Do (uploadRequest client token file opt content);
                  Body_Close; File_Close file],
                 Returned
                   match res with
                   | None => (None, None)
                   | Some target =>
                       (Some (decode (Body resp) target).1, (decode (Body resp) target).2)
                   end)
            end
        end
    end.
Proof.
  unfold upload, uploadRequest. cbv zeta. unfold ask, rbind.
  destruct (Open_answer file) as [e |]; [reflexivity |].
  destruct (Copy_answer file) as [content [e |]]; [reflexivity |].
  destruct (Do_answer _) as [resp [e |]]; [reflexivity |].
  destruct res as [target |]; [| reflexivity].
  destruct (decode (Body resp) target); reflexivity.
Qed.


(** X21: [rawCall] always returns and sends exactly one request, the
    first action of its run.  When the transport fails that request is the
    whole run and the error is returned with the result untouched;
    otherwise the response body is closed exactly once, as the last
    action.  With a nil result nothing is decoded or echoed, whatever the
    debug flag. *)
Theorem rawCall_one_request {A} (decode : Decoder A) (debug : bool)
    (client : oauth.Client) (token : option oauth.Credentials)
    (method uri : string) (opt : gmap string string) (res : option A) :
  let run := rawCall decode debug client token method uri opt res in
  requests run.1 = [rawRequest client token method uri opt]
  /\ hd_error run.1 = Some (rawRequest client token method uri opt)
  /\ match (rawAnswer client token method uri opt).2 with
     | Some e => run = ([rawRequest client token method uri opt], Returned (res, Some e))
     | None =>
         List.filter is_Body_Close run.1 = [Body_Close]
         /\ last run.1 = Some Body_Close
         /\ exists r, run.2 = Returned r
     end
  /\ rawCall decode debug client token method uri opt None
     = (rawRequest client token method uri opt
          :: match (rawAnswer client token method uri opt).2 with
             | Some _ => []
             | None => [Body_Close]
             end,
        Returned (None, (rawAnswer client token method uri opt).2)).
Proof.
  cbv zeta. rewrite !rawCall_run.
  assert (Hreq : is_request (rawRequest client token method uri opt) = true
                 /\ is_Body_Close (rawRequest client token method uri opt) = false).
  { unfold rawRequest. destruct (String.eqb method "GET"); split; reflexivity. }
  destruct Hreq as [Hreq Hclose].
  destruct (rawAnswer client token method uri opt) as [resp [e |]]; cbn [snd].
  - unfold requests. cbn. rewrite Hreq. repeat split; reflexivity.
  - destruct res as [target |].
    + destruct debug; unfold requests; cbn; rewrite Hreq, Hclose;
        (repeat split; try reflexivity); eexists; reflexivity.
    + unfold requests. cbn. rewrite Hreq, Hclose.
      (repeat split; try reflexivity); eexists; reflexivity.
Qed.


End NetworkRuns.

Section UploadLoop.

Context `{Platform} `{Remote}.

Local Open Scope run_scope.

Lemma rbind_rret {A B} (a : A) (k : A -> Run B) : rbind (rret a) k = k a.
Proof. unfold rbind, rret. destruct (k a); reflexivity. Qed.

Lemma rbind_returned {A B} (tr : list action) (a : A) (k : A -> Run B) :
  rbind (tr, Returned a) k = (tr ++ (k a).1, (k a).2).
Proof. unfold rbind. destruct (k a); reflexivity. Qed.

Lemma rbind_assoc {A B C} (m : Run A) (k : A -> Run B) (k' : B -> Run C) :
  rbind (rbind m k) k' = rbind m (fun a => rbind (k a) k').
Proof.
  destruct m as [tr [a | code |]]; [| reflexivity | reflexivity].
  unfold rbind at 2 3. destruct (k a) as [tr1 [b | code |]]; cbn [rbind]; try reflexivity.
  destruct (k' b) as [tr2 o]. rewrite app_assoc. reflexivity.
Qed.

Lemma rindex_middle {A} (done rest : list A) (a : A) :
  rindex (done ++ a :: rest) (Z.of_nat (length done)) = rret a.
Proof.
  unfold rindex.
  replace (Z.of_nat (length done) <? 0) with false by (symmetry; apply Z.ltb_ge; lia).
  rewrite Nat2Z.id, list_lookup_middle by reflexivity. reflexivity.
Qed.

(** The loop over files whose uploads go through, up to the entry it
    reaches next. *)
Lemma upload_loop_prefix (client : oauth.Client) (token : option oauth.Credentials)
    (ok : list string) :
  Forall (uploadSucceeds client token) ok ->
  forall (done tail : list string) (n : nat) (res : MediaResult.t),
    upload_loop client token (length ok + n) (Z.of_nat (length done))
      (done ++ ok ++ tail) res
    = (uploadActions client token ok
         ++ (upload_loop client token n (Z.of_nat (length (done ++ uploadedIDs client token ok res)))
               ((done ++ uploadedIDs client token ok res) ++ tail)
               (uploadedRes client token ok res)).1,
       (upload_loop client token n (Z.of_nat (length (done ++ uploadedIDs client token ok res)))
          ((done ++ uploadedIDs client token ok res) ++ tail)
          (uploadedRes client token ok res)).2).
Proof.
  induction 1 as [| file ok Hfile _ IH]; intros done tail n res.
  - cbn [length Nat.add uploadedIDs uploadedRes uploadActions fmap list_fmap concat app].
    rewrite !app_nil_r. destruct (upload_loop _ _ _ _ _ _); reflexivity.
  - destruct Hfile as (Hopen & Hcopy & Hdo & Hdec).
    cbn [length Nat.add upload_loop app].
    rewrite rindex_middle, rbind_rret, upload_run, Hopen.
    destruct (Copy_answer file) as [content cerr] eqn:Hc. cbn [snd fst] in Hcopy, Hdo, Hdec.
    subst cerr.
    destruct (Do_answer (uploadRequest client token file ∅ content)) as [resp derr] eqn:Hd.
    cbn [snd fst] in Hdo, Hdec. subst derr.
    specialize (Hdec res).
    destruct (decode_media (Body resp) res) as [res' derr] eqn:Hdm.
    cbn [snd fst] in Hdec |- *. subst derr. rewrite rbind_returned.
    cbn [default from_option id].
    replace (Z.of_nat (length done) <? 0) with false by (symmetry; apply Z.ltb_ge; lia).
    replace (Z.of_nat (length (done ++ file :: ok ++ tail)) <=? Z.of_nat (length done))
      with false
      by (symmetry; apply Z.leb_gt; rewrite length_app; cbn [length]; lia).
    cbn [orb]. rewrite Nat2Z.id.
    replace (<[length done := MediaResult.MediaIDString res']> (done ++ file :: ok ++ tail))
      with ((done ++ [MediaResult.MediaIDString res']) ++ ok ++ tail).
    2:{ rewrite insert_app_r_alt by lia. rewrite Nat.sub_diag. cbn.
        rewrite <- app_assoc. reflexivity. }
    replace (Z.of_nat (length done) + 1)
      with (Z.of_nat (length (done ++ [MediaResult.MediaIDString res'])))
      by (rewrite length_app; cbn [length]; lia).
    rewrite (IH (done ++ [MediaResult.MediaIDString res']) tail n res').
    cbn [uploadedIDs uploadedRes uploadActions fmap list_fmap concat].
    rewrite Hc. cbn [fst]. rewrite Hd. cbn [fst]. rewrite Hdm. cbn [fst].
    rewrite <- !app_assoc. cbn [app]. reflexivity.
Qed.

(** X23: the upload loop of [main].  When the uploads of the first files
    go through, each is opened, read, sent and closed in turn, and each
    entry is replaced by the identifier decoded from its response, every
    response being decoded into the struct the previous one left.  If they
    all go through the loop returns the list of identifiers, of the same
    length; if the next upload fails the loop logs the error and exits
    with status 1 without opening any later file. *)
Theorem upload_loop_run (client : oauth.Client) (token : option oauth.Credentials)
    (ok : list string) (res : MediaResult.t) :
  Forall (uploadSucceeds client token) ok ->
  upload_loop client token (length ok) 0 ok res
  = (uploadActions client token ok, Returned (uploadedIDs client token ok res))
  /\ length (uploadedIDs client token ok res) = length ok
  /\ forall (bad : string) (rest : list string) (r : option MediaResult.t) (e : error),
       (upload decode_media client token bad ∅
          (Some (uploadedRes client token ok res))).2 = Returned (r, Some e) ->
       upload_loop client token (length (ok ++ bad :: rest)) 0 (ok ++ bad :: rest) res
       = (uploadActions client token ok
            ++ (upload decode_media client token bad ∅
                  (Some (uploadedRes client token ok res))).1
            ++ [log_Fatal ["cannot upload media:"; Error e]],
          Exited 1).
Proof.
  intros Hok. split; [| split].
  - pose proof (upload_loop_prefix client token ok Hok [] [] 0 res) as Hrun.
    change (Z.of_nat (@length string [])) with 0 in Hrun.
    cbn [app] in Hrun. rewrite Nat.add_0_r, app_nil_r in Hrun.
    rewrite Hrun. cbn [upload_loop rret fst snd]. rewrite !app_nil_r. reflexivity.
  - clear Hok. revert res. induction ok as [| file ok IH]; intros res; [reflexivity |].
    cbn [uploadedIDs length]. rewrite IH. reflexivity.
  - intros bad rest r e Hbad.
    pose proof (upload_loop_prefix client token ok Hok [] (bad :: rest)
                  (S (length rest)) res) as Hrun.
    change (Z.of_nat (@length string [])) with 0 in Hrun.
    cbn [app] in Hrun.
    rewrite length_app. cbn [length]. rewrite Hrun.
    cbn [upload_loop].
    rewrite (rindex_middle (uploadedIDs client token ok res) rest bad), rbind_rret.
    destruct (upload decode_media client token bad ∅
                (Some (uploadedRes client token ok res))) as [tr o].
    cbn [snd fst] in Hbad |- *. subst o.
    reflexivity.
Qed.

End UploadLoop.

Lemma upload_loop_run_witness :
  @upload_loop Wire.remote oauthClient_init Wire.bobToken 2 0
    ["a.png"; "b.png"] MediaResult.zero
  = (@uploadActions Wire.remote oauthClient_init Wire.bobToken ["a.png"; "b.png"],
     Returned ["id-a.png"; "id-b.png"])
  /\ (@upload_loop Wire.remote oauthClient_init Wire.bobToken 3 0
        ["a.png"; "missing.png"; "c.png"] MediaResult.zero).2
     = Exited 1
  /\ ~ In (os_Open "c.png")
         (@upload_loop Wire.remote oauthClient_init Wire.bobToken 3 0
            ["a.png"; "missing.png"; "c.png"] MediaResult.zero).1.
Proof.
  assert (Hok : Forall (@uploadSucceeds Wire.remote oauthClient_init Wire.bobToken)
                  ["a.png"; "b.png"]).
  { repeat constructor. }
  assert (Hone : Forall (@uploadSucceeds Wire.remote oauthClient_init Wire.bobToken)
                   ["a.png"]).
  { repeat constructor. }
  split; [| split].
  - exact (proj1 (@upload_loop_run Wire.remote oauthClient_init Wire.bobToken
                    ["a.png"; "b.png"] MediaResult.zero Hok)).
  - exact (f_equal snd
             (proj2 (proj2 (@upload_loop_run Wire.remote oauthClient_init Wire.bobToken
                              ["a.png"] MediaResult.zero Hone))
                "missing.png" ["c.png"]
                (Some (@uploadedRes Wire.remote oauthClient_init Wire.bobToken
                         ["a.png"] MediaResult.zero))
                Sample.notExist eq_refl)).
  - vm_compute. intros Hin.
    repeat (destruct Hin as [Hin | Hin]; [discriminate Hin |]). exact Hin.
Defined.

Section Dispatch.

Context `{Platform} `{Remote}.

Local Open Scope run_scope.

Lemma len_positive (s : string) : s <> "" -> (0 <? len s) = true.
Proof.
  intros Hs. destruct s as [| c s]; [contradiction |].
  apply Z.ltb_lt. unfold len. cbn [String.length]. lia.
Qed.

Lemma not_empty (s : string) : s <> "" -> negb (String.eqb s "") = true.
Proof.
  intros Hs. destruct (String.eqb_spec s ""); [contradiction | reflexivity].
Qed.

Lemma dates_ignored (opt : gmap string string) (since until : string) :
  untilToOpt (sinceToOpt opt since) until = opt.
Proof.
  assert (Hcore : forall o key t, timeFormatToOpt o key t = o).
  { intros o key t. unfold timeFormatToOpt. destruct t; reflexivity. }
  unfold sinceToOpt, untilToOpt. rewrite !Hcore. reflexivity.
Qed.

Lemma rawRequest_is_request (client : oauth.Client) (token : option oauth.Credentials)
    (method uri : string) (opt : gmap string string) :
  is_request (rawRequest client token method uri opt) = true.
Proof. unfold rawRequest. destruct (String.eqb method "GET"); reflexivity. Qed.

Lemma lift_showTweets (tweets : list Tweet.t) (asjson verbose : bool) :
  lift (showTweets tweets asjson verbose)
  = (local <$> rendered asjson verbose (if asjson then tweets else rev tweets),
     Returned tt).
Proof.
  destruct asjson; [rewrite showTweets_json; reflexivity |].
  destruct verbose; [rewrite showTweets_verbose | rewrite showTweets_plain]; reflexivity.
Qed.

(** A call followed by the error check of [main] and, on success, by a
    continuation that sends nothing: the request of the call is the only
    one. *)
Lemma requests_call_then {A} (decode : Decoder A) (debug : bool)
    (client : oauth.Client) (token : option oauth.Credentials)
    (method uri : string) (opt : gmap string string) (res : option A)
    (msg : string) (k : option A -> Run unit) :
  (forall v, requests (k v).1 = []) ->
  requests
    (r <- rawCall decode debug client token method uri opt res ;;
     let '(v, err) := r in
     match err with
     | Some e => Fatal [msg; Error e]
     | None => k v
     end).1
  = [rawRequest client token method uri opt].
Proof.
  intros Hk. rewrite rawCall_run.
  pose proof (rawRequest_is_request client token method uri opt) as Hreq.
  destruct (rawAnswer client token method uri opt) as [resp [e |]].
  - unfold requests. cbn. rewrite Hreq. reflexivity.
  - destruct res as [target |].
    + rewrite rbind_returned. cbn [fst].
      destruct (decode (Body resp) target) as [v [e |]]; cbn [fst snd];
        rewrite ?Hk; destruct debug; unfold requests in *; cbn; rewrite Hreq;
        cbn; rewrite ?List.filter_app, ?Hk; reflexivity.
    + rewrite rbind_returned. cbn [fst]. rewrite requests_app, Hk.
      unfold requests. cbn. rewrite Hreq. reflexivity.
Qed.

Lemma requests_lift {A} (m : IO A) : requests (lift m).1 = [].
Proof. apply requests_local. Qed.

Lemma countToOpt_keys (opt : gmap string string) (c k : string) :
  k <> "count" -> countToOpt opt c !! k = opt !! k.
Proof.
  intros Hk. unfold countToOpt.
  destruct (negb (String.eqb c "")); [| reflexivity].
  destruct (Atoi c).2; [reflexivity |].
  rewrite lookup_insert_ne by congruence. reflexivity.
Qed.

(** X24: a search ([-s]) sends exactly one request, a GET of
    [search/tweets.json] whose options are the search word under [q] and,
    when it parses as an integer, the count: whatever [-since] and
    [-until] say, neither key is sent, and the request depends on no
    other flag. *)
Theorem main_search_request (fl : Flags.t) (client : oauth.Client)
    (token : option oauth.Credentials) (media : list string) :
  Flags.search fl <> "" ->
  let opt := countToOpt (<["q" := Flags.search fl]> ∅) (Flags.count fl) in
  requests (main_action fl client token media).1
  = [rawRequest client token "GET" "https://api.twitter.com/1.1/search/tweets.json" opt]
  /\ opt !! "q" = Some (Flags.search fl)
  /\ opt !! "since" = None
  /\ opt !! "until" = None
  /\ forall k, is_Some (opt !! k) -> k = "q" \/ k = "count".
Proof.
  intros Hs opt. split; [| split; [| split; [| split]]].
  - unfold main_action. cbv zeta. rewrite (len_positive _ Hs), dates_ignored.
    apply requests_call_then. intros v. apply requests_lift.
  - unfold opt. rewrite countToOpt_keys by discriminate.
    apply lookup_insert_eq.
  - unfold opt. rewrite countToOpt_keys by discriminate.
    rewrite lookup_insert_ne by discriminate. apply lookup_empty.
  - unfold opt. rewrite countToOpt_keys by discriminate.
    rewrite lookup_insert_ne by discriminate. apply lookup_empty.
  - intros k Hk.
    destruct (decide (k = "count")) as [-> | Hc]; [right; reflexivity |].
    left. unfold opt in Hk. rewrite countToOpt_keys in Hk by exact Hc.
    destruct (decide (k = "q")) as [-> | Hq]; [reflexivity |].
    rewrite lookup_insert_ne, lookup_empty in Hk by congruence.
    destruct Hk as [x Hx]. discriminate Hx.
Qed.

End Dispatch.

Ltac run_steps :=
  repeat (progress (rewrite ?rbind_rret, ?rbind_returned;
                    cbn [fst snd default from_option id rret])).

Section ListTimeline.

Context `{Platform} `{Remote}.

Local Open Scope run_scope.

Lemma splitN_scan_rest (sep cur s : string) :
  splitN_scan sep 0 0 cur s = [cur +:+ s].
Proof.
  destruct s as [| c s]; [| reflexivity].
  cbn [splitN_scan]. rewrite append_nil_r. reflexivity.
Qed.

Lemma splitN_scan_cut (s cur : string) :
  splitN_scan "/" 1 0 cur s
  = match cut s "/" with
    | Some (before, after) => [cur +:+ before; after]
    | None => [cur +:+ s]
    end.
Proof.
  revert cur. induction s as [| c s IH]; intros cur.
  - cbn [splitN_scan cut]. rewrite append_nil_r. reflexivity.
  - cbn [splitN_scan cut HasPrefix String.length Nat.sub]. rewrite andb_true_r.
    destruct (Ascii.eqb c "/").
    + rewrite splitN_scan_rest, append_nil, append_nil_r. reflexivity.
    + rewrite IH. destruct (cut s "/") as [[before after] |].
      * rewrite append_assoc. reflexivity.
      * rewrite append_assoc. reflexivity.
Qed.

Lemma SplitN_cut (s : string) :
  SplitN s "/" 2
  = match cut s "/" with
    | Some (before, after) => [before; after]
    | None => [s]
    end.
Proof.
  unfold SplitN. cbn [Z.eqb Z.ltb Z.compare Z.sub Z.add Z.opp Z.pos_sub Z.to_nat
                      Pos.to_nat Pos.iter_op Nat.add Z.succ_double Z.pred_double Z.double
                      Pos.pred_double].
  change (Z.to_nat (2 - 1)) with 1%nat.
  rewrite splitN_scan_cut.
  destruct (cut s "/") as [[before after] |]; rewrite ?append_nil; reflexivity.
Qed.

Lemma cut_first (owner slug : string) :
  in_cutset "/" owner = false ->
  cut (owner +:+ "/" +:+ slug) "/" = Some (owner, slug).
Proof.
  induction owner as [| c owner IH]; intros Hno.
  - reflexivity.
  - cbn [in_cutset] in Hno. apply orb_false_iff in Hno as [Hc Hno].
    rewrite append_cons. cbn [cut]. rewrite Ascii.eqb_sym, Hc, (IH Hno). reflexivity.
Qed.

Lemma cut_none (s : string) : in_cutset "/" s = false -> cut s "/" = None.
Proof.
  induction s as [| c s IH]; intros Hno; [reflexivity |].
  cbn [in_cutset] in Hno. apply orb_false_iff in Hno as [Hc Hno].
  cbn [cut]. rewrite Ascii.eqb_sym, Hc, (IH Hno). reflexivity.
Qed.

(** X25: the list timeline ([-l], without [-s] and [-r]).  A value
    [owner/slug] is cut at its first slash and sends one request, for
    that owner and slug.  A value without a slash first asks
    [account/settings.json], and only if that call succeeds asks for the
    list under the screen name of the account; the count and the two id
    bounds go through their builders. *)
Theorem main_list_owner (fl : Flags.t) (client : oauth.Client)
    (token : option oauth.Credentials) (media : list string) :
  Flags.search fl = "" ->
  Flags.reply fl = false ->
  Flags.list_ fl <> "" ->
  let listRequest owner slug :=
    rawRequest client token "GET" "https://api.twitter.com/1.1/lists/statuses.json"
      (maxIDtoOpt
         (sinceIDtoOpt
            (countToOpt (<["owner_screen_name" := owner]> (<["slug" := slug]> ∅))
               (Flags.count fl))
            (Flags.sinceID fl))
         (Flags.maxID fl)) in
  (forall owner slug,
      Flags.list_ fl = owner +:+ "/" +:+ slug ->
      in_cutset "/" owner = false ->
      requests (main_action fl client token media).1 = [listRequest owner slug])
  /\ (in_cutset "/" (Flags.list_ fl) = false ->
      requests (main_action fl client token media).1
      = rawRequest client token "GET" "https://api.twitter.com/1.1/account/settings.json" ∅
          :: match rawAnswer client token "GET"
                     "https://api.twitter.com/1.1/account/settings.json" ∅ with
             | (resp, None) =>
                 match decode_account (Body resp) Account.zero with
                 | (account, None) =>
                     [listRequest (Account.ScreenName account) (Flags.list_ fl)]
                 | (_, Some _) => []
                 end
             | (_, Some _) => []
             end).
Proof.
  intros Hsearch Hreply Hlist listRequest. split.
  - intros owner slug Hcut Howner.
    unfold main_action. cbv zeta.
    rewrite Hsearch, Hreply, (not_empty _ Hlist).
    change (0 <? len "") with false. cbv iota.
    rewrite SplitN_cut, Hcut, (cut_first owner slug Howner).
    change (Z.of_nat (length [owner; slug]) =? 1) with false. cbv iota.
    rewrite rbind_rret.
    change (rindex [owner; slug] 0) with (rret owner).
    change (rindex [owner; slug] 1) with (rret slug).
    rewrite !rbind_rret.
    apply requests_call_then. intros v. apply requests_lift.
  - intros Hno.
    unfold main_action. cbv zeta.
    rewrite Hsearch, Hreply, (not_empty _ Hlist).
    change (0 <? len "") with false. cbv iota.
    rewrite SplitN_cut, (cut_none _ Hno).
    change (Z.of_nat (length [Flags.list_ fl]) =? 1) with true. cbv iota.
    change (rindex [Flags.list_ fl] 0) with (rret (Flags.list_ fl)).
    rewrite rawCall_run.
    pose proof (rawRequest_is_request client token "GET"
                  "https://api.twitter.com/1.1/account/settings.json" ∅) as Hreq.
    destruct (rawAnswer client token "GET"
                "https://api.twitter.com/1.1/account/settings.json" ∅) as [resp [e |]].
    + unfold requests. cbn. rewrite ?Hreq. reflexivity.
    + destruct (decode_account (Body resp) Account.zero) as [account [e |]].
      * destruct (Flags.debug fl); unfold requests; cbn; rewrite ?Hreq; reflexivity.
      * change (rindex [Flags.list_ fl] 0) with (rret (Flags.list_ fl)).
        run_steps.
        change (rindex [Account.ScreenName account; Flags.list_ fl] 0)
          with (rret (Account.ScreenName account)).
        change (rindex [Account.ScreenName account; Flags.list_ fl] 1)
          with (rret (Flags.list_ fl)).
        run_steps.
        rewrite app_nil_r, requests_app.
        rewrite requests_call_then by (intros v; apply requests_lift).
        destruct (Flags.debug fl); unfold requests; cbn; rewrite ?Hreq; reflexivity.
Qed.

End ListTimeline.

Section Posting.

Context `{Platform} `{Remote}.

Local Open Scope run_scope.

Lemma requests_post (fl : Flags.t) (client : oauth.Client)
    (token : option oauth.Credentials) (media : list string) (status : string) :
  requests (post fl client token media status).1
  = [rawRequest client token "POST" "https://api.twitter.com/1.1/statuses/update.json"
       (<["status" := status]>
          (<["in_reply_to_status_id" := Flags.inreply fl]>
             (<["media_ids" := files_String media]> ∅)))].
Proof.
  unfold post. apply requests_call_then. intros v. reflexivity.
Qed.

(** X26: a favorite ([-f], with no flag of an earlier branch) posts the
    id to [favorites/create.json].  The response is closed unread: when
    the transport reports no error the run prints the heart and
    [favorited] whatever status and body came back, and the debug flag
    echoes nothing; a transport error is fatal. *)
Theorem main_favorite (fl : Flags.t) (client : oauth.Client)
    (token : option oauth.Credentials) (media : list string) :
  Flags.search fl = "" ->
  Flags.reply fl = false ->
  Flags.list_ fl = "" ->
  Flags.user fl = "" ->
  Flags.favorite fl <> "" ->
  main_action fl client token media
  = match (rawAnswer client token "POST"
             "https://api.twitter.com/1.1/favorites/create.json"
             (<["id" := Flags.favorite fl]> ∅)).2 with
    | Some e =>
        ([ rawRequest client token "POST"
             "https://api.twitter.com/1.1/favorites/create.json"
             (<["id" := Flags.favorite fl]> ∅);
           log_Fatal ["cannot create favorite:"; Error e] ],
         Exited 1)
    | None =>
        ([ rawRequest client token "POST"
             "https://api.twitter.com/1.1/favorites/create.json"
             (<["id" := Flags.favorite fl]> ∅);
           Body_Close;
           local (color_Set FgHiRed);
           local (fmt_Print [_EmojiRedHeart]);
           local (color_Set Reset);
           local (fmt_Println ["favorited"]) ],
         Returned tt)
    end.
Proof.
  intros Hsearch Hreply Hlist Huser Hfav.
  unfold main_action. cbv zeta.
  rewrite Hsearch, Hreply, Hlist, Huser, (not_empty _ Hfav).
  change (0 <? len "") with false. change (negb (String.eqb "" "")) with false. cbv iota.
  rewrite rawCall_run.
  destruct (rawAnswer _ _ _ _ _) as [resp [e |]]; reflexivity.
Qed.

(** X27: posting from a file ([-ff], with no flag of an earlier branch).
    The text is read from standard input for the name [-] and from the
    named file otherwise.  A read error is fatal before any request is
    sent; otherwise the one request posts the text read as the status,
    with the reply id and the comma-joined media list. *)
Theorem main_fromfile (fl : Flags.t) (client : oauth.Client)
    (token : option oauth.Credentials) (media : list string) :
  Flags.search fl = "" ->
  Flags.reply fl = false ->
  Flags.list_ fl = "" ->
  Flags.user fl = "" ->
  Flags.favorite fl = "" ->
  Flags.fromfile fl <> "" ->
  let read :=
    if String.eqb (Flags.fromfile fl) "-"
    then (ioutil_ReadAll_Stdin, ReadAll_answer)
    else (local (ioutil_ReadFile (Flags.fromfile fl)), ReadFile_answer (Flags.fromfile fl)) in
  hd_error (main_action fl client token media).1 = Some read.1
  /\ match read.2 with
     | (_, Some e) =>
         main_action fl client token media
         = ([read.1; log_Fatal ["cannot read a new tweet:"; Error e]], Exited 1)
     | (text, None) =>
         requests (main_action fl client token media).1
         = [rawRequest client token "POST"
              "https://api.twitter.com/1.1/statuses/update.json"
              (<["status" := text]>
                 (<["in_reply_to_status_id" := Flags.inreply fl]>
                    (<["media_ids" := files_String media]> ∅)))]
     end.
Proof.
  intros Hsearch Hreply Hlist Huser Hfav Hfile.
  unfold main_action. cbv zeta.
  rewrite Hsearch, Hreply, Hlist, Huser, Hfav, (not_empty _ Hfile).
  change (0 <? len "") with false. change (negb (String.eqb "" "")) with false. cbv iota.
  unfold readFile.
  destruct (String.eqb (Flags.fromfile fl) "-"); cbn [fst snd].
  - unfold ask. rewrite rbind_returned. split; [reflexivity |].
    destruct ReadAll_answer as [text [e |]]; [reflexivity |].
    cbn [fst]. rewrite requests_app, requests_post. reflexivity.
  - unfold lift, call. cbn [fst snd fmap list_fmap]. rewrite rbind_returned.
    split; [reflexivity |].
    destruct (ReadFile_answer (Flags.fromfile fl)) as [text [e |]]; [reflexivity |].
    cbn [fst]. rewrite requests_app, requests_post. reflexivity.
Qed.

(** X28: with no flag of an earlier branch.  Without arguments and
    without media, [-i] retweets that id and its absence asks for the home
    timeline, each with the count alone as option.  With an argument or a
    media file the run posts one status: the arguments joined by single
    spaces, the reply id and the comma-joined media list; [-i] then never
    retweets. *)
Theorem main_default_action (fl : Flags.t) (client : oauth.Client)
    (token : option oauth.Credentials) (media : list string) :
  Flags.search fl = "" ->
  Flags.reply fl = false ->
  Flags.list_ fl = "" ->
  Flags.user fl = "" ->
  Flags.favorite fl = "" ->
  Flags.fromfile fl = "" ->
  Flags.show_user fl = "" ->
  requests (main_action fl client token media).1
  = [ match Flags.Args fl, media with
      | [], [] =>
          if String.eqb (Flags.inreply fl) ""
          then rawRequest client token "GET"
                 "https://api.twitter.com/1.1/statuses/home_timeline.json"
                 (countToOpt ∅ (Flags.count fl))
          else rawRequest client token "POST"
                 ("https://api.twitter.com/1.1/statuses/retweet/"
                  +:+ Flags.inreply fl +:+ ".json")
                 (countToOpt ∅ (Flags.count fl))
      | _, _ =>
          rawRequest client token "POST"
            "https://api.twitter.com/1.1/statuses/update.json"
            (<["status" := Join (Flags.Args fl) " "]>
               (<["in_reply_to_status_id" := Flags.inreply fl]>
                  (<["media_ids" := files_String media]> ∅)))
      end ].
Proof.
  intros Hsearch Hreply Hlist Huser Hfav Hfile Hshow.
  unfold main_action. cbv zeta.
  rewrite Hsearch, Hreply, Hlist, Huser, Hfav, Hfile, Hshow.
  change (0 <? len "") with false. change (negb (String.eqb "" "")) with false. cbv iota.
  destruct (Flags.Args fl) as [| arg args]; [destruct media as [| m media'] |].
  - change (Z.of_nat (@length string []) =? 0) with true. cbn [andb].
    destruct (String.eqb (Flags.inreply fl) ""); cbn [negb].
    + apply requests_call_then. intros v. apply requests_lift.
    + apply requests_call_then. intros v. reflexivity.
  - change (Z.of_nat (@length string []) =? 0) with true. cbn [andb].
    replace (Z.of_nat (length (m :: media')) =? 0) with false
      by (symmetry; apply Z.eqb_neq; cbn [length]; lia).
    apply requests_post.
  - replace (Z.of_nat (length (arg :: args)) =? 0) with false
      by (symmetry; apply Z.eqb_neq; cbn [length]; lia).
    cbn [andb]. apply requests_post.
Qed.

End Posting.

Section Endings.

Context `{Platform} `{Remote}.

Local Open Scope run_scope.

Lemma rawRequest_plumbing (client : oauth.Client) (token : option oauth.Credentials)
    (method uri : string) (opt : gmap string string) :
  is_plumbing (rawRequest client token method uri opt) = true.
Proof. unfold rawRequest. destruct (String.eqb method "GET"); reflexivity. Qed.

Lemma plumbing_filters (pre : list action) :
  forallb is_plumbing pre = true ->
  List.filter is_WriteFile pre = []
  /\ List.filter is_log_Fatal pre = []
  /\ List.filter is_rendering pre = [].
Proof.
  induction pre as [| a pre IH]; intros Hpre; [repeat split |].
  cbn [forallb] in Hpre. apply andb_true_iff in Hpre as [Ha Hpre].
  destruct (IH Hpre) as (Hw & Hf & Hr).
  unfold is_plumbing in Ha.
  apply andb_true_iff in Ha as [Ha Ha3]. apply andb_true_iff in Ha as [Ha1 Ha2].
  apply negb_true_iff in Ha1, Ha2, Ha3.
  cbn [List.filter]. rewrite Ha1, Ha2, Ha3. repeat split; assumption.
Qed.

(** Plumbing before a run that ends in order. *)
Lemma ends_cleanly_after (pre : list action) (run : Run unit) :
  forallb is_plumbing pre = true ->
  ends_cleanly run ->
  ends_cleanly (pre ++ run.1, run.2).
Proof.
  intros Hpre [Hwrite Hend].
  destruct (plumbing_filters pre Hpre) as (Hw & Hf & Hr).
  split; cbn [fst snd].
  - rewrite List.filter_app, Hw, Hwrite. reflexivity.
  - destruct run.2 as [[] | code |].
    + rewrite List.filter_app, Hf, Hend. reflexivity.
    + destruct Hend as (Hcode & [v Hlast] & Hrender).
      split; [exact Hcode |]. split.
      * exists v. rewrite last_app, Hlast. reflexivity.
      * rewrite List.filter_app, Hr, Hrender. reflexivity.
    + exact Hend.
Qed.

Lemma ends_cleanly_Fatal (v : list string) : ends_cleanly (Fatal v).
Proof.
  split; [reflexivity |]. cbn. split; [reflexivity |].
  split; [exists v |]; reflexivity.
Qed.

(** A run that returns and only renders. *)
Lemma ends_cleanly_rendering (tr : list action) :
  forallb (fun a => negb (is_WriteFile a) && negb (is_log_Fatal a)) tr = true ->
  ends_cleanly (tr, Returned tt).
Proof.
  intros Htr.
  assert (Hboth : List.filter is_WriteFile tr = [] /\ List.filter is_log_Fatal tr = []).
  { induction tr as [| a tr IH]; [split; reflexivity |].
    cbn [forallb] in Htr. apply andb_true_iff in Htr as [Ha Htr].
    apply andb_true_iff in Ha as [Ha1 Ha2]. apply negb_true_iff in Ha1, Ha2.
    destruct (IH Htr) as [Hw Hf]. cbn [List.filter]. rewrite Ha1, Ha2. split; assumption. }
  destruct Hboth as [Hw Hf]. split; [exact Hw | exact Hf].
Qed.

Lemma ends_cleanly_lift (tr : list event) : ends_cleanly (local <$> tr, Returned tt).
Proof.
  split; cbn [fst snd]; apply filter_local; reflexivity.
Qed.

(** A call followed by a continuation that treats an error as fatal and
    otherwise ends in order. *)
Lemma ends_cleanly_call {A} (decode : Decoder A) (debug : bool)
    (client : oauth.Client) (token : option oauth.Credentials)
    (method uri : string) (opt : gmap string string) (res : option A)
    (k : option A * option error -> Run unit) :
  (forall v e, exists msg, k (v, Some e) = Fatal msg) ->
  (forall v, ends_cleanly (k (v, None))) ->
  ends_cleanly (rbind (rawCall decode debug client token method uri opt res) k).
Proof.
  intros Herr Hok. rewrite rawCall_run.
  pose proof (rawRequest_plumbing client token method uri opt) as Hreq.
  destruct (rawAnswer client token method uri opt) as [resp [e |]].
  - rewrite rbind_returned. apply ends_cleanly_after.
    + cbn [forallb]. rewrite Hreq. reflexivity.
    + destruct (Herr res e) as [msg ->]. apply ends_cleanly_Fatal.
  - destruct res as [target |].
    + rewrite rbind_returned. apply ends_cleanly_after.
      * cbn [forallb]. rewrite Hreq. destruct debug; reflexivity.
      * destruct (decode (Body resp) target) as [v [e |]]; cbn [fst snd].
        -- destruct (Herr (Some v) e) as [msg ->]. apply ends_cleanly_Fatal.
        -- apply Hok.
    + rewrite rbind_returned. apply ends_cleanly_after.
      * cbn [forallb]. rewrite Hreq. reflexivity.
      * apply Hok.
Qed.

Lemma ends_cleanly_post (fl : Flags.t) (client : oauth.Client)
    (token : option oauth.Credentials) (media : list string) (status : string) :
  ends_cleanly (post fl client token media status).
Proof.
  unfold post. apply ends_cleanly_call.
  - intros v e. eexists. reflexivity.
  - intros v. apply ends_cleanly_rendering. reflexivity.
Qed.

Lemma ends_cleanly_showUser (user : User.t) (asjson verbose : bool) :
  ends_cleanly (showUser user asjson verbose).
Proof.
  unfold showUser. destruct asjson; [| destruct verbose];
    apply ends_cleanly_rendering; reflexivity.
Qed.

Lemma ends_cleanly_showTweets (tweets : list Tweet.t) (asjson verbose : bool) :
  ends_cleanly (lift (showTweets tweets asjson verbose)).
Proof. rewrite lift_showTweets. apply ends_cleanly_lift. Qed.

Ltac fetch_and_show :=
  apply ends_cleanly_call;
  [ intros ? ?; eexists; reflexivity
  | intros ?; first [ apply ends_cleanly_showTweets
                    | apply ends_cleanly_showUser
                    | apply ends_cleanly_rendering; reflexivity ] ].

Lemma main_action_ends_cleanly (fl : Flags.t) (client : oauth.Client)
    (token : option oauth.Credentials) (media : list string) :
  ends_cleanly (main_action fl client token media).
Proof.
  unfold main_action. cbv zeta.
  destruct (0 <? len (Flags.search fl)).
  { rewrite dates_ignored. fetch_and_show. }
  destruct (Flags.reply fl).
  { fetch_and_show. }
  destruct (negb (String.eqb (Flags.list_ fl) "")).
  { rewrite SplitN_cut.
    destruct (cut (Flags.list_ fl) "/") as [[owner slug] |].
    - change (Z.of_nat (length [owner; slug]) =? 1) with false. cbv iota.
      rewrite rbind_rret.
      change (rindex [owner; slug] 0) with (rret owner).
      change (rindex [owner; slug] 1) with (rret slug).
      rewrite !rbind_rret. fetch_and_show.
    - change (Z.of_nat (length [Flags.list_ fl]) =? 1) with true. cbv iota.
      change (rindex [Flags.list_ fl] 0) with (rret (Flags.list_ fl)).
      rewrite rbind_assoc. apply ends_cleanly_call.
      + intros v e. eexists. reflexivity.
      + intros v. run_steps.
        change (rindex [Account.ScreenName (default Account.zero v); Flags.list_ fl] 0)
          with (rret (Account.ScreenName (default Account.zero v))).
        change (rindex [Account.ScreenName (default Account.zero v); Flags.list_ fl] 1)
          with (rret (Flags.list_ fl)).
        rewrite !rbind_rret. fetch_and_show. }
  destruct (negb (String.eqb (Flags.user fl) "")).
  { fetch_and_show. }
  destruct (negb (String.eqb (Flags.favorite fl) "")).
  { fetch_and_show. }
  destruct (negb (String.eqb (Flags.fromfile fl) "")).
  { unfold readFile.
    destruct (String.eqb (Flags.fromfile fl) "-").
    - unfold ask. rewrite rbind_returned. apply ends_cleanly_after; [reflexivity |].
      destruct ReadAll_answer as [text [e |]];
        [apply ends_cleanly_Fatal | apply ends_cleanly_post].
    - unfold lift, call. cbn [fst snd fmap list_fmap]. rewrite rbind_returned.
      apply ends_cleanly_after; [reflexivity |].
      destruct (ReadFile_answer (Flags.fromfile fl)) as [text [e |]];
        [apply ends_cleanly_Fatal | apply ends_cleanly_post]. }
  destruct (negb (String.eqb (Flags.show_user fl) "")).
  { fetch_and_show. }
  destruct ((Z.of_nat (length (Flags.Args fl)) =? 0) && (Z.of_nat (length media) =? 0)).
  { destruct (negb (String.eqb (Flags.inreply fl) "")); fetch_and_show. }
  apply ends_cleanly_post.
Qed.

(** X29: however the branches of [main] after the uploads end, they end
    in order.  They never panic.  A run that returns has logged no fatal
    error.  A run that exits does so with status 1 straight after its
    fatal log line, and has rendered nothing: no tweet, no user, no
    confirmation line is printed before a failure. *)
Theorem main_action_endings (fl : Flags.t) (client : oauth.Client)
    (token : option oauth.Credentials) (media : list string) :
  match (main_action fl client token media).2 with
  | Returned _ =>
      List.filter is_log_Fatal (main_action fl client token media).1 = []
  | Exited code =>
      code = 1
      /\ (exists v, last (main_action fl client token media).1 = Some (log_Fatal v))
      /\ List.filter is_rendering (main_action fl client token media).1 = []
  | Panicked => False
  end.
Proof.
  exact (proj2 (main_action_ends_cleanly fl client token media)).
Qed.

End Endings.

Section Persisting.

Context `{Platform} `{Remote}.

Local Open Scope run_scope.









End Persisting.

Lemma main_search_request_witness :
  requests
    (@main_action Sample.platform Wire.remote (Wire.flags "golang" "" "" "" "" [])
       oauthClient_init Wire.bobToken []).1
  = [http_Get
       "https://api.twitter.com/1.1/search/tweets.json?oauth_token=at&count=5&q=golang"].
Proof.
  assert (Hsearch : Flags.search (Wire.flags "golang" "" "" "" "" []) <> "")
    by discriminate.
  rewrite (proj1 (@main_search_request Sample.platform Wire.remote
                    (Wire.flags "golang" "" "" "" "" [])
                    oauthClient_init Wire.bobToken [] Hsearch)).
  reflexivity.
Defined.

Lemma main_list_owner_witness :
  requests
    (@main_action Sample.platform Wire.remote (Wire.flags "" "mattn_jp/sub/tech" "" "" "" [])
       oauthClient_init Wire.bobToken []).1
  = [http_Get
       "https://api.twitter.com/1.1/lists/statuses.json?owner_screen_name=mattn_jp&oauth_token=at&slug=sub/tech&count=5"]
  /\ requests
       (@main_action Sample.platform Wire.remote (Wire.flags "" "subtech" "" "" "" [])
          oauthClient_init Wire.bobToken []).1
     = [http_Get "https://api.twitter.com/1.1/account/settings.json?oauth_token=at";
        http_Get
          "https://api.twitter.com/1.1/lists/statuses.json?owner_screen_name=bob&oauth_token=at&slug=subtech&count=5"].
Proof.
  split.
  - assert (Hlist : Flags.list_ (Wire.flags "" "mattn_jp/sub/tech" "" "" "" []) <> "")
      by discriminate.
    rewrite (proj1 (@main_list_owner Sample.platform Wire.remote
                      (Wire.flags "" "mattn_jp/sub/tech" "" "" "" [])
                      oauthClient_init Wire.bobToken [] eq_refl eq_refl Hlist)
               "mattn_jp" "sub/tech" eq_refl eq_refl).
    reflexivity.
  - assert (Hlist : Flags.list_ (Wire.flags "" "subtech" "" "" "" []) <> "")
      by discriminate.
    rewrite (proj2 (@main_list_owner Sample.platform Wire.remote
                      (Wire.flags "" "subtech" "" "" "" [])
                      oauthClient_init Wire.bobToken [] eq_refl eq_refl Hlist)
               eq_refl).
    reflexivity.
Defined.

Lemma main_favorite_witness :
  @main_action Sample.platform Wire.remote (Wire.flags "" "" "42" "" "" [])
    oauthClient_init Wire.bobToken []
  = ([ http_PostForm "https://api.twitter.com/1.1/favorites/create.json"
         (<["oauth_token" := ["at"]]> (<["id" := ["42"]]> ∅));
       Body_Close;
       local (color_Set FgHiRed);
       local (fmt_Print [_EmojiRedHeart]);
       local (color_Set Reset);
       local (fmt_Println ["favorited"]) ],
     Returned tt)
  /\ (@main_action Sample.platform Wire.offline (Wire.flags "" "" "42" "" "" [])
        oauthClient_init Wire.bobToken []).2
     = Exited 1.
Proof.
  assert (Hfav : Flags.favorite (Wire.flags "" "" "42" "" "" []) <> "") by discriminate.
  split.
  - rewrite (@main_favorite Sample.platform Wire.remote (Wire.flags "" "" "42" "" "" [])
               oauthClient_init Wire.bobToken [] eq_refl eq_refl eq_refl eq_refl Hfav).
    vm_compute. reflexivity.
  - rewrite (@main_favorite Sample.platform Wire.offline (Wire.flags "" "" "42" "" "" [])
               oauthClient_init Wire.bobToken [] eq_refl eq_refl eq_refl eq_refl Hfav).
    reflexivity.
Defined.

Lemma main_fromfile_witness :
  requests
    (@main_action Sample.platform Wire.remote (Wire.flags "" "" "" "-" "7" [])
       oauthClient_init Wire.bobToken ["id-a.png"; "id-b.png"]).1
  = [http_PostForm "https://api.twitter.com/1.1/statuses/update.json"
       (<["oauth_token" := ["at"]]>
          (<["status" := ["from stdin"]]>
             (<["in_reply_to_status_id" := ["7"]]>
                (<["media_ids" := ["id-a.png,id-b.png"]]> ∅))))]
  /\ @main_action Sample.platform Wire.remote (Wire.flags "" "" "" "gone.txt" "7" [])
       oauthClient_init Wire.bobToken []
     = ([ local (ioutil_ReadFile "gone.txt");
          log_Fatal ["cannot read a new tweet:"; "no such file or directory"] ],
        Exited 1).
Proof.
  split.
  - assert (Hfile : Flags.fromfile (Wire.flags "" "" "" "-" "7" []) <> "") by discriminate.
    rewrite (proj2 (@main_fromfile Sample.platform Wire.remote
                      (Wire.flags "" "" "" "-" "7" [])
                      oauthClient_init Wire.bobToken ["id-a.png"; "id-b.png"]
                      eq_refl eq_refl eq_refl eq_refl eq_refl Hfile)).
    vm_compute. reflexivity.
  - assert (Hfile : Flags.fromfile (Wire.flags "" "" "" "gone.txt" "7" []) <> "")
      by discriminate.
    exact (proj2 (@main_fromfile Sample.platform Wire.remote
                    (Wire.flags "" "" "" "gone.txt" "7" [])
                    oauthClient_init Wire.bobToken []
                    eq_refl eq_refl eq_refl eq_refl eq_refl Hfile)).
Defined.

Lemma main_default_action_witness :
  requests
    (@main_action Sample.platform Wire.remote (Wire.flags "" "" "" "" "7" [])
       oauthClient_init Wire.bobToken []).1
  = [http_PostForm "https://api.twitter.com/1.1/statuses/retweet/7.json"
       (<["oauth_token" := ["at"]]> (<["count" := ["5"]]> ∅))]
  /\ requests
       (@main_action Sample.platform Wire.remote (Wire.flags "" "" "" "" "7" [])
          oauthClient_init Wire.bobToken ["id-a.png"]).1
     = [http_PostForm "https://api.twitter.com/1.1/statuses/update.json"
          (<["oauth_token" := ["at"]]>
             (<["status" := [""]]>
                (<["in_reply_to_status_id" := ["7"]]>
                   (<["media_ids" := ["id-a.png"]]> ∅))))]
  /\ requests
       (@main_action Sample.platform Wire.remote (Wire.flags "" "" "" "" "" ["hello"; "world"])
          oauthClient_init Wire.bobToken []).1
     = [http_PostForm "https://api.twitter.com/1.1/statuses/update.json"
          (<["oauth_token" := ["at"]]>
             (<["status" := ["hello world"]]>
                (<["in_reply_to_status_id" := [""]]>
                   (<["media_ids" := [""]]> ∅))))].
Proof.
  split; [| split].
  - rewrite (@main_default_action Sample.platform Wire.remote
               (Wire.flags "" "" "" "" "7" []) oauthClient_init Wire.bobToken []
               eq_refl eq_refl eq_refl eq_refl eq_refl eq_refl eq_refl).
    vm_compute. reflexivity.
  - rewrite (@main_default_action Sample.platform Wire.remote
               (Wire.flags "" "" "" "" "7" []) oauthClient_init Wire.bobToken ["id-a.png"]
               eq_refl eq_refl eq_refl eq_refl eq_refl eq_refl eq_refl).
    vm_compute. reflexivity.
  - rewrite (@main_default_action Sample.platform Wire.remote
               (Wire.flags "" "" "" "" "" ["hello"; "world"])
               oauthClient_init Wire.bobToken []
               eq_refl eq_refl eq_refl eq_refl eq_refl eq_refl eq_refl).
    vm_compute. reflexivity.
Defined.

